(** * Send amount authority and mirroring engine

    A shallow embedding of the amount core of the web3-UPI send screen:

    - [AmountEngine] (amount-engine.js): [safeParse], [safeRound],
      [deriveFromFiat], [deriveFromAsset], [roundFiat], [roundAsset];
    - [Send] (send.js): [updateAmountMirror] with its two local helpers, the
      amount gating ([handleIntent], [startDrag]), the asset field input
      guard ([beforeinput], [input]), the authority blocker
      ([handleSingleClick], [updateBlockedState]) and
      [resolveChainFamily].

    The JavaScript runtime the code relies on is modelled in [JS]: Number
    values are IEEE-754 binary64 numbers (the Standard Library's
    [spec_float] with [prec = 53] and [emax = 1024]), strings are byte
    strings (UTF-8), and an abrupt completion (a thrown TypeError) is an
    explicit outcome. [Spec] holds the vocabulary of the specification and
    [Scenario] the states used as examples.

    Around that core, [Validation] holds the address validators and
    detectors of send.js, [Overlay] the lists of the chain and asset
    overlay, and [Screen] the page with its address field and gating
    classes: [updateAssetLogo], [selectAsset], [updateDataState], the
    reset and entry lifecycle and the guards of the fiat field. [Props]
    holds the vocabulary of the properties, which follow. *)

From Stdlib Require Import ZArith QArith Qabs Bool List String Ascii Lia.
From Stdlib Require Import DecimalString.
From Stdlib Require Import Floats.SpecFloat.
Import ListNotations.

Local Open Scope string_scope.
Local Open Scope Z_scope.

(* ================================================================== *)
(** * The JavaScript runtime *)
(* ================================================================== *)

Module JS.

(** ** Completions: a call either returns or throws *)

Inductive completion (A : Type) : Type :=
| Normal (a : A)
| Throw (err : string).

Arguments Normal {A} a.
Arguments Throw {A} err.

Definition bind {A B : Type} (c : completion A) (k : A -> completion B)
  : completion B :=
  match c with
  | Normal a => k a
  | Throw err => Throw err
  end.

Notation "x <- c ;; k" := (bind c (fun x => k))
  (at level 61, c at next level, right associativity).

(** ** Number values: binary64 *)

Definition number := spec_float.

Definition prec : Z := 53.
Definition emax : Z := 1024.

Definition NaN : number := S754_nan.
Definition zero : number := S754_zero false.
Definition Infinity : number := S754_infinity false.

Definition mul : number -> number -> number := SFmul prec emax.
Definition div : number -> number -> number := SFdiv prec emax.
Definition ltb : number -> number -> bool := SFltb.
Definition leb : number -> number -> bool := SFleb.
(** [x === y] on two Numbers. *)
Definition eqb : number -> number -> bool := SFeqb.

Definition isNaN (x : number) : bool :=
  match x with S754_nan => true | _ => false end.

(** [!x] is false for a Number exactly when it is neither a zero nor NaN. *)
Definition truthy (x : number) : bool :=
  match x with
  | S754_zero _ | S754_nan => false
  | _ => true
  end.

(** Structural identity of two Number values (NaN is one value, the two
    zeros are distinct). *)
Definition same (x y : number) : bool :=
  match x, y with
  | S754_zero a, S754_zero b => Bool.eqb a b
  | S754_infinity a, S754_infinity b => Bool.eqb a b
  | S754_nan, S754_nan => true
  | S754_finite a m e, S754_finite b m' e' =>
      Bool.eqb a b && Pos.eqb m m' && Z.eqb e e'
  | _, _ => false
  end.

(** The Number nearest to the integer [n] (ties to even). *)
Definition ofZ (n : Z) : number := binary_normalize prec emax n 0 false.

(** The Number nearest to [m * 10^e], for [0 <= m]: the value of a decimal
    literal with digits [m] and decimal exponent [e]. *)
Definition ofDecimal (m e : Z) : number :=
  match m with
  | Zpos p =>
      if 0 <=? e then ofZ (m * 10 ^ e)
      else div (S754_finite false p 0)
               (S754_finite false (Z.to_pos (10 ^ (- e))) 0)
  | _ => zero
  end.

Definition neg (x : number) : number := SFopp x.

(** [Math.pow(10, d)] for a non-negative integer [d]. *)
Definition Math_pow10 (d : Z) : number := ofZ (10 ^ d).

(** [Math.round(x)]: the integer [floor(x + 1/2)]; a zero result keeps the
    sign of [x]. *)
Definition Math_round (x : number) : number :=
  match x with
  | S754_finite s m e =>
      if 0 <=? e then x
      else
        let M := if s then Zneg m else Zpos m in
        binary_normalize prec emax
          ((2 * M + 2 ^ (- e)) / 2 ^ (1 - e)) 0 s
  | _ => x
  end.

(** The exact rational value of a finite Number. *)
Definition toQ (x : number) : option Q :=
  match x with
  | S754_zero _ => Some 0%Q
  | S754_finite s m e =>
      let M := if s then Zneg m else Zpos m in
      Some (if 0 <=? e then inject_Z (M * 2 ^ e)
            else Qmake M (Z.to_pos (2 ^ (- e))))
  | _ => None
  end.

(** ** Strings *)

Definition isDigit (c : ascii) : bool :=
  let n := nat_of_ascii c in (48 <=? n)%nat && (n <=? 57)%nat.

Definition isDot (c : ascii) : bool := Ascii.eqb c ".".

(** White space and line terminators, as [trim] and the numeric conversions
    strip them, in their UTF-8 encoding: the one-byte TAB, LF, VT, FF, CR
    and SP; the two-byte U+00A0; the three-byte U+1680, U+2000 to U+200A,
    U+2028, U+2029, U+202F, U+205F, U+3000 and U+FEFF. *)
Definition isWhiteSpace (c : ascii) : bool :=
  let n := nat_of_ascii c in
  ((9 <=? n)%nat && (n <=? 13)%nat) || (n =? 32)%nat.

Definition isWhiteSpace2 (c1 c2 : ascii) : bool :=
  (nat_of_ascii c1 =? 194)%nat && (nat_of_ascii c2 =? 160)%nat.

Definition isWhiteSpace3 (c1 c2 c3 : ascii) : bool :=
  let a := nat_of_ascii c1 in
  let b := nat_of_ascii c2 in
  let c := nat_of_ascii c3 in
  ((a =? 225) && (b =? 154) && (c =? 128))%nat
  || ((a =? 226) && (b =? 128)
      && (((128 <=? c) && (c <=? 138)) || (c =? 168) || (c =? 169)
          || (c =? 175)))%nat
  || ((a =? 226) && (b =? 129) && (c =? 159))%nat
  || ((a =? 227) && (b =? 128) && (c =? 128))%nat
  || ((a =? 239) && (b =? 187) && (c =? 191))%nat.

Fixpoint filter (keep : ascii -> bool) (s : string) : string :=
  match s with
  | EmptyString => EmptyString
  | String c s' => if keep c then String c (filter keep s') else filter keep s'
  end.

Fixpoint skip (n : nat) (s : string) : string :=
  match n, s with
  | S n', String _ s' => skip n' s'
  | _, _ => s
  end.

(** [s.includes(sub)] *)
Fixpoint includes (sub s : string) : bool :=
  if prefix sub s then true
  else match s with
       | EmptyString => false
       | String _ s' => includes sub s'
       end.

(** [s.replace(pat, rep)] with a string pattern: the first occurrence only. *)
Fixpoint replace (pat rep s : string) : string :=
  if prefix pat s then rep ++ skip (String.length pat) s
  else match s with
       | EmptyString => EmptyString
       | String c s' => String c (replace pat rep s')
       end.

Fixpoint trimStart (s : string) : string :=
  match s with
  | EmptyString => EmptyString
  | String c1 s1 =>
      if isWhiteSpace c1 then trimStart s1
      else
        match s1 with
        | String c2 s2 =>
            if isWhiteSpace2 c1 c2 then trimStart s2
            else
              match s2 with
              | String c3 s3 =>
                  if isWhiteSpace3 c1 c2 c3 then trimStart s3 else s
              | EmptyString => s
              end
        | EmptyString => s
        end
  end.

(** The text up to its last character that is not white space: it ends
    where all that is left is white space. *)
Fixpoint trimEnd (s : string) : string :=
  match s with
  | EmptyString => EmptyString
  | String c s' =>
      match trimStart s with
      | EmptyString => EmptyString
      | _ => String c (trimEnd s')
      end
  end.

Definition trim (s : string) : string := trimEnd (trimStart s).

Definition lowerChar (c : ascii) : ascii :=
  let n := nat_of_ascii c in
  if (65 <=? n)%nat && (n <=? 90)%nat then ascii_of_nat (n + 32) else c.

(** [s.toLowerCase()]: the ASCII letters; no other character has a lower
    case with one of the letters the engine looks for next to its
    neighbours. *)
Fixpoint toLowerCase (s : string) : string :=
  match s with
  | EmptyString => EmptyString
  | String c s' => String (lowerChar c) (toLowerCase s')
  end.

(** [s.split('.')]: always at least one part. *)
Fixpoint split_dot (s : string) : list string :=
  match s with
  | EmptyString => [EmptyString]
  | String c s' =>
      if isDot c then EmptyString :: split_dot s'
      else match split_dot s' with
           | p :: ps => String c p :: ps
           | [] => [String c EmptyString]
           end
  end.

Fixpoint zeros (n : nat) : string :=
  match n with
  | O => EmptyString
  | S n' => String "0" (zeros n')
  end.

(** All the bytes of [s] are ASCII. *)
Fixpoint asciiOnly (s : string) : bool :=
  match s with
  | EmptyString => true
  | String c s' => (nat_of_ascii c <? 128)%nat && asciiOnly s'
  end.

(** Decimal digits of a non-negative integer. *)
Definition digitsOf (n : Z) : string :=
  NilEmpty.string_of_uint (N.to_uint (Z.to_N n)).

(** ** String to Number *)

Definition digitVal (c : ascii) : Z := Z.of_nat (nat_of_ascii c) - 48.

(** The leading decimal digits of [s]: their value on top of [acc], how
    many there are on top of [cnt], and what follows them. *)
Fixpoint scanDigits (acc cnt : Z) (s : string) : Z * Z * string :=
  match s with
  | String c s' =>
      if isDigit c then scanDigits (10 * acc + digitVal c) (cnt + 1) s'
      else (acc, cnt, s)
  | EmptyString => (acc, cnt, s)
  end.

(** An ExponentPart, consumed only when it is complete. *)
Definition scanExponent (s : string) : Z * string :=
  match s with
  | String c r =>
      if Ascii.eqb c "e" || Ascii.eqb c "E" then
        let '(sg, r') :=
          match r with
          | String "+"%char t => (1, t)
          | String "-"%char t => (-1, t)
          | _ => (1, r)
          end in
        let '(v, cnt, rest) := scanDigits 0 0 r' in
        if cnt =? 0 then (0, s) else (sg * v, rest)
      else (0, s)
  | EmptyString => (0, s)
  end.

(** The longest prefix that is a StrUnsignedDecimalLiteral (other than
    Infinity): digits [m], decimal exponent [e], and the rest. *)
Definition scanUnsigned (s : string) : option (Z * Z * string) :=
  let '(ip, ic, r1) := scanDigits 0 0 s in
  match r1 with
  | String "."%char r =>
      let '(m, fc, r2) := scanDigits ip 0 r in
      if (ic =? 0) && (fc =? 0) then None
      else let '(ex, r3) := scanExponent r2 in Some (m, ex - fc, r3)
  | _ =>
      if ic =? 0 then None
      else let '(ex, r3) := scanExponent r1 in Some (ip, ex, r3)
  end.

Definition withSign (sg : bool) (x : number) : number :=
  if sg then neg x else x.

(** The longest prefix that is a StrDecimalLiteral, as a Number. *)
Definition scanDecimal (s : string) : option (number * string) :=
  let '(sg, r) :=
    match s with
    | String "+"%char t => (false, t)
    | String "-"%char t => (true, t)
    | _ => (false, s)
    end in
  if prefix "Infinity" r then Some (S754_infinity sg, skip 8 r)
  else match scanUnsigned r with
       | Some (m, e, rest) => Some (withSign sg (ofDecimal m e), rest)
       | None => None
       end.

Definition radixDigit (radix : Z) (c : ascii) : option Z :=
  let n := Z.of_nat (nat_of_ascii c) in
  let v := if (48 <=? n) && (n <=? 57) then n - 48
           else if (97 <=? n) && (n <=? 102) then n - 87
           else if (65 <=? n) && (n <=? 70) then n - 55
           else -1 in
  if (0 <=? v) && (v <? radix) then Some v else None.

Fixpoint scanRadix (radix acc : Z) (s : string) : option Z :=
  match s with
  | EmptyString => Some acc
  | String c s' =>
      match radixDigit radix c with
      | Some v => scanRadix radix (radix * acc + v) s'
      | None => None
      end
  end.

(** A NonDecimalIntegerLiteral ([0x], [0o], [0b]); [None] when [t] does
    not start like one. *)
Definition nonDecimal (t : string) : option number :=
  match t with
  | String "0"%char (String c r) =>
      let radix :=
        if Ascii.eqb c "x" || Ascii.eqb c "X" then 16
        else if Ascii.eqb c "o" || Ascii.eqb c "O" then 8
        else if Ascii.eqb c "b" || Ascii.eqb c "B" then 2
        else 0 in
      if radix =? 0 then None
      else match r with
           | EmptyString => Some NaN
           | _ => match scanRadix radix 0 r with
                  | Some v => Some (ofZ v)
                  | None => Some NaN
                  end
           end
  | _ => None
  end.

(** StringToNumber: [Number(s)] for a string [s]. *)
Definition StringToNumber (s : string) : number :=
  let t := trim s in
  match t with
  | EmptyString => zero
  | _ =>
      match nonDecimal t with
      | Some x => x
      | None =>
          match scanDecimal t with
          | Some (x, EmptyString) => x
          | _ => NaN
          end
      end
  end.

(** [parseFloat(s)] *)
Definition parseFloat (s : string) : number :=
  match scanDecimal (trimStart s) with
  | Some (x, _) => x
  | None => NaN
  end.

(** ** Number to string *)

(** A finite positive Number [m * 2^e] as a fraction. *)
Definition ratOf (m : positive) (e : Z) : Z * Z :=
  if 0 <=? e then (Zpos m * 2 ^ e, 1) else (Zpos m, 2 ^ (- e)).

Fixpoint findUp (fuel : nat) (num den n : Z) : Z :=
  match fuel with
  | O => n
  | S f => if num <? den * 10 ^ n then n else findUp f num den (n + 1)
  end.

Fixpoint findDown (fuel : nat) (num den j : Z) : Z :=
  match fuel with
  | O => j
  | S f => if den <=? num * 10 ^ j then j else findDown f num den (j + 1)
  end.

(** The [n] with [10^(n-1) <= num/den < 10^n]. *)
Definition decimalExponent (num den : Z) : Z :=
  if den <=? num then findUp 400 num den 1
  else 1 - findDown 400 num den 1.

(** The [k]-digit integer [s] nearest to [x * 10^(k - n0)] among those for
    which [s * 10^(n0 - k)] reads back as [x], if there is one. *)
Definition candidate (x : number) (num den n0 k : Z) : option Z :=
  let t := k - n0 in
  let A := if 0 <=? t then num * 10 ^ t else num in
  let B := if 0 <=? t then den else den * 10 ^ (- t) in
  let lo := A / B in
  let r := A mod B in
  let okLo := same (ofDecimal lo (- t)) x in
  let okHi := same (ofDecimal (lo + 1) (- t)) x in
  if r =? 0 then (if okLo then Some lo else None)
  else
    match okLo, okHi with
    | true, true =>
        Some (if 2 * r <? B then lo
              else if B <? 2 * r then lo + 1
              else if Z.even lo then lo else lo + 1)
    | true, false => Some lo
    | false, true => Some (lo + 1)
    | false, false => None
    end.

Fixpoint shortest (fuel : nat) (x : number) (num den n0 k : Z) : Z * Z :=
  match fuel with
  | O => ((num * 10 ^ (k - n0)) / den, k)
  | S f =>
      match candidate x num den n0 k with
      | Some s => (s, k)
      | None => shortest f x num den n0 (k + 1)
      end
  end.

Fixpoint stripZerosRev (s : list ascii) : list ascii :=
  match s with
  | c :: s' => if Ascii.eqb c "0" then stripZerosRev s' else s
  | [] => []
  end.

(** Drops the trailing zeros of a digit string. *)
Definition stripZeros (s : string) : string :=
  string_of_list_ascii (rev (stripZerosRev (rev (list_ascii_of_string s)))).

(** The digits [D] and the exponent [n] of Number::toString for a finite
    positive Number: its value is [0.D * 10^n], [D] is as short as a
    decimal that reads back as the Number can be. *)
Definition shortestDigits (m : positive) (e : Z) : string * Z :=
  let '(num, den) := ratOf m e in
  let n0 := decimalExponent num den in
  let '(s, k) := shortest 17 (S754_finite false m e) num den n0 1 in
  let all := digitsOf s in
  (stripZeros all, n0 + Z.of_nat (String.length all) - k).

Definition lengthZ (s : string) : Z := Z.of_nat (String.length s).

(** The text of Number::toString from the digits [D] and the exponent [n]. *)
Definition formatDigits (D : string) (n : Z) : string :=
  let k := lengthZ D in
  if (k <=? n) && (n <=? 21) then D ++ zeros (Z.to_nat (n - k))
  else if (0 <? n) && (n <=? 21) then
    substring 0 (Z.to_nat n) D ++ "." ++ skip (Z.to_nat n) D
  else if (-6 <? n) && (n <=? 0) then
    "0." ++ zeros (Z.to_nat (- n)) ++ D
  else
    let ex := n - 1 in
    let sg := if ex <? 0 then "-" else "+" in
    let mant := if k =? 1 then D else substring 0 1 D ++ "." ++ skip 1 D in
    mant ++ "e" ++ sg ++ digitsOf (Z.abs ex).

(** [x.toString()] *)
Definition Number_toString (x : number) : string :=
  match x with
  | S754_nan => "NaN"
  | S754_zero _ => "0"
  | S754_infinity s => if s then "-Infinity" else "Infinity"
  | S754_finite s m e =>
      let '(D, n) := shortestDigits m e in
      (if s then "-" else "") ++ formatDigits D n
  end.

(** The decimal text of [N / 10^f] with exactly [f] fraction digits. *)
Definition fixedText (N : Z) (f : nat) : string :=
  let p := 10 ^ Z.of_nat f in
  let ip := digitsOf (N / p) in
  match f with
  | O => ip
  | _ =>
      let fr := digitsOf (N mod p) in
      ip ++ "." ++ zeros (f - String.length fr) ++ fr
  end.

(** [x.toFixed(f)]: the integer nearest to [x * 10^f], the larger one on a
    tie, written with [f] fraction digits; [toString] from 1e21 on. *)
Definition Number_toFixed (x : number) (f : nat) : string :=
  match x with
  | S754_nan => "NaN"
  | S754_zero _ => fixedText 0 f
  | S754_infinity s => if s then "-Infinity" else "Infinity"
  | S754_finite s m e =>
      let '(num, den) := ratOf m e in
      if 10 ^ 21 * den <=? num then Number_toString x
      else
        let N := (2 * num * 10 ^ Z.of_nat f + den) / (2 * den) in
        (if s then "-" else "") ++ fixedText N f
  end.

(** [x.toLocaleString('en-US', { useGrouping: false,
    maximumFractionDigits: 20 })]: plain positional notation of the
    shortest digits, at most 20 fraction digits, no trailing zeros. *)
Definition Number_toLocaleString (x : number) : string :=
  match x with
  | S754_nan => "NaN"
  | S754_zero s => if s then "-0" else "0"
  | S754_infinity s => if s then "-∞" else "∞"
  | S754_finite s m e =>
      let '(D, n) := shortestDigits m e in
      let k := lengthZ D in
      let f := Z.min 20 (Z.max 0 (k - n)) in
      let sh := n - k + f in
      let '(d, _, _) := scanDigits 0 0 D in
      let N := if 0 <=? sh then d * 10 ^ sh
               else (2 * d + 10 ^ (- sh)) / (2 * 10 ^ (- sh)) in
      let txt := fixedText N (Z.to_nat f) in
      let txt' := if f =? 0 then txt
                  else let t := stripZeros txt in
                       match split_dot t with
                       | [ip; EmptyString] => ip
                       | _ => t
                       end in
      (if s then "-" else "") ++ txt'
  end.

(** ** Values *)

Inductive primitive : Type :=
| PUndefined
| PNull
| PBoolean (b : bool)
| PNumber (x : number)
| PString (s : string)
| PSymbol
| PBigInt (n : Z).

(** An object is represented by what ToPrimitive (hint number) makes of
    it: a plain object literal gives the string [[object Object]], an empty
    array the empty string, an object without prototype throws. *)
Inductive value : Type :=
| Prim (p : primitive)
| Object (toPrimitive : completion primitive).

Definition undefined : value := Prim PUndefined.
Definition null : value := Prim PNull.
Definition str (s : string) : value := Prim (PString s).
Definition num (x : number) : value := Prim (PNumber x).
Definition plainObject : value := Object (Normal (PString "[object Object]")).

(** [v === null], [v === undefined], [v === ''] *)
Definition isNull (v : value) : bool :=
  match v with Prim PNull => true | _ => false end.
Definition isUndefined (v : value) : bool :=
  match v with Prim PUndefined => true | _ => false end.
Definition isEmptyString (v : value) : bool :=
  match v with Prim (PString EmptyString) => true | _ => false end.

(** [Number(v)] *)
Definition primToNumber (p : primitive) : completion number :=
  match p with
  | PUndefined => Normal NaN
  | PNull => Normal zero
  | PBoolean b => Normal (if b then ofZ 1 else zero)
  | PNumber x => Normal x
  | PString s => Normal (StringToNumber s)
  | PSymbol => Throw "TypeError: Cannot convert a Symbol value to a number"
  | PBigInt n => Normal (ofZ n)
  end.

Definition Number (v : value) : completion number :=
  match v with
  | Prim p => primToNumber p
  | Object c => p <- c ;; primToNumber p
  end.

End JS.


(* ================================================================== *)
(** * amount-engine.js *)
(* ================================================================== *)

Module AmountEngine.
Import JS.

(** [const PRECISION = { fiat: 2, eth: 6, btc: 8, sol: 6, default: 0 }] *)
Record Precision : Type := {
  fiat : Z;
  eth : Z;
  btc : Z;
  sol : Z;
  default : Z
}.

Definition PRECISION : Precision :=
  {| fiat := 2; eth := 6; btc := 8; sol := 6; default := 0 |}.

(** [safeParse(val)]: a JavaScript [null] result is [None]. *)
Definition safeParse (val : value) : completion (option number) :=
  if isNull val || isUndefined val || isEmptyString val then Normal None
  else
    n <- Number val ;;
    if isNaN n then Normal None
    else if ltb n zero then Normal (Some zero)
    else Normal (Some n).

(** [safeRound(value, decimals)] *)
Definition safeRound (value : option number) (decimals : Z) : option number :=
  match value with
  | None => None
  | Some v =>
      let multiplier := Math_pow10 decimals in
      Some (div (Math_round (mul v multiplier)) multiplier)
  end.

(** [roundFiat(amount)] *)
Definition roundFiat (amount : value) : completion (option number) :=
  val <- safeParse amount ;;
  match val with
  | None => Normal None
  | Some _ => Normal (safeRound val (fiat PRECISION))
  end.

(** The precision [roundAsset] selects for [chain]: the body of
    [let decimals = PRECISION.default; if (chain) { ... }], where [chain]
    is a string or [null]. *)
Definition decimalsFor (chain : option string) : Z :=
  match chain with
  | None | Some EmptyString => default PRECISION
  | Some ch =>
      let c := toLowerCase ch in
      if includes "eth" c then eth PRECISION
      else if includes "btc" c || includes "bitcoin" c then btc PRECISION
      else if includes "sol" c then sol PRECISION
      else default PRECISION
  end.

(** [roundAsset(amount, chain)] *)
Definition roundAsset (amount : value) (chain : option string)
  : completion (option number) :=
  val <- safeParse amount ;;
  match val with
  | None => Normal None
  | Some _ => Normal (safeRound val (decimalsFor chain))
  end.

(** [deriveFromFiat(fiatAmount, assetPriceUSD, chain)] *)
Definition deriveFromFiat (fiatAmount assetPriceUSD : value)
  (chain : option string) : completion (option number) :=
  amount <- safeParse fiatAmount ;;
  price <- safeParse assetPriceUSD ;;
  match amount, price with
  | Some a, Some p =>
      if leb p zero then Normal None
      else if eqb a zero then Normal (Some zero)
      else
        let derived := div a p in
        roundAsset (num derived) chain
  | _, _ => Normal None
  end.

(** [deriveFromAsset(assetAmount, assetPriceUSD)] *)
Definition deriveFromAsset (assetAmount assetPriceUSD : value)
  : completion (option number) :=
  amount <- safeParse assetAmount ;;
  price <- safeParse assetPriceUSD ;;
  match amount, price with
  | Some a, Some p =>
      if leb p zero then Normal None
      else if eqb a zero then Normal (Some zero)
      else
        let derived := mul a p in
        roundFiat (num derived)
  | _, _ => Normal None
  end.

(** [normalizeFiat(rawInput)] *)
Definition normalizeFiat (rawInput : value) : completion (option number) :=
  val <- safeParse rawInput ;;
  match val with
  | None => Normal None
  | Some v => roundFiat (num v)
  end.

(** [normalizeAsset(rawInput, chain)] *)
Definition normalizeAsset (rawInput : value) (chain : option string)
  : completion (option number) :=
  val <- safeParse rawInput ;;
  match val with
  | None => Normal None
  | Some v => roundAsset (num v) chain
  end.

End AmountEngine.

(* ================================================================== *)
(** * send.js *)
(* ================================================================== *)

Module Send.
Import JS.

(** [const MAX_ASSET_DIGITS = 17] *)
Definition MAX_ASSET_DIGITS : Z := 17.

(** ** State *)

Inductive InputMode : Type := Fiat | Asset.

(** [APP_STATE] *)
Record AppState : Type := {
  chain : option string;
  asset : option string;
  recipientAddress : option string;
  inputMode : InputMode;
  isBlocked : bool;
  isLocked : bool;
  source : option string;
  chainUserSelected : bool;
  assetUserSelected : bool;
  btcAddressType : option string
}.

(** [VALIDATION_STATE] *)
Record ValidationState : Type := {
  isAddressPresent : bool;
  isAddressValid : bool;
  isChainMatch : bool;
  isSupportedChain : bool
}.

(** [DATA_STATE] *)
Record DataState : Type := {
  gasPrice : option number;
  gasUnit : option string;
  assetPriceUSD : option number;
  lastUpdated : option Z
}.

(** The two amount fields and the slider knob. *)
Inductive Node : Type := UsdInput | AssetDisplay | SliderKnob.

Definition Node_eqb (a b : Node) : bool :=
  match a, b with
  | UsdInput, UsdInput | AssetDisplay, AssetDisplay
  | SliderKnob, SliderKnob => true
  | _, _ => false
  end.

(** An amount field: [content] is the [value] of the text input [#usdIndex]
    and the [textContent] of the div [.currency-display .value];
    [stateNeutral] is membership of [state-neutral] in its class list;
    [limitWarned] is [dataset.limitWarned]. *)
Record Element : Type := {
  content : string;
  stateNeutral : bool;
  readOnly : bool;
  contentEditable : bool;
  limitWarned : bool
}.

Inductive Side : Type := left | right.

(** The closure state of [initAmountBlocker] and the overlay's
    [position-left] and [state-locked] classes. *)
Record Blocker : Type := {
  blockedSide : Side;
  locked : bool;
  positionLeft : bool;
  stateLocked : bool
}.

Record Toast : Type := { message : string; isError : bool }.

(** The state the amount core reads and writes: the three sealed state
    objects, the two fields (both present in the page), the focused
    element, the blocker, the slider's drag state and the toasts shown so
    far. Font sizes, the caret, pointer-events and ARIA attributes are
    presentation and are left out. *)
Record World : Type := {
  APP_STATE : AppState;
  VALIDATION_STATE : ValidationState;
  DATA_STATE : DataState;
  usdInput : Element;
  assetDisplay : Element;
  activeElement : option Node;
  blocker : Blocker;
  isDragging : bool;
  startX : Z;
  toasts : list Toast
}.

Definition set_inputMode (m : InputMode) (a : AppState) : AppState :=
  {| chain := chain a; asset := asset a;
     recipientAddress := recipientAddress a; inputMode := m;
     isBlocked := isBlocked a; isLocked := isLocked a; source := source a;
     chainUserSelected := chainUserSelected a;
     assetUserSelected := assetUserSelected a;
     btcAddressType := btcAddressType a |}.

Definition set_isLocked (b : bool) (a : AppState) : AppState :=
  {| chain := chain a; asset := asset a;
     recipientAddress := recipientAddress a; inputMode := inputMode a;
     isBlocked := isBlocked a; isLocked := b; source := source a;
     chainUserSelected := chainUserSelected a;
     assetUserSelected := assetUserSelected a;
     btcAddressType := btcAddressType a |}.

Definition set_content (s : string) (e : Element) : Element :=
  {| content := s; stateNeutral := stateNeutral e; readOnly := readOnly e;
     contentEditable := contentEditable e; limitWarned := limitWarned e |}.

Definition set_stateNeutral (b : bool) (e : Element) : Element :=
  {| content := content e; stateNeutral := b; readOnly := readOnly e;
     contentEditable := contentEditable e; limitWarned := limitWarned e |}.

Definition set_readOnly (b : bool) (e : Element) : Element :=
  {| content := content e; stateNeutral := stateNeutral e; readOnly := b;
     contentEditable := contentEditable e; limitWarned := limitWarned e |}.

Definition set_contentEditable (b : bool) (e : Element) : Element :=
  {| content := content e; stateNeutral := stateNeutral e;
     readOnly := readOnly e; contentEditable := b;
     limitWarned := limitWarned e |}.

Definition set_limitWarned (b : bool) (e : Element) : Element :=
  {| content := content e; stateNeutral := stateNeutral e;
     readOnly := readOnly e; contentEditable := contentEditable e;
     limitWarned := b |}.

Definition with_APP_STATE (a : AppState) (w : World) : World :=
  {| APP_STATE := a; VALIDATION_STATE := VALIDATION_STATE w;
     DATA_STATE := DATA_STATE w; usdInput := usdInput w;
     assetDisplay := assetDisplay w; activeElement := activeElement w;
     blocker := blocker w; isDragging := isDragging w; startX := startX w;
     toasts := toasts w |}.

Definition with_usdInput (e : Element) (w : World) : World :=
  {| APP_STATE := APP_STATE w; VALIDATION_STATE := VALIDATION_STATE w;
     DATA_STATE := DATA_STATE w; usdInput := e;
     assetDisplay := assetDisplay w; activeElement := activeElement w;
     blocker := blocker w; isDragging := isDragging w; startX := startX w;
     toasts := toasts w |}.

Definition with_assetDisplay (e : Element) (w : World) : World :=
  {| APP_STATE := APP_STATE w; VALIDATION_STATE := VALIDATION_STATE w;
     DATA_STATE := DATA_STATE w; usdInput := usdInput w;
     assetDisplay := e; activeElement := activeElement w;
     blocker := blocker w; isDragging := isDragging w; startX := startX w;
     toasts := toasts w |}.

Definition with_activeElement (a : option Node) (w : World) : World :=
  {| APP_STATE := APP_STATE w; VALIDATION_STATE := VALIDATION_STATE w;
     DATA_STATE := DATA_STATE w; usdInput := usdInput w;
     assetDisplay := assetDisplay w; activeElement := a;
     blocker := blocker w; isDragging := isDragging w; startX := startX w;
     toasts := toasts w |}.

Definition with_blocker (b : Blocker) (w : World) : World :=
  {| APP_STATE := APP_STATE w; VALIDATION_STATE := VALIDATION_STATE w;
     DATA_STATE := DATA_STATE w; usdInput := usdInput w;
     assetDisplay := assetDisplay w; activeElement := activeElement w;
     blocker := b; isDragging := isDragging w; startX := startX w;
     toasts := toasts w |}.

Definition with_drag (d : bool) (x : Z) (w : World) : World :=
  {| APP_STATE := APP_STATE w; VALIDATION_STATE := VALIDATION_STATE w;
     DATA_STATE := DATA_STATE w; usdInput := usdInput w;
     assetDisplay := assetDisplay w; activeElement := activeElement w;
     blocker := blocker w; isDragging := d; startX := x;
     toasts := toasts w |}.

(** [showToast(message, isError)]: the new toast replaces the one on
    screen; [toasts] keeps the history, the latest first. *)
Definition showToast (msg : string) (err : bool) (w : World) : World :=
  {| APP_STATE := APP_STATE w; VALIDATION_STATE := VALIDATION_STATE w;
     DATA_STATE := DATA_STATE w; usdInput := usdInput w;
     assetDisplay := assetDisplay w; activeElement := activeElement w;
     blocker := blocker w; isDragging := isDragging w; startX := startX w;
     toasts := {| message := msg; isError := err |} :: toasts w |}.

Definition element (w : World) (n : Node) : Element :=
  match n with
  | UsdInput => usdInput w
  | _ => assetDisplay w
  end.

Definition with_element (n : Node) (e : Element) (w : World) : World :=
  match n with
  | UsdInput => with_usdInput e w
  | AssetDisplay => with_assetDisplay e w
  | SliderKnob => w
  end.

(** [document.activeElement === n] *)
Definition isActive (w : World) (n : Node) : bool :=
  match activeElement w with
  | Some a => Node_eqb a n
  | None => false
  end.

(** The neutral sentinel. *)
Definition NEUTRAL : string := "— —".
Definition DASH : string := "—".

(** ** updateAmountMirror *)

(** What [setVisualValue] is given to show: a Number, a string or [null]. *)
Inductive shown : Type :=
| ShownNull
| ShownNumber (x : number)
| ShownString (s : string).

(** [safeDecimalString(num)] *)
Definition safeDecimalString (n : shown) : string :=
  match n with
  | ShownNull => ""
  | ShownString s => s
  | ShownNumber x =>
      let str := Number_toString x in
      if includes "e" str then Number_toLocaleString x else str
  end.

(** The display text of [setVisualValue]: at most six fraction digits. *)
Definition displayValue (cleanVal : string) : string :=
  if includes "." cleanVal then
    match split_dot cleanVal with
    | p0 :: p1 :: _ =>
        if negb (String.eqb p1 "") && (6 <? lengthZ p1)
        then p0 ++ "." ++ substring 0 6 p1
        else cleanVal
    | _ => cleanVal
    end
  else cleanVal.

(** [setVisualValue(target, val, isNeutral)] *)
Definition setVisualValue (target : Node) (val : shown) (isNeutral : bool)
  (w : World) : World :=
  let el := element w target in
  if isNeutral then
    match target with
    | UsdInput =>
        (* the textContent of an input element is not its value *)
        with_element target (set_stateNeutral true el) w
    | _ =>
        with_element target (set_stateNeutral true (set_content NEUTRAL el)) w
    end
  else
    let cleanVal := safeDecimalString val in
    let displayVal := displayValue cleanVal in
    with_element target (set_stateNeutral false (set_content displayVal el)) w.

(** Truthiness of [APP_STATE.asset] and of [DATA_STATE.assetPriceUSD]. *)
Definition truthyString (s : option string) : bool :=
  match s with
  | Some (String _ _) => true
  | _ => false
  end.

Definition truthyNumber (x : option number) : bool :=
  match x with
  | Some v => truthy v
  | None => false
  end.

Definition price (w : World) : value :=
  match assetPriceUSD (DATA_STATE w) with
  | Some p => num p
  | None => null
  end.

(** [updateAmountMirror()] *)
Definition updateAmountMirror (w : World) : completion World :=
  if negb (truthyString (asset (APP_STATE w)))
     || negb (truthyNumber (assetPriceUSD (DATA_STATE w)))
  then Normal w
  else
    match inputMode (APP_STATE w) with
    | Fiat =>
        let fiatVal := content (usdInput w) in
        derived <- AmountEngine.deriveFromFiat (str fiatVal) (price w)
                     (chain (APP_STATE w)) ;;
        let isAssetBeingEdited := isActive w AssetDisplay in
        let otherwise :=
          if (String.eqb fiatVal "" || eqb (parseFloat fiatVal) zero)
             && negb (isAddressValid (VALIDATION_STATE w)) then
            if negb isAssetBeingEdited
            then setVisualValue AssetDisplay ShownNull true w
            else w
          else
            if negb isAssetBeingEdited
            then setVisualValue AssetDisplay (ShownString "0") false w
            else w in
        match derived with
        | Some d =>
            if ltb zero d then
              if negb isAssetBeingEdited
              then Normal (setVisualValue AssetDisplay (ShownNumber d) false w)
              else Normal w
            else Normal otherwise
        | None => Normal otherwise
        end
    | Asset =>
        let assetVal := trim (replace NEUTRAL "" (content (assetDisplay w))) in
        derived <- AmountEngine.deriveFromAsset (str assetVal) (price w) ;;
        match derived with
        | Some d =>
            let w1 := setVisualValue UsdInput
                        (ShownString (Number_toFixed d 2)) false w in
            Normal (with_assetDisplay
                      (set_stateNeutral false (assetDisplay w1)) w1)
        | None => Normal (setVisualValue UsdInput (ShownString "") false w)
        end
    end.

(** ** Amount gating *)

Inductive EventType : Type := click | mousedown | keydown | focus | touchstart.

Definition isFocusEvent (t : EventType) : bool :=
  match t with focus => true | _ => false end.

Definition isMousedown (t : EventType) : bool :=
  match t with mousedown => true | _ => false end.

(** A dispatched event: [cancelable] is fixed by its type (a focus event
    is not cancelable); [clientX] is the pointer position of a mouse or
    touch event. *)
Record Event : Type := {
  type : EventType;
  target : Node;
  clientX : Z;
  defaultPrevented : bool;
  propagationStopped : bool
}.

Definition cancelable (t : EventType) : bool := negb (isFocusEvent t).

Definition dispatch (t : EventType) (n : Node) (x : Z) : Event :=
  {| type := t; target := n; clientX := x;
     defaultPrevented := false; propagationStopped := false |}.

Definition preventDefault (e : Event) : Event :=
  {| type := type e; target := target e; clientX := clientX e;
     defaultPrevented := defaultPrevented e || cancelable (type e);
     propagationStopped := propagationStopped e |}.

Definition stopPropagation (e : Event) : Event :=
  {| type := type e; target := target e; clientX := clientX e;
     defaultPrevented := defaultPrevented e;
     propagationStopped := true |}.

(** [n.blur()] *)
Definition blur (n : Node) (w : World) : World :=
  if isActive w n then with_activeElement None w else w.

(** [isUnlockable()] *)
Definition isUnlockable (w : World) : bool :=
  isAddressValid (VALIDATION_STATE w).

(** [handleIntent(e)], the capture-phase listener of [initAmountGating]
    on both amount fields for click, mousedown, keydown and focus. *)
Definition handleIntent (e : Event) (w : World) : World * Event :=
  if isUnlockable w then (w, e)
  else
    let e1 := stopPropagation (preventDefault e) in
    let w1 := blur (target e) w in
    if negb (isFocusEvent (type e))
    then (showToast "Enter wallet address first" true w1, e1)
    else (w1, e1).

(** [n.focus()]: the field becomes the active element and its focus
    event goes through [handleIntent]. *)
Definition focusNode (n : Node) (w : World) : World :=
  if isActive w n then w
  else fst (handleIntent (dispatch focus n 0) (with_activeElement (Some n) w)).

(** [startDrag(e)] *)
Definition startDrag (e : Event) (w : World) : World * Event :=
  if negb (isAddressValid (VALIDATION_STATE w)) then
    (showToast "Enter wallet address first" true w, preventDefault e)
  else
    let e1 := if isMousedown (type e) then preventDefault e else e in
    (with_drag true (clientX e) w, e1).

(** ** The asset field input guard *)

Definition isDigitOrDot (c : ascii) : bool := isDigit c || isDot c.

(** [s.replace(/[^0-9.]/g, '')] *)
Definition sanitize (s : string) : string := filter isDigitOrDot s.

(** [s.replace(/[^0-9.]/g, '').replace(/\./g, '').length] *)
Definition digitCount (s : string) : Z :=
  lengthZ (filter (fun c => negb (isDot c)) (sanitize s)).

Record InputEvent : Type := {
  inputType : string;
  data : option string;
  inputPrevented : bool
}.

Definition dataText (e : InputEvent) : string :=
  match data e with
  | Some d => d
  | None => ""
  end.

(** The [beforeinput] listener of the asset field. *)
Definition beforeinput (e : InputEvent) (w : World) : World * InputEvent :=
  match inputMode (APP_STATE w) with
  | Fiat => (w, e)
  | Asset =>
      if negb (String.eqb (inputType e) "insertText")
         && negb (String.eqb (inputType e) "insertFromPaste")
      then (w, e)
      else
        let currentDigitCount := digitCount (content (assetDisplay w)) in
        let incomingDigitCount := digitCount (dataText e) in
        if MAX_ASSET_DIGITS <? currentDigitCount + incomingDigitCount then
          let e1 := {| inputType := inputType e; data := data e;
                       inputPrevented := true |} in
          if negb (limitWarned (assetDisplay w)) then
            let w1 := showToast "Maximum precision reached" true w in
            (with_assetDisplay (set_limitWarned true (assetDisplay w1)) w1, e1)
          else (w, e1)
        else (w, e)
  end.

(** The timer armed with the warning: [delete dataset.limitWarned]. *)
Definition limitWarnedTimeout (w : World) : World :=
  with_assetDisplay (set_limitWarned false (assetDisplay w)) w.

(** The [input] listener of the asset field. *)
Definition input (w : World) : completion World :=
  match inputMode (APP_STATE w) with
  | Fiat => Normal w
  | Asset =>
      let clean := sanitize (content (assetDisplay w)) in
      let w1 := if negb (String.eqb clean (content (assetDisplay w)))
                then with_assetDisplay (set_content clean (assetDisplay w)) w
                else w in
      updateAmountMirror w1
  end.

(** What the user does to the asset field: typing or composing [text]
    over the selection [[start, start + len)], which the browser announces
    as an [insertText] beforeinput and carries out unless it is prevented
    or the field is not editable; an attempt to paste, which the [paste]
    listener always prevents; and the expiry of the warning timer. *)
Inductive Action : Type :=
| TypeText (text : string) (start len : nat)
| Paste (text : string)
| WarnTimeout.

Definition splice (s text : string) (start len : nat) : string :=
  substring 0 start s ++ text ++ skip (start + len) s.

Definition act (a : Action) (w : World) : completion World :=
  match a with
  | TypeText text start len =>
      let '(w1, e) :=
        beforeinput {| inputType := "insertText"; data := Some text;
                       inputPrevented := false |} w in
      if inputPrevented e || negb (contentEditable (assetDisplay w1))
      then Normal w1
      else
        input (with_assetDisplay
                 (set_content (splice (content (assetDisplay w1)) text start len)
                    (assetDisplay w1)) w1)
  | Paste _ => Normal w
  | WarnTimeout => Normal (limitWarnedTimeout w)
  end.


(** ** The authority blocker *)

Definition set_side (sd : Side) (b : Blocker) : Blocker :=
  {| blockedSide := sd; locked := locked b; positionLeft := positionLeft b;
     stateLocked := stateLocked b |}.

Definition set_positionLeft (p : bool) (b : Blocker) : Blocker :=
  {| blockedSide := blockedSide b; locked := locked b; positionLeft := p;
     stateLocked := stateLocked b |}.

(** [updateBlockedState()] *)
Definition updateBlockedState (w : World) : World :=
  match blockedSide (blocker w) with
  | left =>
      let w1 := with_blocker (set_positionLeft true (blocker w)) w in
      let w2 := with_usdInput (set_readOnly true (usdInput w1)) w1 in
      let w3 := with_assetDisplay
                  (set_contentEditable true (assetDisplay w2)) w2 in
      let w4 := focusNode AssetDisplay w3 in
      if includes DASH (content (assetDisplay w4)) then
        with_assetDisplay
          (set_stateNeutral false (set_content "" (assetDisplay w4))) w4
      else w4
  | right =>
      let w1 := with_blocker (set_positionLeft false (blocker w)) w in
      let w2 := with_usdInput (set_readOnly false (usdInput w1)) w1 in
      let w3 := with_assetDisplay
                  (set_contentEditable false (assetDisplay w2)) w2 in
      focusNode UsdInput w3
  end.

(** [handleSingleClick()]: the authority toggle. *)
Definition handleSingleClick (w : World) : World :=
  if locked (blocker w) then w
  else
    let side := match blockedSide (blocker w) with
                | right => left
                | left => right
                end in
    let w1 := with_blocker (set_side side (blocker w)) w in
    let mode := match side with left => Asset | right => Fiat end in
    let w2 := with_APP_STATE (set_inputMode mode (APP_STATE w1)) w1 in
    updateBlockedState w2.

(** [handleDoubleClick()] *)
Definition handleDoubleClick (w : World) : World :=
  let l := negb (locked (blocker w)) in
  let w1 := with_blocker
              {| blockedSide := blockedSide (blocker w); locked := l;
                 positionLeft := positionLeft (blocker w);
                 stateLocked := stateLocked (blocker w) |} w in
  let w2 := with_APP_STATE (set_isLocked l (APP_STATE w1)) w1 in
  with_blocker
    {| blockedSide := blockedSide (blocker w2); locked := locked (blocker w2);
       positionLeft := positionLeft (blocker w2); stateLocked := l |} w2.

(** The send screen once [initSendUI] and [initAmountBlocker] have run:
    fiat is authoritative, the fiat field is empty and the asset field
    shows the neutral sentinel. *)
Definition initial : World :=
  {| APP_STATE :=
       {| chain := None; asset := None; recipientAddress := None;
          inputMode := Fiat; isBlocked := false; isLocked := false;
          source := None; chainUserSelected := false;
          assetUserSelected := false; btcAddressType := None |};
     VALIDATION_STATE :=
       {| isAddressPresent := false; isAddressValid := false;
          isChainMatch := false; isSupportedChain := false |};
     DATA_STATE :=
       {| gasPrice := None; gasUnit := None; assetPriceUSD := None;
          lastUpdated := None |};
     usdInput :=
       {| content := ""; stateNeutral := false; readOnly := false;
          contentEditable := false; limitWarned := false |};
     assetDisplay :=
       {| content := NEUTRAL; stateNeutral := true; readOnly := false;
          contentEditable := false; limitWarned := false |};
     activeElement := None;
     blocker := {| blockedSide := right; locked := false;
                   positionLeft := false; stateLocked := false |};
     isDragging := false;
     startX := 0;
     toasts := [] |}.

(** ** Chain families *)

Inductive Family : Type := ethereum | bitcoin | solana.

Definition ethereumFamily : list string :=
  [ "Ethereum"; "Ethereum Mainnet"; "Arbitrum"; "Arbitrum One"; "Optimism";
    "Base"; "Polygon"; "Polygon PoS"; "zkSync"; "zkSync Era"; "Linea";
    "Scroll"; "Sepolia"; "Goerli"; "Holesky" ].

(** [resolveChainFamily(chain)] *)
Definition resolveChainFamily (chain : option string) : option Family :=
  match chain with
  | None | Some EmptyString => None
  | Some ch =>
      if existsb (String.eqb ch) ethereumFamily then Some ethereum
      else if String.eqb ch "Bitcoin" || String.eqb ch "Bitcoin Testnet"
      then Some bitcoin
      else if String.eqb ch "Solana" || String.eqb ch "Solana Devnet"
      then Some solana
      else None
  end.

End Send.

(* ================================================================== *)
(** * The specification's vocabulary *)
(* ================================================================== *)

Module Spec.
Import JS.

(** [parse(value)] of the specification is the engine's [safeParse]. *)
Definition parse : value -> completion (option number) :=
  AmountEngine.safeParse.

(** [round(value, decimals)]: half-up rounding by integer scaling,
    [round(value * 10^d) / 10^d]; [null] on an invalid input. *)
Definition round (v : number) (decimals : Z) : option number :=
  if isNaN v then None
  else Some (div (Math_round (mul v (Math_pow10 decimals)))
                 (Math_pow10 decimals)).

(** [deriveFromFiat] as the specification words it: [null] unless both
    arguments parse and the price is positive, [0] for a zero amount,
    otherwise [round(fiat / price, decimalsFor(chain))]. *)
Definition deriveFromFiat (fiatAmount priceUSD : value)
  (chain : option string) : completion (option number) :=
  fiat <- parse fiatAmount ;;
  price <- parse priceUSD ;;
  match fiat, price with
  | Some f, Some p =>
      if ltb zero p then
        if eqb f zero then Normal (Some zero)
        else Normal (round (div f p) (AmountEngine.decimalsFor chain))
      else Normal None
  | _, _ => Normal None
  end.

(** [deriveFromAsset(deriveFromFiat(fiatAmount, price, chain), price)] *)
Definition roundTrip (fiatAmount priceUSD : value) (chain : option string)
  : completion (option number) :=
  a <- AmountEngine.deriveFromFiat fiatAmount priceUSD chain ;;
  AmountEngine.deriveFromAsset
    (match a with Some x => num x | None => null end) priceUSD.




(** The prices of [fetchAssetPrice]: 2250.50 for eth, 42000.00 for btc and
    95.20 for sol. *)
Definition priceETH : number := ofDecimal 225050 (-2).
Definition priceBTC : number := ofDecimal 4200000 (-2).



(** A malformed amount in the sense of the no-throw guarantee: NaN,
    [undefined], a negative number, an object. *)
Inductive Malformed : value -> Prop :=
| Malformed_NaN : Malformed (num NaN)
| Malformed_undefined : Malformed undefined
| Malformed_negative (x : number) : ltb x zero = true -> Malformed (num x)
| Malformed_object (c : completion primitive) : Malformed (Object c).

(** An input the engine has no number for: [null], [undefined], the empty
    string, or anything whose numeric conversion is NaN. *)
Definition Unparsable (v : value) : Prop :=
  v = null \/ v = undefined \/ v = str "" \/ Number v = Normal NaN.

(** The numeric conversion of [v] does not throw. *)
Definition Convertible (v : value) : Prop :=
  exists x, Number v = Normal x.

(** What a pass in fiat mode is to show in the asset field (section 4.3,
    step 2): the derived amount when it is positive; otherwise the neutral
    sentinel when the fiat text is empty or zero and the address is not
    valid, and the text 0 in the remaining case. The flag says whether it
    is the neutral display. *)
Definition shownInFiatMode (r : option number) (fiatVal : string)
  (valid : bool) : Send.shown * bool :=
  let otherwise :=
    if (String.eqb fiatVal "" || eqb (parseFloat fiatVal) zero) && negb valid
    then (Send.ShownNull, true) else (Send.ShownString "0", false) in
  match r with
  | Some d => if ltb zero d then (Send.ShownNumber d, false) else otherwise
  | None => otherwise
  end.

(** Two finite Numbers differ by at most one unit of the [d]-th decimal
    place of the asset, valued at the price [p]. *)
Definition withinOneUnitAtPrice (x y p : number) (d : Z) : Prop :=
  match toQ x, toQ y, toQ p with
  | Some qx, Some qy, Some qp =>
      (Qabs (qx - qy) <= qp / inject_Z (10 ^ d))%Q
  | _, _, _ => False
  end.

(** The asset text the synchronizer reads in asset mode. *)
Definition assetVal (w : Send.World) : string :=
  trim (replace Send.NEUTRAL "" (Send.content (Send.assetDisplay w))).

(** A pass returns with the fiat field empty. *)
Definition fiatCleared (w : Send.World) : Prop :=
  exists w',
    Send.updateAmountMirror w = Normal w' /\
    Send.content (Send.usdInput w') = "".


End Spec.

(* ================================================================== *)
(** * States of the send screen used as examples *)
(* ================================================================== *)

Module Scenario.
Import JS Send.

(** A send screen on Ethereum with the asset eth selected: the authority
    [mode], the validity of the address, the price, the two texts and the
    focused field. *)
Definition screen (mode : InputMode) (valid : bool) (pr : option number)
  (usd assetText : string) (active : option Node) : World :=
  {| APP_STATE :=
       {| chain := Some "Ethereum"; asset := Some "eth";
          recipientAddress := None; inputMode := mode;
          isBlocked := false; isLocked := false; source := Some "manual";
          chainUserSelected := false; assetUserSelected := false;
          btcAddressType := None |};
     VALIDATION_STATE :=
       {| isAddressPresent := valid; isAddressValid := valid;
          isChainMatch := true; isSupportedChain := true |};
     DATA_STATE :=
       {| gasPrice := None; gasUnit := None; assetPriceUSD := pr;
          lastUpdated := None |};
     usdInput :=
       {| content := usd; stateNeutral := false;
          readOnly := match mode with Asset => true | Fiat => false end;
          contentEditable := false; limitWarned := false |};
     assetDisplay :=
       {| content := assetText; stateNeutral := false; readOnly := false;
          contentEditable := match mode with Asset => true | Fiat => false end;
          limitWarned := false |};
     activeElement := active;
     blocker :=
       {| blockedSide := match mode with Asset => left | Fiat => right end;
          locked := false;
          positionLeft := match mode with Asset => true | Fiat => false end;
          stateLocked := false |};
     isDragging := false;
     startX := 0;
     toasts := [] |}.

(** Scenario 6: the asset field is focused with the text 1.2 while fiat is
    authoritative. *)
Definition focusConflict : World :=
  screen Fiat true (Some Spec.priceETH) "50" "1.2" (Some AssetDisplay).

(** The asset is authoritative and empty, the fiat field shows 5.00, and
    no price has arrived. *)
Definition priceMissing : World :=
  screen Asset true None "5.00" "" (Some AssetDisplay).

(** The same with the price of eth in place. *)
Definition assetCleared : World :=
  screen Asset true (Some Spec.priceETH) "5.00" "" (Some AssetDisplay).

(** Scenario 4: the asset field holds 17 digits. *)
Definition capReached : World :=
  screen Asset true (Some Spec.priceETH) "" "12345678901234567"
    (Some AssetDisplay).

End Scenario.

(* ================================================================== *)
(** * send.js: address validation and detection *)
(* ================================================================== *)

Module Validation.
Import JS Send.

(** [s.length]: the UTF-16 code units of a text held in UTF-8, one for a
    character of one to three bytes and two for one of four bytes. *)
Fixpoint length16 (s : string) : nat :=
  match s with
  | EmptyString => O
  | String c s' =>
      let n := nat_of_ascii c in
      ((if (n <? 128) || ((192 <=? n) && (n <? 240)) then 1
        else if 240 <=? n then 2 else 0) + length16 s')%nat
  end.

(** The high surrogate of the four-byte character [c1 c2 c3 c4], in the
    three-byte form of a lone surrogate. *)
Definition highSurrogate (c1 c2 c3 c4 : ascii) : string :=
  let byte c := Z.of_nat (nat_of_ascii c) in
  let cp := (byte c1 mod 8) * 262144 + (byte c2 mod 64) * 4096
            + (byte c3 mod 64) * 64 + byte c4 mod 64 in
  let hi := 55296 + (cp - 65536) / 1024 in
  String (ascii_of_nat 237)
    (String (ascii_of_nat (Z.to_nat (128 + (hi / 64) mod 64)))
       (String (ascii_of_nat (Z.to_nat (128 + hi mod 64))) EmptyString)).

(** [s.substring(0, n)]: the first [n] UTF-16 code units of a text held in
    UTF-8. A continuation byte goes with the character it belongs to; where
    the cut falls inside a four-byte character, its high surrogate is
    left. *)
Fixpoint substring16 (n : nat) (s : string) : string :=
  match s with
  | EmptyString => EmptyString
  | String c s' =>
      let k := nat_of_ascii c in
      if ((128 <=? k) && (k <? 192))%nat then String c (substring16 n s')
      else if (k <? 240)%nat then
        match n with
        | S n' => String c (substring16 n' s')
        | O => EmptyString
        end
      else
        match n with
        | S (S n') => String c (substring16 n' s')
        | S O =>
            match s' with
            | String c2 (String c3 (String c4 _)) => highSurrogate c c2 c3 c4
            | _ => EmptyString
            end
        | O => EmptyString
        end
  end.

Definition inRange (lo hi : nat) (c : ascii) : bool :=
  let n := nat_of_ascii c in ((lo <=? n) && (n <=? hi))%nat.

(** [[a-fA-F0-9]] *)
Definition isHexDigit (c : ascii) : bool :=
  inRange 97 102 c || inRange 65 70 c || inRange 48 57 c.

(** [[a-zA-Z0-9]] *)
Definition isAlphaNumeric (c : ascii) : bool :=
  inRange 97 122 c || inRange 65 90 c || inRange 48 57 c.

(** [[1-9A-HJ-NP-Za-km-z]] *)
Definition isBase58 (c : ascii) : bool :=
  inRange 49 57 c || inRange 65 72 c || inRange 74 78 c || inRange 80 90 c
  || inRange 97 107 c || inRange 109 122 c.

Fixpoint every (p : ascii -> bool) (s : string) : bool :=
  match s with
  | EmptyString => true
  | String c s' => p c && every p s'
  end.

(** [/^[cls]{lo,hi}$/.test(s)] for a class of ASCII characters. *)
Definition repeated (cls : ascii -> bool) (lo hi : nat) (s : string) : bool :=
  ((lo <=? String.length s) && (String.length s <=? hi))%nat && every cls s.

(** [validateEthereumAddress(address)]: [/^0x[a-fA-F0-9]{40}$/] *)
Definition validateEthereumAddress (address : option string) : bool :=
  match address with
  | None | Some EmptyString => false
  | Some a => prefix "0x" a && repeated isHexDigit 40 40 (skip 2 a)
  end.

(** [validateBitcoinAddress(address)]: [/^(1|3|bc1)[a-zA-Z0-9]{25,59}$/] *)
Definition validateBitcoinAddress (address : option string) : bool :=
  match address with
  | None | Some EmptyString => false
  | Some a =>
      (prefix "1" a && repeated isAlphaNumeric 25 59 (skip 1 a))
      || (prefix "3" a && repeated isAlphaNumeric 25 59 (skip 1 a))
      || (prefix "bc1" a && repeated isAlphaNumeric 25 59 (skip 3 a))
  end.

(** [/^[1-9A-HJ-NP-Za-km-z]{32,44}$/] *)
Definition base58Regex (s : string) : bool := repeated isBase58 32 44 s.

(** [validateSolanaAddress(address)] *)
Definition validateSolanaAddress (address : option string) : bool :=
  match address with
  | None | Some EmptyString => false
  | Some a => base58Regex a
  end.

(** [deriveValidationState(appState)] *)
Definition deriveValidationState (appState : AppState) : ValidationState :=
  let hasAddress := truthyString (recipientAddress appState) in
  {| isAddressPresent := hasAddress;
     isAddressValid :=
       if hasAddress then
         validateEthereumAddress (recipientAddress appState)
         || validateBitcoinAddress (recipientAddress appState)
         || validateSolanaAddress (recipientAddress appState)
       else false;
     isChainMatch := truthyString (asset appState);
     isSupportedChain := truthyString (chain appState) |}.

(** [detectAssetFromAddress(address)] *)
Definition detectAssetFromAddress (address : option string) : option string :=
  match address with
  | None | Some EmptyString => None
  | Some a =>
      let addr := trim a in
      let len := length16 addr in
      if prefix "0x" addr && (len =? 42)%nat then Some "eth"
      else if (prefix "bc1" addr && (26 <=? len)%nat && (len <=? 90)%nat)
              || ((prefix "1" addr || prefix "3" addr)
                  && (26 <=? len)%nat && (len <=? 35)%nat)
      then Some "btc"
      else if base58Regex addr then
        if prefix "T" addr then None else Some "sol"
      else None
  end.

(** [detectBTCAddressType(address)] *)
Definition detectBTCAddressType (address : option string) : option string :=
  match address with
  | None | Some EmptyString => None
  | Some a =>
      let addr := trim a in
      if prefix "bc1p" addr then Some "taproot"
      else if prefix "bc1q" addr then Some "segwit"
      else if prefix "1" addr || prefix "3" addr then Some "legacy"
      else None
  end.

(** [a === s] for a string or [null] [a]. *)
Definition equals (s : string) (a : option string) : bool :=
  match a with
  | Some x => String.eqb x s
  | None => false
  end.

Definition same_string (a b : option string) : bool :=
  match a, b with
  | Some x, Some y => String.eqb x y
  | None, None => true
  | _, _ => false
  end.

Definition set_btcAddressType (t : option string) (a : AppState) : AppState :=
  {| chain := chain a; asset := asset a;
     recipientAddress := recipientAddress a; inputMode := inputMode a;
     isBlocked := isBlocked a; isLocked := isLocked a; source := source a;
     chainUserSelected := chainUserSelected a;
     assetUserSelected := assetUserSelected a;
     btcAddressType := t |}.

(** [window.setBTCAddressType(type)] *)
Definition setBTCAddressType (type : option string) (a : AppState) : AppState :=
  let detected :=
    if equals "btc" (asset a) && truthyString (recipientAddress a)
    then detectBTCAddressType (recipientAddress a)
    else None in
  if truthyString detected && negb (same_string detected type)
  then set_btcAddressType detected a
  else if same_string (btcAddressType a) type then a
  else set_btcAddressType type a.

(** [validateInputs()] of the slider, on the address field's value and the
    fiat field's value. *)
Definition validateInputs (addressValue amountValue : string) : bool * string :=
  let address := trim addressValue in
  if (length16 address <? 26)%nat then (false, "Enter a valid wallet address")
  else
    let amount := parseFloat amountValue in
    if isNaN amount || leb amount zero then (false, "Enter a valid amount")
    else (true, "").

End Validation.

(* ================================================================== *)
(** * send-overlay.js *)
(* ================================================================== *)

Module Overlay.
Import JS Send.

(** An entry of [MOCK_CHAINS] or [MOCK_ASSETS]: a section header or a
    card. *)
Inductive Item : Type :=
| Header (header : string)
| Card (name : string).

Definition MOCK_CHAINS : list Item :=
  [ Header "Mainnet Networks";
    Card "Ethereum Mainnet"; Card "Bitcoin Network"; Card "Solana Mainnet";
    Card "BNB Chain"; Card "Ethereum Classic";
    Header "Layer 2 & Sidechains";
    Card "Arbitrum One"; Card "Optimism"; Card "Polygon"; Card "Base";
    Card "Linea"; Card "Scroll";
    Header "Test Networks";
    Card "Sepolia"; Card "Monad" ].

Definition MOCK_ASSETS : list Item :=
  [ Header "Native Assets";
    Card "ETH"; Card "BTC"; Card "SOL";
    Header "Stablecoins";
    Card "USDT"; Card "USDC";
    Header "Tokens";
    Card "MATIC"; Card "BNB" ].

Definition ethScope : list string :=
  [ "Ethereum Mainnet"; "Arbitrum One"; "Optimism"; "Polygon"; "Base";
    "Linea"; "Scroll"; "Sepolia" ].

(** [getAllowedAssetsForChain(chain)] *)
Definition getAllowedAssetsForChain (chain : option string) : list string :=
  match chain with
  | None | Some EmptyString => ["ETH"; "USDT"; "USDC"]
  | Some ch =>
      let c := toLowerCase ch in
      if includes "ethereum" c || includes "arbitrum" c
         || includes "optimism" c || includes "base" c
         || includes "polygon" c || includes "linea" c
         || includes "scroll" c || includes "sepolia" c
         || includes "monad" c
      then ["ETH"; "USDT"; "USDC"]
      else if includes "bitcoin" c then ["BTC"]
      else if includes "solana" c then ["SOL"; "USDC"]
      else ["ETH"; "USDT"; "USDC"]
  end.

(** [getAllowedChainsForAsset(asset)] *)
Definition getAllowedChainsForAsset (asset : option string)
  : option (list string) :=
  match asset with
  | None | Some EmptyString => None
  | Some x =>
      let a := toLowerCase x in
      if String.eqb a "btc" then Some ["Bitcoin Network"]
      else if String.eqb a "sol" then Some ["Solana Mainnet"]
      else if existsb (String.eqb a) ["eth"; "usdt"; "usdc"]
      then Some ethScope
      else Some ethScope
  end.

(** [normalizeOverlayChain(name)] *)
Definition normalizeOverlayChain (name : option string) : option string :=
  match name with
  | None | Some EmptyString => None
  | Some x =>
      let n := toLowerCase x in
      if includes "ethereum" n then Some "Ethereum"
      else if includes "bitcoin" n then Some "Bitcoin"
      else if includes "solana" n then Some "Solana"
      else None
  end.

Inductive ListType : Type := chainList | assetList.

Definition allowedItem (allowed : list string) (item : Item) : bool :=
  match item with
  | Header _ => true
  | Card n => existsb (String.eqb n) allowed
  end.

Definition isHeader (item : Item) : bool :=
  match item with Header _ => true | Card _ => false end.

(** The loop of [renderList] that drops a header with no card after it. *)
Fixpoint cleanData (data : list Item) : list Item :=
  match data with
  | [] => []
  | item :: rest =>
      if isHeader item then
        match rest with
        | next :: _ =>
            if negb (isHeader next) then item :: cleanData rest
            else cleanData rest
        | [] => cleanData rest
        end
      else item :: cleanData rest
  end.

(** The headers and cards [renderList(type, chainContext)] renders. *)
Definition renderList (type : ListType) (chainContext : option string)
  : list Item :=
  let data :=
    match type with
    | assetList =>
        if truthyString chainContext
        then List.filter (allowedItem (getAllowedAssetsForChain chainContext))
               MOCK_ASSETS
        else MOCK_ASSETS
    | chainList =>
        match getAllowedChainsForAsset chainContext with
        | Some allowedChains =>
            List.filter (allowedItem allowedChains) MOCK_CHAINS
        | None => MOCK_CHAINS
        end
    end in
  cleanData data.

(** The selection a click on the card [name] hands to [selectAsset]:
    asset, chain and source. *)
Definition selection (type : ListType) (chainContext : option string)
  (name : string) : option string * option string * string :=
  match type with
  | chainList =>
      let n := normalizeOverlayChain (Some name) in
      ((chainContext,
        if truthyString n then n else Some name), "overlay_chain")
  | assetList =>
      ((Some (toLowerCase name), chainContext), "overlay_asset")
  end.

End Overlay.

(* ================================================================== *)
(** * send.js: the send screen around the amount core *)
(* ================================================================== *)

Module Screen.
Import JS Send Validation.

(** [DERIVED_STATE] *)
Record DerivedState : Type := {
  estimatedGasFeeNative : option number;
  estimatedGasFeeUSD : option number;
  lastDerivedAt : option Z
}.

(** The amount core's state together with the address field
    ([#recipientAddress]: its value and its [readOnly] flag), the
    [disabled] class of the slider, the [input-validated] and
    [input-invalid] classes of the address field, and [DERIVED_STATE]. The
    logo, the unit label, the theme classes and the identity pills are
    presentation that nothing reads back: [logoSource] and [updateTheme]
    give the logo and the classes as functions of the state. *)
Record Page : Type := {
  world : World;
  addressValue : string;
  addressReadOnly : bool;
  sliderDisabled : bool;
  inputValidated : bool;
  inputInvalid : bool;
  DERIVED_STATE : DerivedState
}.

Definition with_world (w : World) (p : Page) : Page :=
  {| world := w; addressValue := addressValue p;
     addressReadOnly := addressReadOnly p;
     sliderDisabled := sliderDisabled p; inputValidated := inputValidated p;
     inputInvalid := inputInvalid p; DERIVED_STATE := DERIVED_STATE p |}.

Definition with_address (v : string) (ro : bool) (p : Page) : Page :=
  {| world := world p; addressValue := v; addressReadOnly := ro;
     sliderDisabled := sliderDisabled p; inputValidated := inputValidated p;
     inputInvalid := inputInvalid p; DERIVED_STATE := DERIVED_STATE p |}.

Definition with_DERIVED_STATE (d : DerivedState) (p : Page) : Page :=
  {| world := world p; addressValue := addressValue p;
     addressReadOnly := addressReadOnly p;
     sliderDisabled := sliderDisabled p; inputValidated := inputValidated p;
     inputInvalid := inputInvalid p; DERIVED_STATE := d |}.

Definition with_VALIDATION_STATE (v : ValidationState) (w : World) : World :=
  {| APP_STATE := APP_STATE w; VALIDATION_STATE := v;
     DATA_STATE := DATA_STATE w; usdInput := usdInput w;
     assetDisplay := assetDisplay w; activeElement := activeElement w;
     blocker := blocker w; isDragging := isDragging w; startX := startX w;
     toasts := toasts w |}.

Definition with_DATA_STATE (d : DataState) (w : World) : World :=
  {| APP_STATE := APP_STATE w; VALIDATION_STATE := VALIDATION_STATE w;
     DATA_STATE := d; usdInput := usdInput w;
     assetDisplay := assetDisplay w; activeElement := activeElement w;
     blocker := blocker w; isDragging := isDragging w; startX := startX w;
     toasts := toasts w |}.

(** The page once [initSendUI] has run with no scanned address. *)
Definition initial : Page :=
  {| world := Send.initial; addressValue := ""; addressReadOnly := false;
     sliderDisabled := true; inputValidated := false; inputInvalid := false;
     DERIVED_STATE := {| estimatedGasFeeNative := None;
                         estimatedGasFeeUSD := None;
                         lastDerivedAt := None |} |}.

(** ** Gating of the slider and of the address field *)

(** [applyUIGating(validationState)] *)
Definition applyUIGating (v : ValidationState) (p : Page) : Page :=
  let canSend := isAddressPresent v && isAddressValid v
                 && isSupportedChain v && isChainMatch v in
  {| world := world p; addressValue := addressValue p;
     addressReadOnly := addressReadOnly p;
     sliderDisabled := negb canSend;
     inputValidated :=
       isAddressPresent v
       && (isAddressValid v && isSupportedChain v && isChainMatch v);
     inputInvalid := false;
     DERIVED_STATE := DERIVED_STATE p |}.

(** [updateValidationState()] *)
Definition updateValidationState (p : Page) : Page :=
  let newState := deriveValidationState (APP_STATE (world p)) in
  let p1 := with_world (with_VALIDATION_STATE newState (world p)) p in
  applyUIGating (VALIDATION_STATE (world p1)) p1.

(** ** Logo and theme *)

(** [nativeAssetForChain(chain)] *)
Definition nativeAssetForChain (chain : option string) : option string :=
  match resolveChainFamily chain with
  | Some ethereum => Some "eth"
  | Some bitcoin => Some "btc"
  | Some solana => Some "sol"
  | None => None
  end.

(** [resolveLogoForChainFamily(chain)] *)
Definition resolveLogoForChainFamily (chain : option string) : string :=
  match resolveChainFamily chain with
  | Some ethereum => "./assets/eth.png"
  | Some bitcoin => "./assets/btc.png"
  | Some solana => "./assets/sol.png"
  | None => "./assets/chain.png"
  end.

(** [a || b] on two strings or [null]s. *)
Definition or_else (a b : option string) : option string :=
  if truthyString a then a else b.

(** The [logoSource] that [updateAssetLogo] gives the logo, from
    [APP_STATE.chain], [newChain] and [asset]. *)
Definition logoSource (stateChain newChain asset : option string) : string :=
  let effectiveChain := or_else stateChain newChain in
  if truthyString effectiveChain then resolveLogoForChainFamily effectiveChain
  else if truthyString asset then
    if equals "eth" asset then "./assets/eth.png"
    else if equals "btc" asset then "./assets/btc.png"
    else if equals "sol" asset then "./assets/sol.png"
    else "./assets/chain.png"
  else "./assets/chain.png".

(** The theme class of [.send-card] and the accent class of its accent
    layer. *)
Inductive Theme : Type := theme_btc | theme_eth | theme_sol | theme_default.
Inductive Accent : Type := no_accent | accent_usdt | accent_usdc.

Definition isFamily (f : Family) (chainFamily : option Family) : bool :=
  match chainFamily, f with
  | Some ethereum, ethereum | Some bitcoin, bitcoin
  | Some solana, solana => true
  | _, _ => false
  end.

Definition noFamily (chainFamily : option Family) : bool :=
  match chainFamily with None => true | Some _ => false end.

(** [updateTheme(asset)], from [APP_STATE.chain]: the theme class and the
    accent class it leaves on the card, whatever they were. *)
Definition updateTheme (chain asset : option string) : Theme * Accent :=
  let chainFamily := resolveChainFamily chain in
  let theme :=
    if isFamily bitcoin chainFamily
       || (noFamily chainFamily && equals "btc" asset) then theme_btc
    else if isFamily ethereum chainFamily
            || (noFamily chainFamily && equals "eth" asset) then theme_eth
    else if isFamily solana chainFamily
            || (noFamily chainFamily && equals "sol" asset) then theme_sol
    else theme_default in
  let accent :=
    match asset with
    | Some (String _ _ as a) =>
        let key := toLowerCase a in
        let nativeAsset := nativeAssetForChain chain in
        if truthyString nativeAsset && equals key nativeAsset then no_accent
        else if String.eqb key "usdt" then accent_usdt
        else if String.eqb key "usdc" then accent_usdc
        else no_accent
    | _ => no_accent
    end in
  (theme, accent).

(** ** updateAssetLogo and selectAsset *)

Definition set_identity (a c t : option string) (s : AppState) : AppState :=
  {| chain := c; asset := a;
     recipientAddress := recipientAddress s; inputMode := inputMode s;
     isBlocked := isBlocked s; isLocked := isLocked s; source := source s;
     chainUserSelected := chainUserSelected s;
     assetUserSelected := assetUserSelected s;
     btcAddressType := t |}.

(** The asset [updateAssetLogo] settles on. *)
Definition settledAsset (address : string) (explicitAsset : option string)
  (s : AppState) : option string :=
  let asset0 := or_else explicitAsset (detectAssetFromAddress (Some address)) in
  if negb (truthyString explicitAsset) && assetUserSelected s
  then asset s else asset0.

(** The chain [updateAssetLogo] derives from the asset. *)
Definition chainOf (asset : option string) : option string :=
  if equals "eth" asset then Some "Ethereum"
  else if equals "btc" asset then Some "Bitcoin"
  else if equals "sol" asset then Some "Solana"
  else None.

(** What [updateAssetLogo(address, explicitAsset)] makes of [APP_STATE]:
    the asset, the Bitcoin address type and the chain. *)
Definition settleIdentity (address : string) (explicitAsset : option string)
  (s : AppState) : AppState :=
  let asset1 := settledAsset address explicitAsset s in
  let type1 :=
    if equals "btc" asset1 && negb (String.eqb address "") then
      let detectedType := detectBTCAddressType (Some address) in
      if truthyString detectedType then detectedType else btcAddressType s
    else if negb (equals "btc" asset1) then None
    else btcAddressType s in
  let newChain := if chainUserSelected s then chain s else chainOf asset1 in
  set_identity asset1 newChain type1 s.

(** [updateAssetLogo(address, explicitAsset)], the logo element being in
    the page. [updateDataState()] only starts its fetches here: what it
    does when they resolve is [updateDataState_resolved]. *)
Definition updateAssetLogo (address : string) (explicitAsset : option string)
  (p : Page) : completion Page :=
  let s1 := settleIdentity address explicitAsset (APP_STATE (world p)) in
  let p1 := with_world (with_APP_STATE s1 (world p)) p in
  let p2 := updateValidationState p1 in
  w3 <- updateAmountMirror (world p2) ;;
  w4 <- updateAmountMirror w3 ;;
  Normal (with_world w4 p2).

Definition set_selection (a c src : option string) (s : AppState) : AppState :=
  {| chain := c; asset := a;
     recipientAddress := recipientAddress s; inputMode := inputMode s;
     isBlocked := isBlocked s; isLocked := isLocked s; source := src;
     chainUserSelected :=
       if equals "overlay_chain" src then true else chainUserSelected s;
     assetUserSelected :=
       if equals "overlay_chain" src then assetUserSelected s
       else if equals "overlay_click" src || equals "overlay_asset" src then true
       else assetUserSelected s;
     btcAddressType := btcAddressType s |}.

(** [selectAsset({ asset, chain, source })] *)
Definition selectAsset (asset chain source : option string) (p : Page)
  : completion Page :=
  let s1 := set_selection asset chain source (APP_STATE (world p)) in
  let p1 := with_world (with_APP_STATE s1 (world p)) p in
  let currentAddress := addressValue p1 in
  updateAssetLogo currentAddress asset p1.

Definition set_recipient (r src : option string) (s : AppState) : AppState :=
  {| chain := chain s; asset := asset s;
     recipientAddress := r; inputMode := inputMode s;
     isBlocked := isBlocked s; isLocked := isLocked s; source := src;
     chainUserSelected := chainUserSelected s;
     assetUserSelected := assetUserSelected s;
     btcAddressType := btcAddressType s |}.

(** The input listener of the address field that mirrors its value into
    [APP_STATE]: the user has left [v] in the field. *)
Definition addressInput (v : string) (p : Page) : completion Page :=
  let p0 := with_address v (addressReadOnly p) p in
  let s1 := set_recipient (Some (addressValue p0)) (Some "manual")
              (APP_STATE (world p0)) in
  let p1 := with_world (with_APP_STATE s1 (world p0)) p0 in
  updateAssetLogo (addressValue p1) None p1.

(** ** Data *)

(** [fetchGasPrice(chain)]: the price and its unit. *)
Definition fetchGasPrice (chain : option string) : option (number * string) :=
  match chain with
  | None | Some EmptyString => None
  | Some c =>
      if String.eqb c "Ethereum" then Some (ofZ 15, "gwei")
      else if String.eqb c "Bitcoin" then Some (ofZ 12, "sat/vB")
      else if String.eqb c "Solana" then Some (ofDecimal 5 (-6), "SOL")
      else Some (ofDecimal 1 (-1), "gwei")
  end.

(** [fetchAssetPrice(asset)] *)
Definition fetchAssetPrice (asset : option string) : option number :=
  match asset with
  | None | Some EmptyString => None
  | Some a =>
      if String.eqb a "eth" then Some (ofDecimal 225050 (-2))
      else if String.eqb a "btc" then Some (ofZ 42000)
      else if String.eqb a "sol" then Some (ofDecimal 952 (-1))
      else Some (ofZ 1)
  end.

(** [deriveGasFee()]: the native fee and the fee in USD, or [null]. *)
Definition deriveGasFee (w : World) : option (number * option number) :=
  let chain := chain (APP_STATE w) in
  let gasPrice := gasPrice (DATA_STATE w) in
  if negb (truthyString chain) || negb (truthyNumber gasPrice) then None
  else
    let g := match gasPrice with Some g => g | None => NaN end in
    let nativeFee :=
      if equals "Ethereum" chain then mul (mul (ofZ 21000) g) (ofDecimal 1 (-9))
      else if equals "Bitcoin" chain then mul (mul (ofZ 140) g) (ofDecimal 1 (-8))
      else if equals "Solana" chain then g
      else zero in
    if eqb nativeFee zero then None
    else
      let usdFee :=
        match assetPriceUSD (DATA_STATE w) with
        | Some pr => if truthy pr then Some (mul nativeFee pr) else None
        | None => None
        end in
      Some (nativeFee, usdFee).

(** [updateDerivedState()], [now] being [Date.now()]. *)
Definition updateDerivedState (now : Z) (p : Page) : Page :=
  match deriveGasFee (world p) with
  | Some (native, usd) =>
      with_DERIVED_STATE
        {| estimatedGasFeeNative := Some native; estimatedGasFeeUSD := usd;
           lastDerivedAt := Some now |} p
  | None =>
      with_DERIVED_STATE
        {| estimatedGasFeeNative := None; estimatedGasFeeUSD := None;
           lastDerivedAt := lastDerivedAt (DERIVED_STATE p) |} p
  end.

(** What [updateDataState()] does once its two fetches, started for
    [chain] and [asset], have resolved. *)
Definition updateDataState_resolved (chain asset : option string) (now : Z)
  (p : Page) : completion Page :=
  let d := DATA_STATE (world p) in
  let d1 :=
    match fetchGasPrice chain with
    | Some (g, u) =>
        {| gasPrice := Some g; gasUnit := Some u;
           assetPriceUSD := assetPriceUSD d; lastUpdated := lastUpdated d |}
    | None => d
    end in
  let d2 :=
    match fetchAssetPrice asset with
    | Some pr =>
        if truthy pr then
          {| gasPrice := gasPrice d1; gasUnit := gasUnit d1;
             assetPriceUSD := Some pr; lastUpdated := lastUpdated d1 |}
        else d1
    | None => d1
    end in
  let d3 := {| gasPrice := gasPrice d2; gasUnit := gasUnit d2;
               assetPriceUSD := assetPriceUSD d2; lastUpdated := Some now |} in
  let p1 := with_world (with_DATA_STATE d3 (world p)) p in
  let p2 := updateDerivedState now p1 in
  w3 <- updateAmountMirror (world p2) ;;
  Normal (with_world w3 p2).

(** [updateDataState()], its fetches resolving at [now] before anything
    else happens: nothing if the chain or the asset is missing. *)
Definition updateDataState (now : Z) (p : Page) : completion Page :=
  let chain := chain (APP_STATE (world p)) in
  let asset := asset (APP_STATE (world p)) in
  if negb (truthyString chain) || negb (truthyString asset) then Normal p
  else updateDataState_resolved chain asset now p.

(** [deriveTransactionReadiness().isReady] *)
Definition isReady (p : Page) : bool :=
  let hasGasPrice :=
    match gasPrice (DATA_STATE (world p)) with Some _ => true | None => false end in
  let hasFeeUSD :=
    match estimatedGasFeeUSD (DERIVED_STATE p) with
    | Some _ => true | None => false end in
  let hasRecipient :=
    match recipientAddress (APP_STATE (world p)) with
    | Some _ => true | None => false end in
  isAddressValid (VALIDATION_STATE (world p)) && hasGasPrice && hasFeeUSD
  && hasRecipient.

(** ** Lifecycle *)

Definition set_reset (s : AppState) : AppState :=
  {| chain := chain s; asset := asset s;
     recipientAddress := recipientAddress s; inputMode := Fiat;
     isBlocked := false; isLocked := false; source := source s;
     chainUserSelected := false; assetUserSelected := false;
     btcAddressType := btcAddressType s |}.

(** [resetSendState()], the blocker overlay being in the page: the
    closure state of the blocker ([blockedSide], [locked]) is out of its
    reach. *)
Definition resetSendState (w : World) : World :=
  let w1 := with_usdInput (set_content "" (usdInput w)) w in
  let w2 := with_assetDisplay
              (set_stateNeutral true (set_content NEUTRAL (assetDisplay w1)))
              w1 in
  let w3 := with_blocker
              {| blockedSide := blockedSide (blocker w2);
                 locked := locked (blocker w2);
                 positionLeft := false; stateLocked := false |} w2 in
  let w4 := with_usdInput (set_readOnly false (usdInput w3)) w3 in
  let w5 := with_assetDisplay
              (set_contentEditable false (assetDisplay w4)) w4 in
  with_APP_STATE (set_reset (APP_STATE w5)) w5.

Definition set_cleared (s : AppState) : AppState :=
  {| chain := None; asset := None;
     recipientAddress := None; inputMode := inputMode s;
     isBlocked := isBlocked s; isLocked := isLocked s; source := None;
     chainUserSelected := false; assetUserSelected := false;
     btcAddressType := btcAddressType s |}.

(** The click listener of the back button, the send overlay being in the
    page. *)
Definition backButton (p : Page) : Page :=
  let p1 := with_address "" false p in
  let w1 := with_APP_STATE (set_cleared (APP_STATE (world p1))) (world p1) in
  with_world (resetSendState w1) p1.

Definition set_manual (s : AppState) : AppState :=
  {| chain := chain s; asset := asset s;
     recipientAddress := None; inputMode := inputMode s;
     isBlocked := isBlocked s; isLocked := isLocked s;
     source := Some "manual";
     chainUserSelected := false; assetUserSelected := false;
     btcAddressType := btcAddressType s |}.

(** [s.trim() !== ''] for a string or [null] that is truthy. *)
Definition notBlank (s : option string) : bool :=
  match s with
  | Some (String _ _ as x) => negb (String.eqb (trim x) "")
  | _ => false
  end.

(** [enforceAddressState()], [scanned] being the [scannedAddress] item of
    the session storage. *)
Definition enforceAddressState (scanned : option string) (p : Page)
  : completion Page :=
  if notBlank scanned then
    let a := match scanned with Some x => x | None => "" end in
    let p1 := with_address a true p in
    let s1 := set_recipient (Some a) (Some "qr") (APP_STATE (world p1)) in
    let p2 := with_world (with_APP_STATE s1 (world p1)) p1 in
    updateAssetLogo a None p2
  else
    let p1 := with_address "" false p in
    let s1 := set_manual (APP_STATE (world p1)) in
    let p2 := with_world (with_APP_STATE s1 (world p1)) p1 in
    p3 <- updateAssetLogo "" None p2 ;;
    Normal (with_world (resetSendState (world p3)) p3).

(** [enterSendLifecycle()] *)
Definition enterSendLifecycle (scanned : option string) (p : Page)
  : completion Page :=
  if notBlank scanned then enforceAddressState scanned p
  else if negb (String.eqb (trim (addressValue p)) "")
  then updateAssetLogo (trim (addressValue p)) None p
  else updateAssetLogo "" None p.

(** ** The listeners of the fiat field *)

(** [parts.join('')] *)
Definition join (parts : list string) : string :=
  fold_right append EmptyString parts.

(** The text the input listener of the fiat field makes of the field's
    value: one decimal point, two fraction characters. *)
Definition fiatText (value : string) : string :=
  let parts := split_dot value in
  let val1 :=
    if (2 <? List.length parts)%nat
    then hd EmptyString parts ++ "." ++ join (tl parts)
    else value in
  if includes "." val1 then
    match split_dot val1 with
    | int :: dec :: _ =>
        if (2 <? length16 dec)%nat then int ++ "." ++ substring16 2 dec
        else val1
    | _ => val1
    end
  else val1.

(** The input listener of the fiat field. *)
Definition fiatInput (w : World) : completion World :=
  let val := fiatText (content (usdInput w)) in
  let w1 := if negb (String.eqb val (content (usdInput w)))
            then with_usdInput (set_content val (usdInput w)) w
            else w in
  updateAmountMirror w1.

(** Whether the keydown listener of the fiat field calls
    [e.preventDefault()]. *)
Definition fiatKeydownPrevents (key : string) : bool :=
  existsb (String.eqb key) ["e"; "E"; "-"; "+"].

(** ** The keydown listener of the asset field *)

Record KeyEvent : Type := {
  keyCode : Z;
  key : string;
  shiftKey : bool;
  ctrlKey : bool;
  metaKey : bool
}.

Definition memZ (x : Z) (l : list Z) : bool := existsb (Z.eqb x) l.

(** Whether the listener calls [e.preventDefault()]. *)
Definition keydownPrevents (e : KeyEvent) (w : World) : bool :=
  match inputMode (APP_STATE w) with
  | Fiat => false
  | Asset =>
      if memZ (keyCode e) [46; 8; 9; 27; 13; 110; 190]
         || (memZ (keyCode e) [65; 67; 88] && (ctrlKey e || metaKey e))
         || ((35 <=? keyCode e) && (keyCode e <=? 40))
      then keyCode e =? 13
      else
        ((shiftKey e || ((keyCode e <? 48) || (57 <? keyCode e)))
         && ((keyCode e <? 96) || (105 <? keyCode e)))
        || (String.eqb (key e) "."
            && includes "." (content (assetDisplay w)))
  end.

End Screen.

(* ================================================================== *)
(** * Vocabulary of the further properties *)
(* ================================================================== *)

Module Props.
Import JS Send.

(** A Number that is an amount: not NaN and not negative. *)
Definition amount (x : number) : bool := negb (isNaN x) && negb (ltb x zero).

(** A call of one of the six functions of the frozen [AmountEngine]
    object. *)
Inductive Call : Type :=
| DeriveFromFiat (fiatAmount assetPriceUSD : value) (chain : option string)
| DeriveFromAsset (assetAmount assetPriceUSD : value)
| NormalizeFiat (rawInput : value)
| NormalizeAsset (rawInput : value) (chain : option string)
| RoundFiat (amount : value)
| RoundAsset (amount : value) (chain : option string).

Definition call (c : Call) : completion (option number) :=
  match c with
  | DeriveFromFiat a p ch => AmountEngine.deriveFromFiat a p ch
  | DeriveFromAsset a p => AmountEngine.deriveFromAsset a p
  | NormalizeFiat v => AmountEngine.normalizeFiat v
  | NormalizeAsset v ch => AmountEngine.normalizeAsset v ch
  | RoundFiat v => AmountEngine.roundFiat v
  | RoundAsset v ch => AmountEngine.roundAsset v ch
  end.

(** The amount a call is given. *)
Definition amountOf (c : Call) : value :=
  match c with
  | DeriveFromFiat a _ _ | DeriveFromAsset a _ | NormalizeFiat a
  | NormalizeAsset a _ | RoundFiat a | RoundAsset a _ => a
  end.

(** The price a call is given, if it takes one. *)
Definition priceOf (c : Call) : option value :=
  match c with
  | DeriveFromFiat _ p _ | DeriveFromAsset _ p => Some p
  | _ => None
  end.

(** ** What happens on the send screen *)

(** A pass of the synchronizer, a click and a double click on the blocker,
    an action on the asset field, an edit of the fiat field that leaves
    [v] in it, an event on an amount field or on the slider knob, an edit
    of the address field that leaves [v] in it, a selection in the overlay,
    the arrival of the gas price and of the asset price, the choice of a
    Bitcoin address type, a reset, the back button, an entry. *)
Inductive Op : Type :=
| Sync
| Click
| DoubleClick
| AssetEdit (a : Action)
| FiatEdit (v : string)
| Intent (t : EventType) (n : Node) (x : Z)
| Drag (t : EventType) (x : Z)
| AddressEdit (v : string)
| Select (asset chain source : option string)
| Data (now : Z)
| BTCType (t : option string)
| Reset
| Back
| Enter (scanned : option string).

Definition onWorld (f : World -> completion World) (p : Screen.Page)
  : completion Screen.Page :=
  w <- f (Screen.world p) ;; Normal (Screen.with_world w p).

Definition perform (o : Op) (p : Screen.Page) : completion Screen.Page :=
  match o with
  | Sync => onWorld updateAmountMirror p
  | Click => onWorld (fun w => Normal (handleSingleClick w)) p
  | DoubleClick => onWorld (fun w => Normal (handleDoubleClick w)) p
  | AssetEdit a => onWorld (act a) p
  | FiatEdit v =>
      onWorld (fun w => Screen.fiatInput
                          (with_usdInput (set_content v (usdInput w)) w)) p
  | Intent t n x =>
      onWorld (fun w => Normal (fst (handleIntent (dispatch t n x) w))) p
  | Drag t x =>
      onWorld (fun w => Normal (fst (startDrag (dispatch t SliderKnob x) w))) p
  | AddressEdit v => Screen.addressInput v p
  | Select a c src => Screen.selectAsset a c src p
  | Data now => Screen.updateDataState now p
  | BTCType t =>
      onWorld (fun w => Normal (with_APP_STATE
                                  (Validation.setBTCAddressType t (APP_STATE w))
                                  w)) p
  | Reset => onWorld (fun w => Normal (Screen.resetSendState w)) p
  | Back => Normal (Screen.backButton p)
  | Enter scanned => Screen.enterSendLifecycle scanned p
  end.

Fixpoint performAll (ops : list Op) (p : Screen.Page) : completion Screen.Page :=
  match ops with
  | [] => Normal p
  | o :: rest => p1 <- perform o p ;; performAll rest p1
  end.


(** The blocker overlay covers the fiat field. *)
Definition onLeft (b : Blocker) : bool :=
  match blockedSide b with left => true | right => false end.

(** The mode that goes with a side of the blocker. *)
Definition modeOf (onLeft : bool) : InputMode :=
  if onLeft then Asset else Fiat.

(** Every header of a rendered list has a card right after it. *)
Fixpoint headersHaveCards (l : list Overlay.Item) : bool :=
  match l with
  | [] => true
  | Overlay.Header _ :: rest =>
      match rest with
      | Overlay.Card _ :: _ => headersHaveCards rest
      | _ => false
      end
  | Overlay.Card _ :: rest => headersHaveCards rest
  end.

(** The cards of a list, in order. *)
Definition cards (l : list Overlay.Item) : list Overlay.Item :=
  List.filter (fun i => negb (Overlay.isHeader i)) l.

(** The three chains that the gas fee is derived for. *)
Definition feeChain (chain : option string) : bool :=
  Validation.equals "Ethereum" chain || Validation.equals "Bitcoin" chain
  || Validation.equals "Solana" chain.

(** [canSend] of [applyUIGating]. *)
Definition canSend (v : ValidationState) : bool :=
  isAddressPresent v && isAddressValid v && isSupportedChain v
  && isChainMatch v.

(** The gates agree: the slider carries [disabled] unless all four
    validation flags are set, the address field carries [input-validated]
    when they are; a valid address is a present one. *)
Definition gated (p : Screen.Page) : bool :=
  let v := VALIDATION_STATE (Screen.world p) in
  Bool.eqb (Screen.sliderDisabled p) (negb (canSend v))
  && Bool.eqb (Screen.inputValidated p) (canSend v)
  && negb (Screen.inputInvalid p)
  && (negb (isAddressValid v) || isAddressPresent v).

(** A text without a decimal point. *)
Definition noPoint (s : string) : bool :=
  Validation.every (fun c => negb (isDot c)) s.

(** A fiat text with at most one decimal point and at most two characters
    after it. *)
Definition fiatClean (s : string) : bool :=
  match split_dot s with
  | [_] => true
  | [_; dec] => (Validation.length16 dec <=? 2)%nat
  | _ => false
  end.

End Props.

(* ================================================================== *)
(** * Properties of the runtime model *)
(* ================================================================== *)

Import JS.

Lemma leb_zero_iff_not_positive (x : number) :
  isNaN x = false -> leb x zero = negb (ltb zero x).
Proof.
  destruct x as [s | s | | s m e]; intros H; try discriminate;
    destruct s; reflexivity.
Qed.

Lemma binary_round_aux_nonnegative (mx ex : Z) (lx : location) :
  ltb (binary_round_aux prec emax false mx ex lx) zero = false.
Proof.
  unfold binary_round_aux.
  destruct (shr_fexp prec emax mx ex lx) as [mrs e'].
  destruct (shr_fexp prec emax _ e' loc_Exact) as [mrs2 e2].
  destruct (shr_m mrs2) as [|m|m]; try reflexivity.
  destruct (e2 <=? emax - prec); reflexivity.
Qed.

(** The quotient of a non-negative Number by a positive one is not
    negative. *)
Lemma div_nonnegative (a p : number) :
  isNaN a = false -> ltb a zero = false -> ltb zero p = true ->
  ltb (div a p) zero = false.
Proof.
  intros Hn Ha Hp.
  destruct a as [sa | sa | | sa ma ea]; try discriminate;
    destruct p as [sp | sp | | sp mp ep]; try discriminate;
    destruct sa; try discriminate; destruct sp; try discriminate;
    try reflexivity.
  unfold div, SFdiv.
  destruct (SFdiv_core_binary prec emax (Z.pos ma) ea (Z.pos mp) ep)
    as [[mz ez] lz].
  apply binary_round_aux_nonnegative.
Qed.

(** ** The engine never throws on strings, Numbers and [null] *)

Lemma safeParse_str (s : string) :
  AmountEngine.safeParse (str s) =
  Normal (match s with
          | EmptyString => None
          | _ => let n := StringToNumber s in
                 if isNaN n then None
                 else if ltb n zero then Some zero else Some n
          end).
Proof.
  destruct s as [|c s]; [reflexivity|].
  unfold AmountEngine.safeParse; simpl.
  destruct (isNaN _); [reflexivity|].
  destruct (ltb _ zero); reflexivity.
Qed.

Lemma safeParse_num (x : number) :
  AmountEngine.safeParse (num x) =
  Normal (if isNaN x then None
          else if ltb x zero then Some zero else Some x).
Proof.
  unfold AmountEngine.safeParse; simpl.
  destruct (isNaN x); [reflexivity|].
  destruct (ltb x zero); reflexivity.
Qed.

Lemma safeParse_null : AmountEngine.safeParse null = Normal None.
Proof. reflexivity. Qed.

(** What [safeParse] returns is never NaN and never negative. *)
Lemma safeParse_range (v : value) (x : number) :
  AmountEngine.safeParse v = Normal (Some x) ->
  isNaN x = false /\ ltb x zero = false.
Proof.
  unfold AmountEngine.safeParse.
  destruct (isNull v || isUndefined v || isEmptyString v); [discriminate|].
  destruct (Number v) as [n|err]; simpl; [|discriminate].
  destruct (isNaN n) eqn:En; [discriminate|].
  destruct (ltb n zero) eqn:El; intros H; inversion H; subst; auto.
Qed.

(** An unparsable amount makes [safeParse] return [null]. *)
Lemma safeParse_unparsable (v : value) :
  Spec.Unparsable v -> AmountEngine.safeParse v = Normal None.
Proof.
  intros [H | [H | [H | H]]]; try (subst; reflexivity).
  unfold AmountEngine.safeParse.
  destruct (isNull v || isUndefined v || isEmptyString v); [reflexivity|].
  rewrite H. reflexivity.
Qed.

(** [safeParse] throws only if the numeric conversion does. *)
Lemma safeParse_convertible (v : value) :
  Spec.Convertible v -> exists r, AmountEngine.safeParse v = Normal r.
Proof.
  intros [x Hx]. unfold AmountEngine.safeParse.
  destruct (isNull v || isUndefined v || isEmptyString v); [eauto|].
  rewrite Hx; simpl.
  destruct (isNaN x); [eauto|]. destruct (ltb x zero); eauto.
Qed.

Lemma roundAsset_num (x : number) (chain : option string) :
  ltb x zero = false ->
  AmountEngine.roundAsset (num x) chain =
  Normal (Spec.round x (AmountEngine.decimalsFor chain)).
Proof.
  intros Hx. unfold AmountEngine.roundAsset.
  rewrite safeParse_num, Hx. unfold Spec.round.
  destruct (isNaN x); reflexivity.
Qed.

Lemma roundFiat_num (x : number) :
  ltb x zero = false ->
  AmountEngine.roundFiat (num x) =
  Normal (Spec.round x (AmountEngine.fiat AmountEngine.PRECISION)).
Proof.
  intros Hx. unfold AmountEngine.roundFiat.
  rewrite safeParse_num, Hx. unfold Spec.round.
  destruct (isNaN x); reflexivity.
Qed.

(* ================================================================== *)
(** * AmountEngine *)
(* ================================================================== *)

(** The engine's [deriveFromFiat] computes the specification's. *)
Lemma deriveFromFiat_refines
  (fiatAmount priceUSD : value) (chain : option string) :
  AmountEngine.deriveFromFiat fiatAmount priceUSD chain =
  Spec.deriveFromFiat fiatAmount priceUSD chain.
Proof.
  unfold AmountEngine.deriveFromFiat, Spec.deriveFromFiat, Spec.parse.
  destruct (AmountEngine.safeParse fiatAmount) as [[a|]|e1] eqn:Ea;
    simpl; try reflexivity.
  destruct (AmountEngine.safeParse priceUSD) as [[p|]|e2] eqn:Ep;
    simpl; try reflexivity.
  destruct (safeParse_range _ _ Ea) as [Han Hal].
  destruct (safeParse_range _ _ Ep) as [Hpn _].
  rewrite (leb_zero_iff_not_positive p Hpn).
  destruct (ltb zero p) eqn:Hp; simpl; [|reflexivity].
  destruct (eqb a zero); [reflexivity|].
  apply roundAsset_num, div_nonnegative; assumption.
Qed.

(** A non-null result needs both amounts parsed and a positive price. *)
Lemma deriveFromFiat_null_unless
  (fiatAmount priceUSD : value) (chain : option string) (r : number) :
  AmountEngine.deriveFromFiat fiatAmount priceUSD chain = Normal (Some r) ->
  exists a p,
    AmountEngine.safeParse fiatAmount = Normal (Some a) /\
    AmountEngine.safeParse priceUSD = Normal (Some p) /\
    ltb zero p = true.
Proof.
  rewrite deriveFromFiat_refines.
  unfold Spec.deriveFromFiat, Spec.parse.
  destruct (AmountEngine.safeParse fiatAmount) as [[a|]|e1]; simpl;
    [| |discriminate].
  - destruct (AmountEngine.safeParse priceUSD) as [[p|]|e2]; simpl;
      try discriminate.
    destruct (ltb zero p) eqn:Hp; [|discriminate].
    intros _. exists a, p. auto.
  - destruct (AmountEngine.safeParse priceUSD) as [[p|]|e2]; discriminate.
Qed.

Lemma roundAsset_num_returns (x : number) (chain : option string) :
  exists r, AmountEngine.roundAsset (num x) chain = Normal r.
Proof.
  unfold AmountEngine.roundAsset. rewrite safeParse_num.
  destruct (isNaN x); simpl; [eauto|].
  destruct (ltb x zero); simpl; eauto.
Qed.

(** [deriveFromFiat] throws only if a numeric conversion does. *)
Lemma deriveFromFiat_convertible (a p : value) (chain : option string) :
  Spec.Convertible a -> Spec.Convertible p ->
  exists r, AmountEngine.deriveFromFiat a p chain = Normal r.
Proof.
  intros Ha Hp. unfold AmountEngine.deriveFromFiat.
  destruct (safeParse_convertible a Ha) as [ra Hra].
  destruct (safeParse_convertible p Hp) as [rp Hrp].
  rewrite Hra, Hrp. simpl.
  destruct ra as [x|]; [|eauto]. destruct rp as [y|]; [|eauto].
  destruct (leb y zero); [eauto|]. destruct (eqb x zero); [eauto|].
  apply roundAsset_num_returns.
Qed.

Lemma convertible_str (s : string) : Spec.Convertible (str s).
Proof. exists (StringToNumber s). reflexivity. Qed.

Lemma convertible_num (x : number) : Spec.Convertible (num x).
Proof. exists x. reflexivity. Qed.


(** Scenarios 1 to 3 of the specification. *)
Example deriveFromFiat_scenarios :
  AmountEngine.deriveFromFiat (str "100") (num Spec.priceETH) (Some "Ethereum")
    = Normal (Some (ofDecimal 44435 (-6))) /\
  AmountEngine.deriveFromFiat (str "0") (num Spec.priceETH) (Some "Ethereum")
    = Normal (Some zero) /\
  AmountEngine.deriveFromFiat (str "100") (num zero) (Some "Ethereum")
    = Normal None.
Proof. repeat split; vm_compute; reflexivity. Qed.

Lemma deriveFromFiat_unparsable (v other : value) (chain : option string) :
  Spec.Unparsable v -> Spec.Convertible other ->
  AmountEngine.deriveFromFiat v other chain = Normal None /\
  AmountEngine.deriveFromFiat other v chain = Normal None.
Proof.
  intros Hv Ho. unfold AmountEngine.deriveFromFiat.
  rewrite (safeParse_unparsable v Hv).
  destruct (safeParse_convertible other Ho) as [r Hr]. rewrite Hr; simpl.
  destruct r; auto.
Qed.

Lemma deriveFromAsset_unparsable (v other : value) :
  Spec.Unparsable v -> Spec.Convertible other ->
  AmountEngine.deriveFromAsset v other = Normal None /\
  AmountEngine.deriveFromAsset other v = Normal None.
Proof.
  intros Hv Ho. unfold AmountEngine.deriveFromAsset.
  rewrite (safeParse_unparsable v Hv).
  destruct (safeParse_convertible other Ho) as [r Hr]. rewrite Hr; simpl.
  destruct r; auto.
Qed.

(** C6, as the code has it. If an amount is [null], [undefined], the empty
    string or has no numeric value (NaN itself, a non-numeric string, a
    plain object), then [parse] returns [null], and [deriveFromFiat] and
    [deriveFromAsset] return [null] wherever the amount stands, without
    throwing, as long as the other argument converts to a number. *)
Theorem unparsable_input_gives_null (v other : value) (chain : option string) :
  Spec.Unparsable v -> Spec.Convertible other ->
  Spec.parse v = Normal None /\
  AmountEngine.deriveFromFiat v other chain = Normal None /\
  AmountEngine.deriveFromFiat other v chain = Normal None /\
  AmountEngine.deriveFromAsset v other = Normal None /\
  AmountEngine.deriveFromAsset other v = Normal None.
Proof.
  intros Hv Ho.
  destruct (deriveFromFiat_unparsable v other chain Hv Ho) as [F1 F2].
  destruct (deriveFromAsset_unparsable v other Hv Ho) as [A1 A2].
  split; [apply safeParse_unparsable; exact Hv|]. auto.
Qed.

Lemma unparsable_input_gives_null_witness :
  Spec.Unparsable plainObject /\ Spec.Convertible (num Spec.priceETH) /\
  (Spec.parse plainObject = Normal None /\
   AmountEngine.deriveFromFiat plainObject (num Spec.priceETH) (Some "Ethereum")
     = Normal None /\
   AmountEngine.deriveFromFiat (num Spec.priceETH) plainObject (Some "Ethereum")
     = Normal None /\
   AmountEngine.deriveFromAsset plainObject (num Spec.priceETH) = Normal None /\
   AmountEngine.deriveFromAsset (num Spec.priceETH) plainObject = Normal None).
Proof.
  assert (Hu : Spec.Unparsable plainObject).
  { right; right; right. vm_compute. reflexivity. }
  assert (Hc : Spec.Convertible (num Spec.priceETH)).
  { exists Spec.priceETH. reflexivity. }
  split; [exact Hu|]. split; [exact Hc|].
  exact (unparsable_input_gives_null plainObject (num Spec.priceETH)
           (Some "Ethereum") Hu Hc).
Defined.

(** A negative amount is malformed, and it is clamped to 0, not rejected:
    the three functions return 0 for it. *)
Lemma negative_input_is_clamped :
  Spec.Malformed (num (ofZ (-5))) /\
  ~ (Spec.parse (num (ofZ (-5))) = Normal None /\
     AmountEngine.deriveFromFiat (num (ofZ (-5))) (num (ofZ 100))
       (Some "Ethereum") = Normal None /\
     AmountEngine.deriveFromAsset (num (ofZ (-5))) (num (ofZ 100))
       = Normal None).
Proof.
  split.
  - apply Spec.Malformed_negative. vm_compute. reflexivity.
  - intros [H _]. vm_compute in H. discriminate H.
Qed.

(** What the three functions return for the negative amount -5. *)
Example negative_input_results :
  Spec.parse (num (ofZ (-5))) = Normal (Some zero) /\
  AmountEngine.deriveFromFiat (num (ofZ (-5))) (num (ofZ 100)) (Some "Ethereum")
    = Normal (Some zero) /\
  AmountEngine.deriveFromAsset (num (ofZ (-5))) (num (ofZ 100))
    = Normal (Some zero).
Proof. repeat split; vm_compute; reflexivity. Qed.

(** Other inputs the engine does not answer with [null]: an oversized
    numeric string is Infinity, an object that converts to a number is that
    number, and a Symbol or an object whose conversion throws makes
    [safeParse] throw. *)
Example other_malformed_inputs :
  Spec.parse (str ("1" ++ zeros 400)) = Normal (Some Infinity) /\
  Spec.parse (Object (Normal (PString "5"))) = Normal (Some (ofZ 5)) /\
  Spec.parse (Prim PSymbol) =
    Throw "TypeError: Cannot convert a Symbol value to a number" /\
  Spec.parse (Object (Throw "TypeError: Cannot convert object to primitive value")) =
    Throw "TypeError: Cannot convert object to primitive value".
Proof. repeat split; vm_compute; reflexivity. Qed.

(** ** Chain precision *)

(** C7 at the chain names the engine's matching misses: [roundAsset] gives
    precision 0 to chains that [resolveChainFamily] places in the Ethereum
    family, so an amount on them is rounded to a whole number. *)
Theorem decimalsFor_misses_ethereum_family :
  Send.resolveChainFamily (Some "Arbitrum One") = Some Send.ethereum /\
  AmountEngine.decimalsFor (Some "Arbitrum One") = 0 /\
  AmountEngine.deriveFromFiat (str "100") (num Spec.priceETH)
    (Some "Arbitrum One") = Normal (Some zero).
Proof. repeat split; vm_compute; reflexivity. Qed.

(** The precision of every chain name [resolveChainFamily] knows. *)
Lemma decimalsFor_on_known_chains :
  map (fun ch => AmountEngine.decimalsFor (Some ch)) Send.ethereumFamily
    = [6; 6; 0; 0; 0; 0; 0; 0; 0; 0; 0; 0; 0; 0; 0] /\
  map (fun ch => AmountEngine.decimalsFor (Some ch))
    ["Bitcoin"; "Bitcoin Testnet"; "Solana"; "Solana Devnet"] = [8; 8; 6; 6] /\
  AmountEngine.decimalsFor None = 0 /\
  AmountEngine.decimalsFor (Some "") = 0.
Proof. repeat split; vm_compute; reflexivity. Qed.

(** ** Round trip *)






(** When the asset amount rounds to zero the round trip returns zero,
    whatever the fiat amount was. *)
Lemma round_trip_of_zero (fiatAmount priceUSD : value) (chain : option string)
  (x : number) :
  AmountEngine.deriveFromFiat fiatAmount priceUSD chain = Normal (Some x) ->
  eqb x zero = true ->
  Spec.roundTrip fiatAmount priceUSD chain = Normal (Some zero).
Proof.
  intros Hd Hx. unfold Spec.roundTrip. rewrite Hd. simpl.
  destruct (deriveFromFiat_null_unless _ _ _ _ Hd) as (a & p & _ & Hp & Hpos).
  unfold AmountEngine.deriveFromAsset. rewrite safeParse_num, Hp.
  destruct (safeParse_range _ _ Hp) as [Hpn _].
  destruct x as [sx|sx| |sx mx ex]; try discriminate Hx;
    destruct sx; try discriminate Hx; simpl;
    rewrite (leb_zero_iff_not_positive p Hpn), Hpos; reflexivity.
Qed.




Example round_trip_loses_a_cent_values :
  AmountEngine.deriveFromFiat (str "0.01") (num (ofZ 100000)) (Some "Ethereum")
    = Normal (Some zero) /\
  Spec.roundTrip (str "0.01") (num (ofZ 100000)) (Some "Ethereum")
    = Normal (Some zero) /\
  AmountEngine.roundFiat (str "0.01") = Normal (Some (ofDecimal 1 (-2))) /\
  Spec.roundTrip (str "100") (num Spec.priceETH) (Some "Arbitrum One")
    = Normal (Some zero).
Proof. repeat split; vm_compute; reflexivity. Qed.

(** Valuing the unit at the price does not save the bound either: at a
    price of 9999.99 on Ethereum, 1000003999.89 comes back as
    1000003999.90, a cent away, and a unit of the sixth decimal is worth
    less than a cent. *)
Example round_trip_off_at_price_scale :
  exists x y,
    Spec.roundTrip (str "1000003999.89") (num (ofDecimal 999999 (-2)))
      (Some "Ethereum") = Normal (Some x) /\
    AmountEngine.roundFiat (str "1000003999.89") = Normal (Some y) /\
    x = ofDecimal 10000039999 (-1) /\
    y = ofDecimal 100000399989 (-2) /\
    ~ Spec.withinOneUnitAtPrice x y (ofDecimal 999999 (-2)) 6.
Proof.
  eexists. eexists.
  split; [vm_compute; reflexivity|].
  split; [vm_compute; reflexivity|].
  split; [vm_compute; reflexivity|].
  split; [vm_compute; reflexivity|].
  vm_compute. intros H. apply H. reflexivity.
Qed.

(* ================================================================== *)
(** * The mirror synchronizer *)
(* ================================================================== *)

Import Send.

Lemma convertible_price (w : World) : Spec.Convertible (price w).
Proof.
  unfold price. destruct (assetPriceUSD (DATA_STATE w)) as [p|].
  - apply convertible_num.
  - exists zero. reflexivity.
Qed.

Lemma roundFiat_num_returns (x : number) :
  exists r, AmountEngine.roundFiat (num x) = Normal r.
Proof.
  unfold AmountEngine.roundFiat. rewrite safeParse_num.
  destruct (isNaN x); simpl; [eauto|].
  destruct (ltb x zero); simpl; eauto.
Qed.

(** [deriveFromAsset] throws only if a numeric conversion does. *)
Lemma deriveFromAsset_convertible (a p : value) :
  Spec.Convertible a -> Spec.Convertible p ->
  exists r, AmountEngine.deriveFromAsset a p = Normal r.
Proof.
  intros Ha Hp. unfold AmountEngine.deriveFromAsset.
  destruct (safeParse_convertible a Ha) as [ra Hra].
  destruct (safeParse_convertible p Hp) as [rp Hrp].
  rewrite Hra, Hrp. simpl.
  destruct ra as [x|]; [|eauto]. destruct rp as [y|]; [|eauto].
  destruct (leb y zero); [eauto|]. destruct (eqb x zero); [eauto|].
  apply roundFiat_num_returns.
Qed.

(** On the text of a field and the price of [DATA_STATE] the engine
    returns. *)
Lemma deriveFromFiat_returns (s : string) (w : World) (chain : option string) :
  exists r, AmountEngine.deriveFromFiat (str s) (price w) chain = Normal r.
Proof.
  apply deriveFromFiat_convertible;
    [apply convertible_str | apply convertible_price].
Qed.

Lemma deriveFromAsset_returns (s : string) (w : World) :
  exists r, AmountEngine.deriveFromAsset (str s) (price w) = Normal r.
Proof.
  apply deriveFromAsset_convertible;
    [apply convertible_str | apply convertible_price].
Qed.

(** The synchronizer always returns. *)
Lemma updateAmountMirror_returns (w : World) :
  exists w', updateAmountMirror w = Normal w'.
Proof.
  unfold updateAmountMirror.
  destruct (negb _ || negb _); [eauto|].
  destruct (inputMode (APP_STATE w)).
  - destruct (deriveFromFiat_returns (content (usdInput w)) w
                (chain (APP_STATE w))) as [r Hr].
    rewrite Hr. simpl. destruct r as [d|]; [|eauto].
    destruct (ltb zero d); [|eauto].
    destruct (negb _); eauto.
  - destruct (deriveFromAsset_returns
                (trim (replace NEUTRAL "" (content (assetDisplay w)))) w)
      as [r Hr].
    rewrite Hr. simpl. destruct r; eauto.
Qed.

(** In fiat mode with the asset field focused, a pass changes nothing. *)
Lemma updateAmountMirror_barrier (w : World) :
  inputMode (APP_STATE w) = Fiat ->
  activeElement w = Some AssetDisplay ->
  updateAmountMirror w = Normal w.
Proof.
  intros Hm Ha. unfold updateAmountMirror.
  destruct (negb _ || negb _); [reflexivity|].
  rewrite Hm.
  destruct (deriveFromFiat_returns (content (usdInput w)) w
              (chain (APP_STATE w))) as [r Hr].
  rewrite Hr. simpl. unfold isActive. rewrite Ha. simpl.
  destruct r as [d|].
  - destruct (ltb zero d); [reflexivity|].
    destruct (_ && _); reflexivity.
  - destruct (_ && _); reflexivity.
Qed.

(** C2. If the asset field is focused, a pass of the synchronizer in
    fiat-authoritative mode returns and leaves the asset field's text (and
    its neutral flag) as they were, whatever [deriveFromFiat] gives: a
    positive value, [null] or zero, with or without a valid address. *)
Theorem write_barrier (w : World) :
  inputMode (APP_STATE w) = Fiat ->
  activeElement w = Some AssetDisplay ->
  exists w',
    updateAmountMirror w = Normal w' /\
    content (assetDisplay w') = content (assetDisplay w) /\
    stateNeutral (assetDisplay w') = stateNeutral (assetDisplay w).
Proof.
  intros Hm Ha. exists w.
  split; [apply updateAmountMirror_barrier; assumption | split; reflexivity].
Qed.

(** ** Idempotence *)

Lemma setVisualValue_asset_frame (v : shown) (b : bool) (w : World) :
  let w1 := setVisualValue AssetDisplay v b w in
  APP_STATE w1 = APP_STATE w /\ DATA_STATE w1 = DATA_STATE w /\
  VALIDATION_STATE w1 = VALIDATION_STATE w /\ usdInput w1 = usdInput w /\
  activeElement w1 = activeElement w.
Proof. destruct b; repeat split; reflexivity. Qed.

Lemma setVisualValue_again (n : Node) (v : shown) (b : bool) (w : World) :
  setVisualValue n v b (setVisualValue n v b w) = setVisualValue n v b w.
Proof. destruct n, b; reflexivity. Qed.

(** A pass in fiat mode is one guarded write to the asset field. *)
Lemma updateAmountMirror_fiat (w : World) (r : option number) :
  negb (truthyString (asset (APP_STATE w)))
  || negb (truthyNumber (assetPriceUSD (DATA_STATE w))) = false ->
  inputMode (APP_STATE w) = Fiat ->
  AmountEngine.deriveFromFiat (str (content (usdInput w))) (price w)
    (chain (APP_STATE w)) = Normal r ->
  updateAmountMirror w =
  Normal (if isActive w AssetDisplay then w
          else let vb := Spec.shownInFiatMode r (content (usdInput w))
                           (isAddressValid (VALIDATION_STATE w)) in
               setVisualValue AssetDisplay (fst vb) (snd vb) w).
Proof.
  intros Epre Emode Ed. unfold updateAmountMirror, Spec.shownInFiatMode.
  rewrite Epre, Emode, Ed. simpl.
  destruct (isActive w AssetDisplay); simpl.
  - destruct r as [d|].
    + destruct (ltb zero d); [reflexivity|]. destruct (_ && _); reflexivity.
    + destruct (_ && _); reflexivity.
  - destruct r as [d|].
    + destruct (ltb zero d); [reflexivity|]. destruct (_ && _); reflexivity.
    + destruct (_ && _); reflexivity.
Qed.

(** A second pass right after a pass changes nothing. *)
Lemma updateAmountMirror_fixed (w w1 : World) :
  updateAmountMirror w = Normal w1 -> updateAmountMirror w1 = Normal w1.
Proof.
  intros H.
  destruct (negb (truthyString (asset (APP_STATE w)))
            || negb (truthyNumber (assetPriceUSD (DATA_STATE w)))) eqn:Epre.
  { unfold updateAmountMirror in H. rewrite Epre in H.
    inversion H; subst w1. unfold updateAmountMirror. rewrite Epre.
    reflexivity. }
  destruct (inputMode (APP_STATE w)) eqn:Emode.
  - (* fiat is authoritative *)
    destruct (deriveFromFiat_returns (content (usdInput w)) w
                (chain (APP_STATE w))) as [r Ed].
    rewrite (updateAmountMirror_fiat w r Epre Emode Ed) in H.
    destruct (isActive w AssetDisplay) eqn:Eact.
    + inversion H; subst w1.
      rewrite (updateAmountMirror_fiat w r Epre Emode Ed), Eact. reflexivity.
    + simpl in H. injection H as Hw1.
      match type of Hw1 with setVisualValue _ ?v ?b _ = _ =>
        destruct (setVisualValue_asset_frame v b w)
          as (Fa & Fd & Fv & Fu & Fe) end.
      rewrite Hw1 in Fa, Fd, Fv, Fu, Fe.
      assert (Ed1 : AmountEngine.deriveFromFiat (str (content (usdInput w1)))
                      (price w1) (chain (APP_STATE w1)) = Normal r).
      { unfold price in *. rewrite Fa, Fd, Fu. exact Ed. }
      assert (Epre1 : negb (truthyString (asset (APP_STATE w1)))
                || negb (truthyNumber (assetPriceUSD (DATA_STATE w1))) = false).
      { rewrite Fa, Fd. exact Epre. }
      assert (Emode1 : inputMode (APP_STATE w1) = Fiat).
      { rewrite Fa. exact Emode. }
      rewrite (updateAmountMirror_fiat w1 r Epre1 Emode1 Ed1).
      unfold isActive in *. rewrite Fe, Eact, Fu, Fv. simpl.
      rewrite <- Hw1 at 1. rewrite setVisualValue_again, Hw1. reflexivity.
  - (* the asset is authoritative *)
    unfold updateAmountMirror in H. rewrite Epre, Emode in H.
    destruct (AmountEngine.deriveFromAsset
                (str (trim (replace NEUTRAL "" (content (assetDisplay w)))))
                (price w)) as [r|err] eqn:Ed; [simpl in H | discriminate].
    destruct r as [d|]; inversion H; subst w1; clear H;
      unfold updateAmountMirror; simpl; unfold price in *; simpl;
      rewrite Epre, Emode, Ed; reflexivity.
Qed.

(** C8. The synchronizer is idempotent: for every state, running it twice
    in a row gives the state that running it once gives (the two fields'
    texts, their neutral flags and everything else). *)
Theorem updateAmountMirror_idempotent (w : World) :
  (w1 <- updateAmountMirror w ;; updateAmountMirror w1) = updateAmountMirror w.
Proof.
  destruct (updateAmountMirror_returns w) as [w1 H].
  rewrite H. simpl. exact (updateAmountMirror_fixed w w1 H).
Qed.

Lemma write_barrier_witness :
  inputMode (APP_STATE Scenario.focusConflict) = Fiat /\
  activeElement Scenario.focusConflict = Some AssetDisplay /\
  exists w',
    updateAmountMirror Scenario.focusConflict = Normal w' /\
    content (assetDisplay w') = content (assetDisplay Scenario.focusConflict) /\
    stateNeutral (assetDisplay w')
      = stateNeutral (assetDisplay Scenario.focusConflict).
Proof.
  split; [reflexivity|]. split; [reflexivity|].
  exact (write_barrier Scenario.focusConflict eq_refl eq_refl).
Defined.

(** Scenario 6 evaluated: the asset field still reads 1.2. *)
Example focus_conflict_keeps_text :
  updateAmountMirror Scenario.focusConflict = Normal Scenario.focusConflict.
Proof. vm_compute. reflexivity. Qed.

(** Scenario 5: with no valid address and an empty fiat field the asset
    field shows the sentinel; once the fiat field reads 50 the derived
    amount replaces it and the neutral flag goes. *)
Example neutral_then_value :
  (exists w',
     updateAmountMirror
       (Scenario.screen Fiat false (Some Spec.priceETH) "" "" None)
       = Normal w' /\
     content (assetDisplay w') = NEUTRAL /\
     stateNeutral (assetDisplay w') = true) /\
  (exists w',
     updateAmountMirror
       (Scenario.screen Fiat false (Some Spec.priceETH) "50" NEUTRAL None)
       = Normal w' /\
     content (assetDisplay w') = "0.022217" /\
     stateNeutral (assetDisplay w') = false).
Proof.
  split; eexists; (split; [vm_compute; reflexivity|]); split; reflexivity.
Qed.

(** ** What the fiat field is given *)

Lemma asciiOnly_app (a b : string) :
  asciiOnly (a ++ b) = asciiOnly a && asciiOnly b.
Proof.
  induction a as [|c a IH]; simpl; [reflexivity|].
  rewrite IH, andb_assoc. reflexivity.
Qed.

Lemma asciiOnly_skip (n : nat) (s : string) :
  asciiOnly s = true -> asciiOnly (skip n s) = true.
Proof.
  revert s. induction n as [|n IH]; intros s H; [destruct s; exact H|].
  destruct s as [|c s]; [exact H|].
  simpl in *. apply andb_prop in H. apply IH, H.
Qed.

Lemma asciiOnly_substring (n m : nat) (s : string) :
  asciiOnly s = true -> asciiOnly (substring n m s) = true.
Proof.
  revert n m. induction s as [|c s IH]; intros n m H.
  - destruct n, m; reflexivity.
  - simpl in H. apply andb_prop in H. destruct H as [Hc Hs].
    destruct n as [|n]; simpl.
    + destruct m as [|m]; simpl; [reflexivity|].
      rewrite Hc. simpl. apply IH, Hs.
    + apply IH, Hs.
Qed.

Lemma asciiOnly_zeros (n : nat) : asciiOnly (zeros n) = true.
Proof. induction n; simpl; auto. Qed.

Lemma asciiOnly_string_of_uint (u : Decimal.uint) :
  asciiOnly (NilEmpty.string_of_uint u) = true.
Proof. induction u; simpl; auto. Qed.

Lemma asciiOnly_digitsOf (n : Z) : asciiOnly (digitsOf n) = true.
Proof. apply asciiOnly_string_of_uint. Qed.

Lemma asciiOnly_of_list (l : list ascii) :
  asciiOnly (string_of_list_ascii l)
  = forallb (fun c => (nat_of_ascii c <? 128)%nat) l.
Proof. induction l as [|c l IH]; simpl; [reflexivity|]. rewrite IH. reflexivity. Qed.

Lemma asciiOnly_to_list (s : string) :
  forallb (fun c => (nat_of_ascii c <? 128)%nat) (list_ascii_of_string s)
  = asciiOnly s.
Proof. induction s as [|c s IH]; simpl; [reflexivity|]. rewrite IH. reflexivity. Qed.

Lemma stripZerosRev_Forall (P : ascii -> Prop) (l : list ascii) :
  Forall P l -> Forall P (stripZerosRev l).
Proof.
  induction 1 as [|c l Hc Hl IH]; simpl; [constructor|].
  destruct (Ascii.eqb c "0"); [exact IH | constructor; assumption].
Qed.

Lemma asciiOnly_stripZeros (s : string) :
  asciiOnly s = true -> asciiOnly (stripZeros s) = true.
Proof.
  intros H. unfold stripZeros. rewrite asciiOnly_of_list.
  apply forallb_forall. apply Forall_forall.
  apply Forall_rev, stripZerosRev_Forall, Forall_rev.
  apply Forall_forall. apply forallb_forall.
  rewrite asciiOnly_to_list. exact H.
Qed.

Lemma asciiOnly_formatDigits (D : string) (n : Z) :
  asciiOnly D = true -> asciiOnly (formatDigits D n) = true.
Proof.
  intros H. unfold formatDigits.
  repeat match goal with
         | |- context [if ?b then _ else _] => destruct b
         end;
    rewrite ?asciiOnly_app;
    rewrite ?asciiOnly_zeros, ?asciiOnly_digitsOf, ?H,
      ?(asciiOnly_substring _ _ _ H), ?(asciiOnly_skip _ _ H);
    reflexivity.
Qed.

Lemma asciiOnly_toString (x : number) : asciiOnly (Number_toString x) = true.
Proof.
  destruct x as [s|s| |s m e]; try (destruct s; reflexivity); try reflexivity.
  unfold Number_toString, shortestDigits.
  destruct (ratOf m e) as [nu de].
  destruct (shortest _ _ _ _ _ _) as [sd k].
  rewrite asciiOnly_app.
  rewrite asciiOnly_formatDigits
    by (apply asciiOnly_stripZeros, asciiOnly_digitsOf).
  destruct s; reflexivity.
Qed.

Lemma asciiOnly_fixedText (N : Z) (f : nat) : asciiOnly (fixedText N f) = true.
Proof.
  unfold fixedText. destruct f; [apply asciiOnly_digitsOf|].
  rewrite !asciiOnly_app.
  rewrite !asciiOnly_digitsOf, asciiOnly_zeros. reflexivity.
Qed.

Lemma asciiOnly_toFixed (x : number) (f : nat) :
  asciiOnly (Number_toFixed x f) = true.
Proof.
  destruct x as [s|s| |s m e]; try (destruct s; reflexivity); try reflexivity.
  - apply asciiOnly_fixedText.
  - unfold Number_toFixed. destruct (ratOf m e) as [nu de].
    destruct (_ <=? _); [apply asciiOnly_toString|].
    rewrite asciiOnly_app, asciiOnly_fixedText. destruct s; reflexivity.
Qed.

Lemma asciiOnly_split_dot (s : string) :
  asciiOnly s = true -> Forall (fun p => asciiOnly p = true) (split_dot s).
Proof.
  induction s as [|c s IH]; intros H; simpl.
  - constructor; [reflexivity | constructor].
  - simpl in H. apply andb_prop in H. destruct H as [Hc Hs].
    specialize (IH Hs).
    destruct (isDot c); [constructor; [reflexivity | exact IH]|].
    destruct (split_dot s) as [|p ps].
    + constructor; [simpl; rewrite Hc; reflexivity | constructor].
    + inversion IH; subst. constructor; [simpl; rewrite Hc; assumption | assumption].
Qed.

Lemma asciiOnly_displayValue (s : string) :
  asciiOnly s = true -> asciiOnly (displayValue s) = true.
Proof.
  intros H. unfold displayValue.
  destruct (includes "." s); [|exact H].
  pose proof (asciiOnly_split_dot s H) as Hp.
  destruct (split_dot s) as [|p0 [|p1 ps]]; try exact H.
  inversion Hp as [|? ? H0 Hp']; subst. inversion Hp' as [|? ? H1 _]; subst.
  destruct (_ && _); [|exact H].
  rewrite !asciiOnly_app.
  rewrite H0, (asciiOnly_substring _ _ _ H1). reflexivity.
Qed.

(** An ASCII text has no dash in it. *)
Lemma asciiOnly_no_dash (s : string) :
  asciiOnly s = true -> includes DASH s = false.
Proof.
  induction s as [|c s IH]; intros H; [reflexivity|].
  simpl in H. apply andb_prop in H. destruct H as [Hc Hs].
  cbn [includes]. rewrite (IH Hs).
  unfold DASH. cbn [prefix].
  destruct (ascii_dec _ c) as [E|E]; [|reflexivity].
  subst c. discriminate Hc.
Qed.

(** Whenever a pass touches the fiat field, the field is not flagged
    neutral and its text has no dash: the sentinel never goes there. *)
Lemma fiat_never_neutral (w w' : World) :
  updateAmountMirror w = Normal w' ->
  usdInput w' = usdInput w \/
  (stateNeutral (usdInput w') = false /\
   includes DASH (content (usdInput w')) = false).
Proof.
  unfold updateAmountMirror.
  destruct (negb _ || negb _); [intros H; inversion H; auto|].
  destruct (inputMode (APP_STATE w)).
  - destruct (AmountEngine.deriveFromFiat _ _ _) as [r|]; [simpl|discriminate].
    intros H. left.
    assert (F : forall v b,
      usdInput (setVisualValue AssetDisplay v b w) = usdInput w)
      by (intros v b; destruct b; reflexivity).
    destruct r as [d|].
    + destruct (ltb zero d).
      * destruct (negb _); inversion H; subst; auto.
      * destruct (_ && _); destruct (negb _); inversion H; subst; auto.
    + destruct (_ && _); destruct (negb _); inversion H; subst; auto.
  - destruct (AmountEngine.deriveFromAsset _ _) as [r|]; [simpl|discriminate].
    intros H. right.
    destruct r as [d|]; inversion H; subst; simpl.
    + split; [reflexivity|].
      apply asciiOnly_no_dash, asciiOnly_displayValue, asciiOnly_toFixed.
    + split; reflexivity.
Qed.

(** C10, as the code has it. In asset-authoritative mode, with an asset
    selected and a price in place, when [deriveFromAsset] returns [null]
    the synchronizer returns with the empty string in the fiat field. And
    whenever a pass of the synchronizer, in either mode, changes the fiat
    field, the field is not flagged neutral and shows no dash: the neutral
    sentinel is applied to the asset field only. *)
Theorem asset_mode_null_clears_fiat (w : World) :
  inputMode (APP_STATE w) = Asset ->
  truthyString (asset (APP_STATE w)) = true ->
  truthyNumber (assetPriceUSD (DATA_STATE w)) = true ->
  AmountEngine.deriveFromAsset (str (Spec.assetVal w)) (price w) = Normal None ->
  (exists w',
     updateAmountMirror w = Normal w' /\
     content (usdInput w') = "" /\
     stateNeutral (usdInput w') = false /\
     content (assetDisplay w') = content (assetDisplay w)) /\
  (forall w0 w1,
     updateAmountMirror w0 = Normal w1 ->
     usdInput w1 = usdInput w0 \/
     (stateNeutral (usdInput w1) = false /\
      includes DASH (content (usdInput w1)) = false)).
Proof.
  intros Hm Ha Hp Hd. split; [|exact fiat_never_neutral].
  unfold updateAmountMirror. rewrite Hm, Ha, Hp. simpl.
  unfold Spec.assetVal in Hd. rewrite Hd. simpl.
  eexists. split; [reflexivity|]. repeat split.
Qed.

Lemma asset_mode_null_clears_fiat_witness :
  inputMode (APP_STATE Scenario.assetCleared) = Asset /\
  truthyString (asset (APP_STATE Scenario.assetCleared)) = true /\
  truthyNumber (assetPriceUSD (DATA_STATE Scenario.assetCleared)) = true /\
  AmountEngine.deriveFromAsset (str (Spec.assetVal Scenario.assetCleared))
    (price Scenario.assetCleared) = Normal None /\
  exists w',
    updateAmountMirror Scenario.assetCleared = Normal w' /\
    content (usdInput w') = "" /\
    stateNeutral (usdInput w') = false /\
    content (assetDisplay w') = content (assetDisplay Scenario.assetCleared).
Proof.
  split; [reflexivity|]. split; [reflexivity|]. split; [reflexivity|].
  split; [reflexivity|].
  exact (proj1 (asset_mode_null_clears_fiat Scenario.assetCleared
                  eq_refl eq_refl eq_refl eq_refl)).
Defined.

(** With no price, [deriveFromAsset] returns [null] for the empty asset
    text, yet the synchronizer stops at its prerequisites and the fiat
    field keeps 5.00. *)
Lemma missing_price_keeps_fiat :
  inputMode (APP_STATE Scenario.priceMissing) = Asset /\
  AmountEngine.deriveFromAsset (str (Spec.assetVal Scenario.priceMissing))
    (price Scenario.priceMissing) = Normal None /\
  ~ Spec.fiatCleared Scenario.priceMissing.
Proof.
  split; [reflexivity|]. split; [reflexivity|].
  intros (w' & Hw & Hc).
  vm_compute in Hw. inversion Hw; subst w'. discriminate Hc.
Qed.

(* ================================================================== *)
(** * Authority *)
(* ================================================================== *)





Example toggle_clears_sentinel_values :
  content (assetDisplay initial) = NEUTRAL /\
  content (assetDisplay (handleSingleClick initial)) = "" /\
  inputMode (APP_STATE (handleSingleClick initial)) = Asset.
Proof. repeat split. Qed.

(* ================================================================== *)
(** * Gating *)
(* ================================================================== *)

(** C9. While the address is not valid, a click, a mousedown, a keydown
    and a focus on either amount field are blocked: the event goes no
    further, the field does not keep the focus and neither text changes;
    the default action of the three intentional events is prevented and
    the toast [Enter wallet address first] is shown, while a focus event
    shows nothing. A drag start on the slider is blocked as well: it is
    prevented, dragging does not begin and the same toast is shown. *)
Theorem gating_blocks_amount_fields (w : World) (t : EventType) (n : Node) (x : Z) :
  isAddressValid (VALIDATION_STATE w) = false ->
  In t [click; mousedown; keydown; focus] ->
  In n [UsdInput; AssetDisplay] ->
  (let (w', e') := handleIntent (dispatch t n x) w in
   propagationStopped e' = true /\
   isActive w' n = false /\
   usdInput w' = usdInput w /\ assetDisplay w' = assetDisplay w /\
   match t with
   | focus => toasts w' = toasts w
   | _ => defaultPrevented e' = true /\
          toasts w' = {| message := "Enter wallet address first";
                         isError := true |} :: toasts w
   end) /\
  (forall t', In t' [mousedown; touchstart] ->
   let (w', e') := startDrag (dispatch t' SliderKnob x) w in
   defaultPrevented e' = true /\
   isDragging w' = isDragging w /\
   toasts w' = {| message := "Enter wallet address first";
                  isError := true |} :: toasts w).
Proof.
  intros Hv Ht Hn. split.
  - unfold handleIntent, isUnlockable. rewrite Hv.
    assert (Hb : isActive (blur n w) n = false).
    { unfold blur. destruct (isActive w n) eqn:E; [reflexivity | exact E]. }
    assert (Hu : usdInput (blur n w) = usdInput w)
      by (unfold blur; destruct (isActive w n); reflexivity).
    assert (Ha : assetDisplay (blur n w) = assetDisplay w)
      by (unfold blur; destruct (isActive w n); reflexivity).
    assert (Hts : toasts (blur n w) = toasts w)
      by (unfold blur; destruct (isActive w n); reflexivity).
    simpl in Ht.
    destruct Ht as [E | [E | [E | [E | []]]]]; subst t; simpl;
      repeat split; try assumption; rewrite ?Hts; reflexivity.
  - intros t' Ht'. unfold startDrag. rewrite Hv. simpl.
    destruct Ht' as [E | [E | []]]; subst t'; repeat split.
Qed.

Lemma gating_blocks_amount_fields_witness :
  isAddressValid (VALIDATION_STATE initial) = false /\
  In click [click; mousedown; keydown; focus] /\
  In AssetDisplay [UsdInput; AssetDisplay] /\
  (let (w', e') := handleIntent (dispatch click AssetDisplay 0) initial in
   propagationStopped e' = true /\
   isActive w' AssetDisplay = false /\
   usdInput w' = usdInput initial /\ assetDisplay w' = assetDisplay initial /\
   defaultPrevented e' = true /\
   toasts w' = {| message := "Enter wallet address first";
                  isError := true |} :: toasts initial).
Proof.
  assert (H1 : isAddressValid (VALIDATION_STATE initial) = false)
    by reflexivity.
  assert (H2 : In click [click; mousedown; keydown; focus])
    by (simpl; auto).
  assert (H3 : In AssetDisplay [UsdInput; AssetDisplay]) by (simpl; auto).
  split; [exact H1|]. split; [exact H2|]. split; [exact H3|].
  exact (proj1 (gating_blocks_amount_fields initial click AssetDisplay 0
                  H1 H2 H3)).
Defined.

(** With a valid address the gating lets every event through. *)
Lemma gating_open_when_valid (w : World) (e : Event) :
  isAddressValid (VALIDATION_STATE w) = true -> handleIntent e w = (w, e).
Proof. intros H. unfold handleIntent, isUnlockable. rewrite H. reflexivity. Qed.

(* ================================================================== *)
(** * The digit cap *)
(* ================================================================== *)

Lemma digitCount_cons (c : ascii) (s : string) :
  digitCount (String c s) =
  (if isDigitOrDot c && negb (isDot c) then 1 else 0) + digitCount s.
Proof.
  unfold digitCount, sanitize, lengthZ. cbn [JS.filter].
  destruct (isDigitOrDot c); cbn [JS.filter andb negb]; [|lia].
  destruct (isDot c); cbn [JS.filter String.length andb negb];
    rewrite ?Nat2Z.inj_succ; lia.
Qed.

Lemma digitCount_empty : digitCount "" = 0.
Proof. reflexivity. Qed.


Lemma digitCount_app (a b : string) :
  digitCount (a ++ b) = digitCount a + digitCount b.
Proof.
  induction a as [|c a IH]; [rewrite digitCount_empty; reflexivity|].
  cbn [append]. rewrite !digitCount_cons, IH. lia.
Qed.

Lemma digitCount_split (n : nat) (s : string) :
  digitCount s = digitCount (substring 0 n s) + digitCount (skip n s).
Proof.
  revert s. induction n as [|n IH]; intros s.
  - destruct s; simpl; rewrite ?digitCount_empty; lia.
  - destruct s as [|c s]; [reflexivity|].
    cbn [substring skip]. rewrite !digitCount_cons, (IH s). lia.
Qed.




Lemma digitCount_sanitize (s : string) :
  digitCount (sanitize s) = digitCount s.
Proof.
  induction s as [|c s IH]; [reflexivity|].
  rewrite digitCount_cons. unfold sanitize in *. cbn [JS.filter].
  destruct (isDigitOrDot c) eqn:E; simpl.
  - rewrite digitCount_cons, E, IH. reflexivity.
  - exact IH.
Qed.

(** In asset mode a pass leaves the asset text and [APP_STATE] alone. *)
Lemma updateAmountMirror_asset_frame (w w' : World) :
  inputMode (APP_STATE w) = Asset ->
  updateAmountMirror w = Normal w' ->
  content (assetDisplay w') = content (assetDisplay w) /\
  APP_STATE w' = APP_STATE w.
Proof.
  intros Hm. unfold updateAmountMirror.
  destruct (negb _ || negb _); [intros H; inversion H; auto|].
  rewrite Hm.
  destruct (AmountEngine.deriveFromAsset _ _) as [r|]; [simpl|discriminate].
  destruct r; intros H; inversion H; subst; auto.
Qed.






(** Scenario 4 evaluated: the eighteenth digit is rejected with a toast,
    the field keeps its 17 digits. *)
Example eighteenth_digit_rejected :
  exists w',
    act (TypeText "8" 17 0) Scenario.capReached = Normal w' /\
    content (assetDisplay w') = "12345678901234567" /\
    toasts w' = [{| message := "Maximum precision reached"; isError := true |}].
Proof. eexists. split; [vm_compute; reflexivity|]. split; reflexivity. Qed.

(** A digit typed into a field of 16 digits goes in. *)
Example seventeenth_digit_accepted :
  exists w',
    act (TypeText "7" 16 0)
      (Scenario.screen Asset true (Some Spec.priceETH) "" "1234567890123456"
         (Some AssetDisplay)) = Normal w' /\
    content (assetDisplay w') = "12345678901234567".
Proof. eexists. split; [vm_compute; reflexivity|]. reflexivity. Qed.

(** The first toggle hands the asset an empty field, well within the cap. *)
Example toggle_starts_within_cap :
  inputMode (APP_STATE (handleSingleClick initial)) = Asset /\
  digitCount (content (assetDisplay (handleSingleClick initial))) = 0.
Proof. split; reflexivity. Qed.

(* ================================================================== *)
(** * More of the engine *)
(* ================================================================== *)

Lemma shr_1_nonnegative (mrs : shr_record) :
  0 <= shr_m mrs -> 0 <= shr_m (shr_1 mrs).
Proof.
  destruct mrs as [m r s]; simpl.
  destruct m as [|p|p]; simpl; intros H;
    [lia | destruct p; simpl; lia | lia].
Qed.

Lemma iter_pos_shr_1_nonnegative (n : positive) :
  forall mrs, 0 <= shr_m mrs -> 0 <= shr_m (iter_pos shr_1 n mrs).
Proof.
  induction n; simpl; intros mrs H; auto using shr_1_nonnegative.
Qed.

Lemma shr_fexp_nonnegative (m e : Z) (l : location) :
  0 <= m -> 0 <= shr_m (fst (shr_fexp prec emax m e l)).
Proof.
  intros H. unfold shr_fexp, shr.
  assert (H0 : 0 <= shr_m (shr_record_of_loc m l))
    by (destruct l as [|[]]; exact H).
  destruct (fexp prec emax (Zdigits2 m + e) - e); simpl; auto.
  apply iter_pos_shr_1_nonnegative; exact H0.
Qed.

Lemma round_nearest_even_nonnegative (m : Z) (l : location) :
  0 <= m -> 0 <= round_nearest_even m l.
Proof.
  intros H. destruct l as [|[]]; simpl; try lia.
  destruct (Z.even m); lia.
Qed.

(** Rounding a non-negative mantissa gives an amount. *)
Lemma binary_round_aux_amount (mx ex : Z) (lx : location) :
  0 <= mx -> Props.amount (binary_round_aux prec emax false mx ex lx) = true.
Proof.
  intros H. unfold binary_round_aux.
  pose proof (shr_fexp_nonnegative mx ex lx H) as H1.
  destruct (shr_fexp prec emax mx ex lx) as [mrs e']; simpl in H1.
  pose proof (shr_fexp_nonnegative
                (round_nearest_even (shr_m mrs) (loc_of_shr_record mrs))
                e' loc_Exact
                (round_nearest_even_nonnegative _ _ H1)) as H2.
  destruct (shr_fexp prec emax _ e' loc_Exact) as [mrs2 e2]; simpl in H2.
  destruct (shr_m mrs2) as [|m|m]; try reflexivity; try lia.
  destruct (e2 <=? emax - prec); reflexivity.
Qed.

Lemma amount_cases (x : number) :
  Props.amount x = true ->
  (exists s, x = S754_zero s) \/ x = Infinity \/
  (exists m e, x = S754_finite false m e).
Proof.
  destruct x as [s | s | | s m e]; try discriminate; intros H.
  - left; eauto.
  - destruct s; [discriminate | right; left; reflexivity].
  - destruct s; [discriminate | right; right; eauto].
Qed.

Lemma amount_iff (x : number) :
  Props.amount x = true <-> isNaN x = false /\ ltb x zero = false.
Proof.
  unfold Props.amount.
  destruct (isNaN x), (ltb x zero); simpl; intuition congruence.
Qed.

(** The product of an amount and a positive finite Number is an amount. *)
Lemma mul_finite_amount (x : number) (m : positive) (e : Z) :
  Props.amount x = true -> Props.amount (mul x (S754_finite false m e)) = true.
Proof.
  intros H.
  destruct (amount_cases x H) as [[s ->] | [-> | [mx [ex ->]]]];
    try reflexivity.
  unfold mul; simpl. apply binary_round_aux_amount. lia.
Qed.

(** The product of a positive Number and a positive Number is an amount. *)
Lemma mul_positive_amount (x y : number) :
  ltb zero x = true -> ltb zero y = true -> Props.amount (mul x y) = true.
Proof.
  intros Hx Hy.
  destruct x as [sx | sx | | sx mx ex]; try discriminate;
    destruct y as [sy | sy | | sy my ey]; try discriminate;
    destruct sx; try discriminate; destruct sy; try discriminate;
    try reflexivity.
  unfold mul; simpl. apply binary_round_aux_amount. lia.
Qed.

Lemma SFdiv_core_binary_nonnegative (m1 m2 : positive) (e1 e2 : Z) :
  0 <= fst (fst (SFdiv_core_binary prec emax (Zpos m1) e1 (Zpos m2) e2)).
Proof.
  unfold SFdiv_core_binary.
  set (s := _ - _ - Z.min _ _).
  set (m' := match s with Z.pos _ => _ | Z0 => _ | Z.neg _ => _ end).
  assert (Hm : 0 <= m').
  { subst m'. destruct s; try lia. apply Z.shiftl_nonneg. lia. }
  pose proof (Z_div_mod m' (Zpos m2) eq_refl) as Hd.
  destruct (Z.div_eucl m' (Zpos m2)) as [q r]; simpl.
  destruct Hd as [Hq Hr]. nia.
Qed.

(** The quotient of an amount by a positive finite Number is an amount. *)
Lemma div_finite_amount (x : number) (m : positive) (e : Z) :
  Props.amount x = true -> Props.amount (div x (S754_finite false m e)) = true.
Proof.
  intros H.
  destruct (amount_cases x H) as [[s ->] | [-> | [mx [ex ->]]]];
    try reflexivity.
  unfold div; simpl.
  pose proof (SFdiv_core_binary_nonnegative mx m ex e) as Hq.
  destruct (SFdiv_core_binary prec emax (Z.pos mx) ex (Z.pos m) e)
    as [[mz ez] lz]; simpl in Hq.
  apply binary_round_aux_amount; exact Hq.
Qed.

(** [Math.round] of an amount is an amount. *)
Lemma Math_round_amount (x : number) :
  Props.amount x = true -> Props.amount (Math_round x) = true.
Proof.
  intros H.
  destruct (amount_cases x H) as [[s ->] | [-> | [m [e ->]]]];
    try reflexivity.
  - unfold Math_round. destruct (0 <=? e) eqn:He; [reflexivity|].
    set (N := (2 * Z.pos m + 2 ^ (- e)) / 2 ^ (1 - e)).
    assert (HN : 0 <= N).
    { subst N. apply Z.div_pos; [|apply Z.pow_pos_nonneg; lia].
      assert (0 <= 2 ^ (- e)) by (apply Z.pow_nonneg; lia). lia. }
    unfold binary_normalize.
    destruct N as [|p|p]; [reflexivity| |lia].
    unfold binary_round.
    destruct (shl_align p 0 _) as [mz ez].
    apply binary_round_aux_amount. lia.
Qed.

Lemma decimalsFor_cases (chain : option string) :
  In (AmountEngine.decimalsFor chain) [0; 6; 8].
Proof.
  unfold AmountEngine.decimalsFor.
  destruct chain as [[|c s]|]; [simpl; auto | | simpl; auto].
  cbv zeta.
  repeat match goal with
         | |- context [if ?b then _ else _] => destruct b
         end; simpl; auto.
Qed.

(** [safeRound] keeps amounts amounts, at each precision of the engine. *)
Lemma safeRound_amount (x : number) (d : Z) :
  In d [0; 2; 6; 8] -> Props.amount x = true ->
  exists r, AmountEngine.safeRound (Some x) d = Some r /\ Props.amount r = true.
Proof.
  intros Hd Hx. unfold AmountEngine.safeRound.
  eexists; split; [reflexivity|].
  assert (Hp : exists m e, Math_pow10 d = S754_finite false m e).
  { simpl in Hd; destruct Hd as [<- | [<- | [<- | [<- | []]]]];
      vm_compute; eauto. }
  destruct Hp as [m [e ->]].
  apply div_finite_amount, Math_round_amount, mul_finite_amount, Hx.
Qed.

Lemma safeParse_amount (v : value) (x : number) :
  AmountEngine.safeParse v = Normal (Some x) -> Props.amount x = true.
Proof.
  intros H. apply amount_iff. exact (safeParse_range v x H).
Qed.

Lemma safeParse_of_amount (x : number) :
  Props.amount x = true -> AmountEngine.safeParse (num x) = Normal (Some x).
Proof.
  intros H. apply amount_iff in H. destruct H as [Hn Hl].
  rewrite safeParse_num, Hn, Hl. reflexivity.
Qed.

Lemma roundFiat_amount (v : value) (r : number) :
  AmountEngine.roundFiat v = Normal (Some r) -> Props.amount r = true.
Proof.
  unfold AmountEngine.roundFiat.
  destruct (AmountEngine.safeParse v) as [[x|]|err] eqn:Hv; cbn [bind];
    try discriminate.
  destruct (safeRound_amount x (AmountEngine.fiat AmountEngine.PRECISION))
    as [r' [-> Hr]]; [simpl; auto | exact (safeParse_amount v x Hv) |].
  congruence.
Qed.

Lemma roundAsset_amount (v : value) (chain : option string) (r : number) :
  AmountEngine.roundAsset v chain = Normal (Some r) -> Props.amount r = true.
Proof.
  unfold AmountEngine.roundAsset.
  destruct (AmountEngine.safeParse v) as [[x|]|err] eqn:Hv; cbn [bind];
    try discriminate.
  destruct (safeRound_amount x (AmountEngine.decimalsFor chain))
    as [r' [-> Hr]]; [| exact (safeParse_amount v x Hv) |].
  - pose proof (decimalsFor_cases chain) as H. simpl in *. intuition.
  - congruence.
Qed.

(** Parsing what has been parsed changes nothing. *)
Lemma normalizeFiat_is_roundFiat (v : value) :
  AmountEngine.normalizeFiat v = AmountEngine.roundFiat v.
Proof.
  unfold AmountEngine.normalizeFiat.
  destruct (AmountEngine.safeParse v) as [[x|]|err] eqn:Hv; simpl.
  - unfold AmountEngine.roundFiat.
    rewrite Hv, (safeParse_of_amount x (safeParse_amount v x Hv)).
    reflexivity.
  - unfold AmountEngine.roundFiat. rewrite Hv. reflexivity.
  - unfold AmountEngine.roundFiat. rewrite Hv. reflexivity.
Qed.

Lemma normalizeAsset_is_roundAsset (v : value) (chain : option string) :
  AmountEngine.normalizeAsset v chain = AmountEngine.roundAsset v chain.
Proof.
  unfold AmountEngine.normalizeAsset.
  destruct (AmountEngine.safeParse v) as [[x|]|err] eqn:Hv; simpl.
  - unfold AmountEngine.roundAsset.
    rewrite Hv, (safeParse_of_amount x (safeParse_amount v x Hv)).
    reflexivity.
  - unfold AmountEngine.roundAsset. rewrite Hv. reflexivity.
  - unfold AmountEngine.roundAsset. rewrite Hv. reflexivity.
Qed.

(** X1. [normalizeFiat] is [roundFiat] and [normalizeAsset] is
    [roundAsset], on every input and whether they return or throw: the
    second parse of a parsed value changes nothing. *)
Theorem normalize_is_round (v : value) (chain : option string) :
  AmountEngine.normalizeFiat v = AmountEngine.roundFiat v /\
  AmountEngine.normalizeAsset v chain = AmountEngine.roundAsset v chain.
Proof.
  split; [apply normalizeFiat_is_roundFiat | apply normalizeAsset_is_roundAsset].
Qed.

Lemma deriveFromFiat_amount (a p : value) (chain : option string) (r : number) :
  AmountEngine.deriveFromFiat a p chain = Normal (Some r) ->
  Props.amount r = true.
Proof.
  unfold AmountEngine.deriveFromFiat.
  destruct (AmountEngine.safeParse a) as [[x|]|err]; simpl; try discriminate;
    destruct (AmountEngine.safeParse p) as [[y|]|err']; simpl;
    try discriminate.
  destruct (leb y zero); [discriminate|].
  destruct (eqb x zero); [intros H; inversion H; reflexivity|].
  apply roundAsset_amount.
Qed.

Lemma deriveFromAsset_amount (a p : value) (r : number) :
  AmountEngine.deriveFromAsset a p = Normal (Some r) -> Props.amount r = true.
Proof.
  unfold AmountEngine.deriveFromAsset.
  destruct (AmountEngine.safeParse a) as [[x|]|err]; simpl; try discriminate;
    destruct (AmountEngine.safeParse p) as [[y|]|err']; simpl;
    try discriminate.
  destruct (leb y zero); [discriminate|].
  destruct (eqb x zero); [intros H; inversion H; reflexivity|].
  apply roundFiat_amount.
Qed.

(** X2. Whatever it is given, a function of the engine that returns a
    Number returns an amount: never NaN, never a negative Number. *)
Theorem engine_returns_amounts (c : Props.Call) (r : number) :
  Props.call c = Normal (Some r) -> Props.amount r = true.
Proof.
  destruct c; simpl.
  - apply deriveFromFiat_amount.
  - apply deriveFromAsset_amount.
  - rewrite normalizeFiat_is_roundFiat. apply roundFiat_amount.
  - rewrite normalizeAsset_is_roundAsset. apply roundAsset_amount.
  - apply roundFiat_amount.
  - apply roundAsset_amount.
Qed.

Lemma engine_returns_amounts_witness :
  Props.call (Props.DeriveFromFiat (str "100") (num Spec.priceETH)
                (Some "Ethereum")) = Normal (Some (ofDecimal 44435 (-6))) /\
  Props.amount (ofDecimal 44435 (-6)) = true.
Proof.
  split; [vm_compute; reflexivity|].
  apply (engine_returns_amounts
           (Props.DeriveFromFiat (str "100") (num Spec.priceETH)
              (Some "Ethereum"))).
  vm_compute; reflexivity.
Defined.

Lemma safeParse_negative (v : value) (x : number) :
  Number v = Normal x -> ltb x zero = true ->
  AmountEngine.safeParse v = Normal (Some zero).
Proof.
  intros Hv Hx. unfold AmountEngine.safeParse.
  assert (Hn : isNaN x = false) by (destruct x; [| | discriminate |]; reflexivity).
  destruct (isNull v || isUndefined v || isEmptyString v) eqn:E.
  - destruct v as [[| | b | y | [|c s] | | n] | c]; try discriminate;
      simpl in Hv; inversion Hv; subst x; discriminate.
  - rewrite Hv; cbn [bind]. rewrite Hn, Hx. reflexivity.
Qed.

Lemma safeRound_zero (d : Z) :
  In d [0; 2; 6; 8] -> AmountEngine.safeRound (Some zero) d = Some zero.
Proof.
  simpl; intros [<- | [<- | [<- | [<- | []]]]]; vm_compute; reflexivity.
Qed.

Lemma roundFiat_negative (v : value) (x : number) :
  Number v = Normal x -> ltb x zero = true ->
  AmountEngine.roundFiat v = Normal (Some zero).
Proof.
  intros Hv Hx. unfold AmountEngine.roundFiat.
  rewrite (safeParse_negative v x Hv Hx); cbn [bind].
  rewrite safeRound_zero; [reflexivity | simpl; auto].
Qed.

Lemma roundAsset_negative (v : value) (x : number) (chain : option string) :
  Number v = Normal x -> ltb x zero = true ->
  AmountEngine.roundAsset v chain = Normal (Some zero).
Proof.
  intros Hv Hx. unfold AmountEngine.roundAsset.
  rewrite (safeParse_negative v x Hv Hx); cbn [bind].
  rewrite safeRound_zero; [reflexivity|].
  pose proof (decimalsFor_cases chain) as H. simpl in *. intuition.
Qed.

(** X3. A negative amount counts as zero: if the amount converts to a
    negative Number (minus infinity included), the rounding and
    normalizing functions return 0 and, at a positive price, so do the two
    derivations; none returns [null]. *)
Theorem negative_amount_counts_as_zero
  (v : value) (x p : number) (chain : option string) :
  Number v = Normal x -> ltb x zero = true -> ltb zero p = true ->
  AmountEngine.roundFiat v = Normal (Some zero) /\
  AmountEngine.roundAsset v chain = Normal (Some zero) /\
  AmountEngine.normalizeFiat v = Normal (Some zero) /\
  AmountEngine.normalizeAsset v chain = Normal (Some zero) /\
  AmountEngine.deriveFromFiat v (num p) chain = Normal (Some zero) /\
  AmountEngine.deriveFromAsset v (num p) = Normal (Some zero).
Proof.
  intros Hv Hx Hp.
  assert (Hpp : AmountEngine.safeParse (num p) = Normal (Some p)).
  { apply safeParse_of_amount.
    destruct p as [s | s | | s m e]; try discriminate; destruct s;
      try discriminate; reflexivity. }
  assert (Hl : leb p zero = false).
  { destruct p as [s | s | | s m e]; try discriminate; destruct s;
      try discriminate; reflexivity. }
  repeat split.
  - exact (roundFiat_negative v x Hv Hx).
  - exact (roundAsset_negative v x chain Hv Hx).
  - rewrite normalizeFiat_is_roundFiat. exact (roundFiat_negative v x Hv Hx).
  - rewrite normalizeAsset_is_roundAsset.
    exact (roundAsset_negative v x chain Hv Hx).
  - unfold AmountEngine.deriveFromFiat.
    rewrite (safeParse_negative v x Hv Hx), Hpp; cbn [bind]. rewrite Hl.
    reflexivity.
  - unfold AmountEngine.deriveFromAsset.
    rewrite (safeParse_negative v x Hv Hx), Hpp; cbn [bind]. rewrite Hl.
    reflexivity.
Qed.

Lemma negative_amount_counts_as_zero_witness :
  Number (str "-5") = Normal (ofZ (-5)) /\
  ltb (ofZ (-5)) zero = true /\ ltb zero Spec.priceETH = true /\
  AmountEngine.roundFiat (str "-5") = Normal (Some zero) /\
  AmountEngine.deriveFromFiat (str "-5") (num Spec.priceETH) (Some "Ethereum")
    = Normal (Some zero).
Proof.
  assert (H1 : Number (str "-5") = Normal (ofZ (-5))) by (vm_compute; reflexivity).
  assert (H2 : ltb (ofZ (-5)) zero = true) by (vm_compute; reflexivity).
  assert (H3 : ltb zero Spec.priceETH = true) by (vm_compute; reflexivity).
  destruct (negative_amount_counts_as_zero (str "-5") (ofZ (-5)) Spec.priceETH
              (Some "Ethereum") H1 H2 H3) as (Ha & _ & _ & _ & Hb & _).
  repeat split; assumption.
Defined.

(* ================================================================== *)
(** * More of the synchronizer *)
(* ================================================================== *)

Lemma asciiOnly_toLocaleString_finite (s : bool) (m : positive) (e : Z) :
  asciiOnly (Number_toLocaleString (S754_finite s m e)) = true.
Proof.
  unfold Number_toLocaleString.
  destruct (shortestDigits m e) as [D n].
  destruct (scanDigits 0 0 D) as [[d cnt] rest].
  set (f := Z.min 20 (Z.max 0 (lengthZ D - n))).
  set (N := if 0 <=? n - lengthZ D + f then _ else _).
  rewrite asciiOnly_app.
  replace (asciiOnly (if s then "-" else "")) with true
    by (destruct s; reflexivity).
  simpl andb.
  destruct (f =? 0); [apply asciiOnly_fixedText|].
  pose proof (asciiOnly_stripZeros _ (asciiOnly_fixedText N (Z.to_nat f))) as Ht.
  pose proof (asciiOnly_split_dot _ Ht) as Hs.
  destruct (split_dot (stripZeros (fixedText N (Z.to_nat f))))
    as [|ip [|[|c fr] [|x l]]]; try exact Ht.
  inversion Hs; assumption.
Qed.

(** Whatever Number the synchronizer shows, its decimal text is ASCII. *)
Lemma asciiOnly_safeDecimalString_number (x : number) :
  asciiOnly (safeDecimalString (ShownNumber x)) = true.
Proof.
  unfold safeDecimalString.
  destruct (includes "e" (Number_toString x)) eqn:E;
    [|apply asciiOnly_toString].
  destruct x as [s | s | | s m e].
  - discriminate.
  - destruct s; discriminate.
  - discriminate.
  - apply asciiOnly_toLocaleString_finite.
Qed.

(** What a pass leaves in every part of the state but the two fields. *)
Lemma updateAmountMirror_frame (w w' : World) :
  updateAmountMirror w = Normal w' ->
  APP_STATE w' = APP_STATE w /\ VALIDATION_STATE w' = VALIDATION_STATE w /\
  DATA_STATE w' = DATA_STATE w /\ activeElement w' = activeElement w /\
  blocker w' = blocker w /\ isDragging w' = isDragging w /\
  startX w' = startX w /\ toasts w' = toasts w.
Proof.
  intros H.
  destruct (negb (truthyString (asset (APP_STATE w)))
            || negb (truthyNumber (assetPriceUSD (DATA_STATE w)))) eqn:Epre.
  { unfold updateAmountMirror in H. rewrite Epre in H.
    inversion H; subst w'. repeat split. }
  destruct (inputMode (APP_STATE w)) eqn:Emode.
  - destruct (deriveFromFiat_returns (content (usdInput w)) w
                (chain (APP_STATE w))) as [r Ed].
    rewrite (updateAmountMirror_fiat w r Epre Emode Ed) in H.
    destruct (isActive w AssetDisplay);
      [inversion H; subst w'; repeat split|].
    injection H as <-.
    destruct (snd (Spec.shownInFiatMode r (content (usdInput w))
                     (isAddressValid (VALIDATION_STATE w))));
      repeat split.
  - unfold updateAmountMirror in H. rewrite Epre, Emode in H.
    destruct (AmountEngine.deriveFromAsset _ (price w)) as [r|err];
      [cbn [bind] in H | discriminate].
    destruct r as [d|]; inversion H; subst w'; repeat split.
Qed.

(** What a pass leaves in the asset field: nothing new; or, fiat being
    authoritative, the sentinel with the neutral flag or an ASCII text
    without it; or, the asset being authoritative and its text giving a
    fiat value, the same field without the neutral flag. *)
Lemma updateAmountMirror_asset_field (w w' : World) :
  updateAmountMirror w = Normal w' ->
  assetDisplay w' = assetDisplay w \/
  (inputMode (APP_STATE w) = Fiat /\ isActive w AssetDisplay = false /\
   (assetDisplay w' = set_stateNeutral true (set_content NEUTRAL (assetDisplay w))
    \/ exists t, asciiOnly t = true /\
         assetDisplay w' = set_stateNeutral false (set_content t (assetDisplay w))))
  \/
  (inputMode (APP_STATE w) = Asset /\
   (exists d, AmountEngine.deriveFromAsset (str (Spec.assetVal w)) (price w)
              = Normal (Some d)) /\
   assetDisplay w' = set_stateNeutral false (assetDisplay w)).
Proof.
  intros H.
  destruct (negb (truthyString (asset (APP_STATE w)))
            || negb (truthyNumber (assetPriceUSD (DATA_STATE w)))) eqn:Epre.
  { unfold updateAmountMirror in H. rewrite Epre in H.
    inversion H; subst w'. left; reflexivity. }
  destruct (inputMode (APP_STATE w)) eqn:Emode.
  - destruct (deriveFromFiat_returns (content (usdInput w)) w
                (chain (APP_STATE w))) as [r Ed].
    rewrite (updateAmountMirror_fiat w r Epre Emode Ed) in H.
    destruct (isActive w AssetDisplay) eqn:Eact;
      [inversion H; subst w'; left; reflexivity|].
    injection H as <-. right; left. split; [reflexivity|]. split; [reflexivity|].
    unfold Spec.shownInFiatMode.
    destruct r as [d|].
    + destruct (ltb zero d).
      * right. eexists; split; [|reflexivity].
        apply asciiOnly_displayValue, asciiOnly_safeDecimalString_number.
      * destruct (_ && _); [left; reflexivity|].
        right. eexists; split; [|reflexivity]. reflexivity.
    + destruct (_ && _); [left; reflexivity|].
      right. eexists; split; [|reflexivity]. reflexivity.
  - unfold updateAmountMirror in H. rewrite Epre, Emode in H.
    fold (Spec.assetVal w) in H.
    destruct (AmountEngine.deriveFromAsset (str (Spec.assetVal w)) (price w))
      as [r|err] eqn:Ed; [cbn [bind] in H | discriminate].
    destruct r as [d|]; inversion H; subst w'.
    + right; right. split; [reflexivity|]. split; [eauto|]. reflexivity.
    + left; reflexivity.
Qed.

(** What a pass leaves in the fiat field: nothing new unless the asset is
    authoritative. *)
Lemma updateAmountMirror_fiat_field (w w' : World) :
  updateAmountMirror w = Normal w' ->
  usdInput w' = usdInput w \/
  (inputMode (APP_STATE w) = Asset /\
   exists t, usdInput w' = set_stateNeutral false (set_content t (usdInput w))).
Proof.
  intros H.
  destruct (negb (truthyString (asset (APP_STATE w)))
            || negb (truthyNumber (assetPriceUSD (DATA_STATE w)))) eqn:Epre.
  { unfold updateAmountMirror in H. rewrite Epre in H.
    inversion H; subst w'. left; reflexivity. }
  destruct (inputMode (APP_STATE w)) eqn:Emode.
  - destruct (deriveFromFiat_returns (content (usdInput w)) w
                (chain (APP_STATE w))) as [r Ed].
    rewrite (updateAmountMirror_fiat w r Epre Emode Ed) in H.
    destruct (isActive w AssetDisplay);
      [inversion H; subst w'; left; reflexivity|].
    injection H as <-. left.
    destruct (snd (Spec.shownInFiatMode r (content (usdInput w))
                     (isAddressValid (VALIDATION_STATE w)))); reflexivity.
  - unfold updateAmountMirror in H. rewrite Epre, Emode in H.
    destruct (AmountEngine.deriveFromAsset _ (price w)) as [r|err];
      [cbn [bind] in H | discriminate].
    destruct r as [d|]; inversion H; subst w'; right; split; try reflexivity;
      eexists; reflexivity.
Qed.

(** X4. A pass of the synchronizer returns, and it never writes to the
    field that holds the authority: in fiat mode the fiat field is left as
    it was, in asset mode the asset field keeps its text (only its neutral
    class can go). It changes no state object, not the focus, not the
    blocker and shows no toast. *)
Theorem mirror_spares_the_authority (w : World) :
  exists w',
    updateAmountMirror w = Normal w' /\
    match inputMode (APP_STATE w) with
    | Fiat => usdInput w' = usdInput w
    | Asset =>
        content (assetDisplay w') = content (assetDisplay w) /\
        contentEditable (assetDisplay w') = contentEditable (assetDisplay w) /\
        readOnly (assetDisplay w') = readOnly (assetDisplay w) /\
        limitWarned (assetDisplay w') = limitWarned (assetDisplay w)
    end /\
    APP_STATE w' = APP_STATE w /\ VALIDATION_STATE w' = VALIDATION_STATE w /\
    DATA_STATE w' = DATA_STATE w /\ activeElement w' = activeElement w /\
    blocker w' = blocker w /\ isDragging w' = isDragging w /\
    startX w' = startX w /\ toasts w' = toasts w.
Proof.
  destruct (updateAmountMirror_returns w) as [w' H].
  exists w'. split; [exact H|]. split; [|exact (updateAmountMirror_frame w w' H)].
  destruct (inputMode (APP_STATE w)) eqn:Emode.
  - destruct (updateAmountMirror_fiat_field w w' H) as [E | [E _]];
      [exact E | congruence].
  - destruct (updateAmountMirror_asset_field w w' H)
      as [E | [[E _] | [_ [_ E]]]]; try congruence; rewrite E;
      repeat split.
Qed.

(* ================================================================== *)
(** * What every operation of the screen preserves *)
(* ================================================================== *)







(** The gating listener changes neither field and no state object. *)
Lemma handleIntent_frame (e : Event) (w : World) :
  let w' := fst (handleIntent e w) in
  APP_STATE w' = APP_STATE w /\ VALIDATION_STATE w' = VALIDATION_STATE w /\
  DATA_STATE w' = DATA_STATE w /\ usdInput w' = usdInput w /\
  assetDisplay w' = assetDisplay w /\ blocker w' = blocker w.
Proof.
  unfold handleIntent, blur.
  destruct (isUnlockable w); [repeat split|].
  destruct (isActive w (target e)), (negb (isFocusEvent (type e)));
    repeat split.
Qed.

Lemma focusNode_frame_all (n : Node) (w : World) :
  APP_STATE (focusNode n w) = APP_STATE w /\
  VALIDATION_STATE (focusNode n w) = VALIDATION_STATE w /\
  DATA_STATE (focusNode n w) = DATA_STATE w /\
  usdInput (focusNode n w) = usdInput w /\
  assetDisplay (focusNode n w) = assetDisplay w /\
  blocker (focusNode n w) = blocker w.
Proof.
  unfold focusNode. destruct (isActive w n); [repeat split|].
  apply (handleIntent_frame (dispatch focus n 0) (with_activeElement (Some n) w)).
Qed.

(** What a click on the blocker does to the mode and to the two fields. *)
Lemma handleSingleClick_fields (w : World) :
  locked (blocker w) = false ->
  let w' := handleSingleClick w in
  VALIDATION_STATE w' = VALIDATION_STATE w /\ DATA_STATE w' = DATA_STATE w /\
  match blockedSide (blocker w) with
  | right =>
      APP_STATE w' = set_inputMode Asset (APP_STATE w) /\
      usdInput w' = set_readOnly true (usdInput w) /\
      assetDisplay w' =
        (if includes DASH (content (assetDisplay w))
         then set_stateNeutral false
                (set_content "" (set_contentEditable true (assetDisplay w)))
         else set_contentEditable true (assetDisplay w)) /\
      blockedSide (blocker w') = left /\ positionLeft (blocker w') = true
  | left =>
      APP_STATE w' = set_inputMode Fiat (APP_STATE w) /\
      usdInput w' = set_readOnly false (usdInput w) /\
      assetDisplay w' = set_contentEditable false (assetDisplay w) /\
      blockedSide (blocker w') = right /\ positionLeft (blocker w') = false
  end /\
  locked (blocker w') = false /\ stateLocked (blocker w') = stateLocked (blocker w).
Proof.
  intros Hl. unfold handleSingleClick. rewrite Hl.
  destruct (blockedSide (blocker w)) eqn:Es; unfold updateBlockedState; simpl.
  - match goal with |- context [focusNode UsdInput ?x] =>
      destruct (focusNode_frame_all UsdInput x) as (Fa & Fv & Fd & Fu & Fs & Fb)
    end.
    rewrite Fa, Fv, Fd, Fu, Fs, Fb. simpl. rewrite Hl. repeat split.
  - match goal with |- context [focusNode AssetDisplay ?x] =>
      destruct (focusNode_frame_all AssetDisplay x)
        as (Fa & Fv & Fd & Fu & Fs & Fb);
      destruct (includes DASH (content (assetDisplay (focusNode AssetDisplay x))))
        eqn:Ed
    end; rewrite Fs in Ed; simpl in Ed; rewrite Ed; simpl;
      rewrite ?Fa, ?Fv, ?Fd, ?Fu, ?Fs, ?Fb; simpl; rewrite Hl; repeat split.
Qed.


Lemma every_sanitize (s : string) :
  Validation.every isDigitOrDot (sanitize s) = true.
Proof.
  unfold sanitize. induction s as [|c s IH]; [reflexivity|]. simpl.
  destruct (isDigitOrDot c) eqn:E; [simpl; rewrite E; exact IH | exact IH].
Qed.



(** What [beforeinput] can change: the warning flag and the toasts. *)
Lemma beforeinput_frame (e : InputEvent) (w : World) :
  let w' := fst (beforeinput e w) in
  APP_STATE w' = APP_STATE w /\ VALIDATION_STATE w' = VALIDATION_STATE w /\
  DATA_STATE w' = DATA_STATE w /\ usdInput w' = usdInput w /\
  blocker w' = blocker w /\
  content (assetDisplay w') = content (assetDisplay w) /\
  stateNeutral (assetDisplay w') = stateNeutral (assetDisplay w) /\
  contentEditable (assetDisplay w') = contentEditable (assetDisplay w).
Proof.
  unfold beforeinput.
  destruct (inputMode (APP_STATE w)); [repeat split|].
  destruct (_ && _); [repeat split|].
  destruct (_ <? _); [|repeat split].
  destruct (negb _); repeat split.
Qed.

Lemma act_returns (a : Action) (w : World) : exists w', act a w = Normal w'.
Proof.
  destruct a as [text start len | text |]; simpl; eauto.
  destruct (beforeinput _ w) as [w1 e].
  destruct (inputPrevented e || negb (contentEditable (assetDisplay w1)));
    [eauto|].
  unfold input. destruct (inputMode _); [eauto|].
  apply updateAmountMirror_returns.
Qed.


Lemma act_validation (a : Action) (w w' : World) :
  act a w = Normal w' -> VALIDATION_STATE w' = VALIDATION_STATE w.
Proof.
  intros H. destruct a as [text start len | text |]; simpl in H;
    [|inversion H; reflexivity | inversion H; reflexivity].
  pose proof (beforeinput_frame
                {| inputType := "insertText"; data := Some text;
                   inputPrevented := false |} w) as F.
  destruct (beforeinput _ w) as [w1 e]. cbv zeta in F. simpl in F.
  destruct F as (Fa & Fv & _).
  destruct (inputPrevented e || negb (contentEditable (assetDisplay w1)));
    [inversion H; subst w'; exact Fv|].
  unfold input in H. simpl in H.
  destruct (inputMode (APP_STATE w1)); [inversion H; subst w'; exact Fv|].
  destruct (updateAmountMirror_frame _ _ H) as (_ & Gv & _).
  rewrite Gv. destruct (negb _); exact Fv.
Qed.

Lemma fiatInput_spec (w : World) :
  exists w1,
    Screen.fiatInput w = updateAmountMirror w1 /\
    APP_STATE w1 = APP_STATE w /\ VALIDATION_STATE w1 = VALIDATION_STATE w /\
    DATA_STATE w1 = DATA_STATE w /\ assetDisplay w1 = assetDisplay w /\
    blocker w1 = blocker w /\ activeElement w1 = activeElement w /\
    usdInput w1 = set_content (Screen.fiatText (content (usdInput w)))
                    (usdInput w).
Proof.
  unfold Screen.fiatInput.
  destruct (String.eqb (Screen.fiatText (content (usdInput w)))
              (content (usdInput w))) eqn:E; simpl.
  - exists w. repeat split. apply String.eqb_eq in E. rewrite E.
    destruct (usdInput w); reflexivity.
  - eexists. split; [reflexivity|]. repeat split.
Qed.

Lemma startDrag_frame (e : Event) (w : World) :
  let w' := fst (startDrag e w) in
  APP_STATE w' = APP_STATE w /\ VALIDATION_STATE w' = VALIDATION_STATE w /\
  DATA_STATE w' = DATA_STATE w /\ usdInput w' = usdInput w /\
  assetDisplay w' = assetDisplay w /\ blocker w' = blocker w.
Proof.
  unfold startDrag. destruct (negb _); repeat split.
Qed.

Lemma setBTCAddressType_frame (t : option string) (s : AppState) :
  let s' := Validation.setBTCAddressType t s in
  chain s' = chain s /\ asset s' = asset s /\
  recipientAddress s' = recipientAddress s /\ inputMode s' = inputMode s /\
  chainUserSelected s' = chainUserSelected s /\
  assetUserSelected s' = assetUserSelected s.
Proof.
  unfold Validation.setBTCAddressType.
  destruct (_ && negb _); [repeat split|].
  destruct (Validation.same_string _ _); repeat split.
Qed.


Lemma onWorld_inv (f : World -> completion World) (p p' : Screen.Page) :
  Props.onWorld f p = Normal p' ->
  exists w', f (Screen.world p) = Normal w' /\ p' = Screen.with_world w' p.
Proof.
  unfold Props.onWorld. destruct (f (Screen.world p)) as [w'|err]; simpl;
    [|discriminate].
  intros H. inversion H. eauto.
Qed.

Lemma gated_ext (p p' : Screen.Page) :
  VALIDATION_STATE (Screen.world p') = VALIDATION_STATE (Screen.world p) ->
  Screen.sliderDisabled p' = Screen.sliderDisabled p ->
  Screen.inputValidated p' = Screen.inputValidated p ->
  Screen.inputInvalid p' = Screen.inputInvalid p ->
  Props.gated p' = Props.gated p.
Proof.
  intros Hv Hs Hi Hn. unfold Props.gated. rewrite Hv, Hs, Hi, Hn. reflexivity.
Qed.

Lemma gated_with_world (w' : World) (p : Screen.Page) :
  VALIDATION_STATE w' = VALIDATION_STATE (Screen.world p) ->
  Props.gated (Screen.with_world w' p) = Props.gated p.
Proof. intros H. unfold Props.gated. simpl. rewrite H. reflexivity. Qed.


(** [updateValidationState] sets the gates by the flags it derives. *)
Lemma gated_updateValidationState (p : Screen.Page) :
  Props.gated (Screen.updateValidationState p) = true.
Proof.
  unfold Props.gated, Screen.updateValidationState, Screen.applyUIGating,
    Props.canSend, Validation.deriveValidationState. simpl.
  destruct (truthyString (recipientAddress _)); simpl; [|reflexivity].
  destruct (_ || _); simpl; [|reflexivity].
  destruct (truthyString (chain _)); simpl; [|reflexivity].
  destruct (truthyString (asset _)); reflexivity.
Qed.

Lemma updateValidationState_world (p : Screen.Page) :
  Screen.world (Screen.updateValidationState p) =
  Screen.with_VALIDATION_STATE
    (Validation.deriveValidationState (APP_STATE (Screen.world p)))
    (Screen.world p).
Proof. reflexivity. Qed.

(** [updateAssetLogo] returns; its second pass of the synchronizer changes
    nothing. *)
Lemma updateAssetLogo_spec (address : string) (explicitAsset : option string)
  (p : Screen.Page) :
  let p2 := Screen.updateValidationState
              (Screen.with_world
                 (with_APP_STATE
                    (Screen.settleIdentity address explicitAsset
                       (APP_STATE (Screen.world p)))
                    (Screen.world p)) p) in
  exists w3,
    updateAmountMirror (Screen.world p2) = Normal w3 /\
    Screen.updateAssetLogo address explicitAsset p
      = Normal (Screen.with_world w3 p2).
Proof.
  cbv zeta. unfold Screen.updateAssetLogo.
  match goal with |- context [updateAmountMirror ?x] =>
    destruct (updateAmountMirror_returns x) as [w3 H3]
  end.
  exists w3. split; [exact H3|]. rewrite H3; cbn [bind].
  rewrite (updateAmountMirror_fixed _ _ H3); cbn [bind]. reflexivity.
Qed.

Lemma settleIdentity_frame (address : string) (explicitAsset : option string)
  (s : AppState) :
  let s' := Screen.settleIdentity address explicitAsset s in
  recipientAddress s' = recipientAddress s /\ inputMode s' = inputMode s /\
  isBlocked s' = isBlocked s /\ isLocked s' = isLocked s /\
  source s' = source s /\ chainUserSelected s' = chainUserSelected s /\
  assetUserSelected s' = assetUserSelected s.
Proof. repeat split. Qed.


Lemma updateAssetLogo_returns (address : string) (explicitAsset : option string)
  (p : Screen.Page) :
  exists p', Screen.updateAssetLogo address explicitAsset p = Normal p'.
Proof.
  destruct (updateAssetLogo_spec address explicitAsset p) as (w3 & _ & E).
  eauto.
Qed.

Lemma updateDataState_returns (now : Z) (p : Screen.Page) :
  exists p', Screen.updateDataState now p = Normal p'.
Proof.
  unfold Screen.updateDataState. destruct (negb _ || negb _); [eauto|].
  unfold Screen.updateDataState_resolved.
  match goal with |- context [updateAmountMirror ?x] =>
    destruct (updateAmountMirror_returns x) as [w3 H3]
  end.
  rewrite H3; cbn [bind]. eauto.
Qed.

Lemma updateDerivedState_frame (now : Z) (p : Screen.Page) :
  let p' := Screen.updateDerivedState now p in
  Screen.world p' = Screen.world p /\
  Screen.sliderDisabled p' = Screen.sliderDisabled p /\
  Screen.inputValidated p' = Screen.inputValidated p /\
  Screen.inputInvalid p' = Screen.inputInvalid p /\
  Screen.addressValue p' = Screen.addressValue p.
Proof.
  unfold Screen.updateDerivedState.
  destruct (Screen.deriveGasFee _) as [[native usd]|]; repeat split.
Qed.

Lemma updateDataState_spec (now : Z) (p p' : Screen.Page) :
  Screen.updateDataState now p = Normal p' ->
  p' = p \/
  exists w1 w3 d,
    updateAmountMirror w1 = Normal w3 /\
    p' = Screen.with_world w3 (Screen.with_DERIVED_STATE d p) /\
    APP_STATE w1 = APP_STATE (Screen.world p) /\
    VALIDATION_STATE w1 = VALIDATION_STATE (Screen.world p) /\
    usdInput w1 = usdInput (Screen.world p) /\
    assetDisplay w1 = assetDisplay (Screen.world p) /\
    blocker w1 = blocker (Screen.world p) /\
    activeElement w1 = activeElement (Screen.world p).
Proof.
  unfold Screen.updateDataState. intros H.
  destruct (negb _ || negb _); [inversion H; subst p'; auto|].
  right. unfold Screen.updateDataState_resolved in H.
  match type of H with context [Screen.updateDerivedState now ?q] =>
    set (p1 := q) in *
  end.
  assert (E : exists d, Screen.updateDerivedState now p1
                        = Screen.with_DERIVED_STATE d
                            (Screen.with_world (Screen.world p1) p)).
  { unfold Screen.updateDerivedState.
    destruct (Screen.deriveGasFee _) as [[native usd]|]; eexists; reflexivity. }
  destruct E as [d E]. rewrite E in H.
  change (Screen.world (Screen.with_DERIVED_STATE d
                          (Screen.with_world (Screen.world p1) p)))
    with (Screen.world p1) in H.
  destruct (updateAmountMirror (Screen.world p1)) as [w3|err] eqn:H3;
    [cbn [bind] in H | discriminate].
  exists (Screen.world p1), w3, d. split; [exact H3|].
  split; [injection H as <-; reflexivity|]. repeat split.
Qed.


Lemma gated_updateDataState (now : Z) (p p' : Screen.Page) :
  Screen.updateDataState now p = Normal p' ->
  Props.gated p = true -> Props.gated p' = true.
Proof.
  intros H Hg.
  destruct (updateDataState_spec now p p' H)
    as [-> | (w1 & w3 & d & H3 & -> & _ & Fv & _)]; [exact Hg|].
  destruct (updateAmountMirror_frame _ _ H3) as (_ & Gv & _).
  rewrite <- Hg. apply gated_ext; try reflexivity.
  simpl. rewrite Gv. exact Fv.
Qed.

Lemma enterSendLifecycle_returns (scanned : option string) (p : Screen.Page) :
  exists p', Screen.enterSendLifecycle scanned p = Normal p'.
Proof.
  unfold Screen.enterSendLifecycle, Screen.enforceAddressState.
  destruct (Screen.notBlank scanned).
  - apply updateAssetLogo_returns.
  - destruct (negb _); apply updateAssetLogo_returns.
Qed.


(** Every operation returns. *)
Lemma perform_returns (o : Props.Op) (p : Screen.Page) :
  exists p', Props.perform o p = Normal p'.
Proof.
  destruct o; simpl; unfold Props.onWorld; try (cbn [bind]; eauto; fail).
  - destruct (updateAmountMirror_returns (Screen.world p)) as [w' ->];
      cbn [bind]; eauto.
  - destruct (act_returns a (Screen.world p)) as [w' ->]; cbn [bind]; eauto.
  - match goal with |- context [Screen.fiatInput ?x] =>
      destruct (fiatInput_spec x) as (w1 & -> & _);
      destruct (updateAmountMirror_returns w1) as [w' ->]
    end; cbn [bind]; eauto.
  - unfold Screen.addressInput. apply updateAssetLogo_returns.
  - unfold Screen.selectAsset. apply updateAssetLogo_returns.
  - apply updateDataState_returns.
  - apply enterSendLifecycle_returns.
Qed.


(** Every operation keeps the gates in agreement. *)
Lemma perform_gated (o : Props.Op) (p p' : Screen.Page) :
  Props.perform o p = Normal p' ->
  Props.gated p = true -> Props.gated p' = true.
Proof.
  intros H Hg.
  destruct o; cbn [Props.perform] in H;
    try (apply onWorld_inv in H; destruct H as (w' & H & ->)).
  - destruct (updateAmountMirror_frame _ _ H) as (_ & Fv & _).
    rewrite gated_with_world; assumption.
  - injection H as <-.
    rewrite gated_with_world; [assumption|].
    destruct (locked (blocker (Screen.world p))) eqn:Hl;
      [unfold handleSingleClick; rewrite Hl; reflexivity|].
    destruct (handleSingleClick_fields _ Hl) as (Fv & _). exact Fv.
  - injection H as <-.
    rewrite gated_with_world; [assumption | reflexivity].
  - rewrite gated_with_world; [assumption|].
    exact (act_validation _ _ _ H).
  - match type of H with Screen.fiatInput ?x = _ =>
      destruct (fiatInput_spec x) as (w1 & E & Fa & Fv & _ & Fs & _);
      rewrite E in H
    end.
    destruct (updateAmountMirror_frame _ _ H) as (_ & Gv & _).
    rewrite gated_with_world; [assumption|]. rewrite Gv. exact Fv.
  - injection H as <-.
    destruct (handleIntent_frame (dispatch t n x) (Screen.world p))
      as (Fa & Fv & _ & _ & Fs & _).
    rewrite gated_with_world; assumption.
  - injection H as <-.
    destruct (startDrag_frame (dispatch t SliderKnob x) (Screen.world p))
      as (Fa & Fv & _ & _ & Fs & _).
    rewrite gated_with_world; assumption.
  - unfold Screen.addressInput in H.
    match type of H with Screen.updateAssetLogo ?a ?e ?q = _ =>
      destruct (updateAssetLogo_spec a e q) as (w3 & H3 & E)
    end.
    rewrite E in H. injection H as <-.
    destruct (updateAmountMirror_frame _ _ H3) as (_ & Fv & _).
    rewrite gated_with_world; [apply gated_updateValidationState | exact Fv].
  - unfold Screen.selectAsset in H.
    match type of H with Screen.updateAssetLogo ?a ?e ?q = _ =>
      destruct (updateAssetLogo_spec a e q) as (w3 & H3 & E)
    end.
    rewrite E in H. injection H as <-.
    destruct (updateAmountMirror_frame _ _ H3) as (_ & Fv & _).
    rewrite gated_with_world; [apply gated_updateValidationState | exact Fv].
  - exact (gated_updateDataState _ _ _ H Hg).
  - injection H as <-.
    rewrite gated_with_world; [assumption | reflexivity].
  - injection H as <-.
    rewrite gated_with_world; [assumption | reflexivity].
  - injection H as <-.
    rewrite <- Hg. apply gated_ext; reflexivity.
  - unfold Screen.enterSendLifecycle, Screen.enforceAddressState in H.
    destruct (Screen.notBlank scanned);
      [|destruct (negb _)];
      match type of H with Screen.updateAssetLogo ?a ?e ?q = _ =>
        destruct (updateAssetLogo_spec a e q) as (w3 & H3 & E)
      end;
      rewrite E in H; injection H as <-;
      destruct (updateAmountMirror_frame _ _ H3) as (_ & Fv & _);
      (rewrite gated_with_world;
       [apply gated_updateValidationState | exact Fv]).
Qed.

Lemma performAll_returns (ops : list Props.Op) :
  forall p, exists p', Props.performAll ops p = Normal p'.
Proof.
  induction ops as [|o ops IH]; intros p; simpl; [eauto|].
  destruct (perform_returns o p) as [p1 H1]. rewrite H1; cbn [bind].
  apply IH.
Qed.


Lemma performAll_gated (ops : list Props.Op) :
  forall p p',
    Props.performAll ops p = Normal p' ->
    Props.gated p = true -> Props.gated p' = true.
Proof.
  induction ops as [|o ops IH]; intros p p' H Hg; simpl in H;
    [inversion H; subst p'; exact Hg|].
  destruct (Props.perform o p) as [p1|err] eqn:H1; [cbn [bind] in H | discriminate].
  exact (IH p1 p' H (perform_gated o p p1 H1 Hg)).
Qed.



(** X6. The gates agree. If the slider carries [disabled] exactly when one
    of the four validation flags is down, the address field carries
    [input-validated] exactly when none is, and a valid address is a
    present one, then that is still so after any sequence of operations;
    so an enabled slider always comes with a valid address, the condition
    [startDrag] checks again. *)
Theorem gates_agree (ops : list Props.Op) (p : Screen.Page) :
  Props.gated p = true ->
  exists p',
    Props.performAll ops p = Normal p' /\
    Props.gated p' = true /\
    (Screen.sliderDisabled p' = false ->
     Screen.inputValidated p' = true /\
     isAddressValid (VALIDATION_STATE (Screen.world p')) = true /\
     isAddressPresent (VALIDATION_STATE (Screen.world p')) = true).
Proof.
  intros Hg. destruct (performAll_returns ops p) as [p' H].
  exists p'. split; [exact H|].
  pose proof (performAll_gated ops p p' H Hg) as Hg'.
  split; [exact Hg'|].
  unfold Props.gated, Props.canSend in Hg'. intros Hs. rewrite Hs in Hg'.
  destruct (isAddressPresent _), (isAddressValid _), (isSupportedChain _),
    (isChainMatch _), (Screen.inputValidated p'), (Screen.inputInvalid p');
    try discriminate; auto.
Qed.

Lemma gates_agree_witness :
  Props.gated Screen.initial = true /\
  exists p',
    Props.performAll
      [Props.AddressEdit "0x52908400098527886E0F7030069857D2E4169EE7";
       Props.Data 0; Props.Back] Screen.initial = Normal p' /\
    Props.gated p' = true /\
    (Screen.sliderDisabled p' = false ->
     Screen.inputValidated p' = true /\
     isAddressValid (VALIDATION_STATE (Screen.world p')) = true /\
     isAddressPresent (VALIDATION_STATE (Screen.world p')) = true).
Proof.
  split; [reflexivity|].
  apply (gates_agree _ Screen.initial). reflexivity.
Defined.

(* ================================================================== *)
(** * Address validation and detection *)
(* ================================================================== *)

Ltac bool_to_prop :=
  repeat match goal with
         | H : _ && _ = true |- _ => apply andb_true_iff in H; destruct H
         | H : _ || _ = true |- _ => apply orb_true_iff in H; destruct H
         | H : (_ <=? _)%nat = true |- _ => apply Nat.leb_le in H
         | H : (_ <? _)%nat = true |- _ => apply Nat.ltb_lt in H
         | H : (_ =? _)%nat = true |- _ => apply Nat.eqb_eq in H
         end.

(** A printable ASCII character that is not a space. *)
Lemma plain_of_classes (c : ascii) :
  Validation.isHexDigit c = true \/ Validation.isAlphaNumeric c = true \/
  Validation.isBase58 c = true ->
  Validation.inRange 33 126 c = true.
Proof.
  unfold Validation.isHexDigit, Validation.isAlphaNumeric, Validation.isBase58,
    Validation.inRange.
  intros [H | [H | H]]; bool_to_prop;
    apply andb_true_iff; split; apply Nat.leb_le; lia.
Qed.

Lemma every_weaken (p q : ascii -> bool) (s : string) :
  (forall c, p c = true -> q c = true) ->
  Validation.every p s = true -> Validation.every q s = true.
Proof.
  intros Hpq. induction s as [|c s IH]; simpl; [reflexivity|].
  intros H. apply andb_true_iff in H. destruct H as [Hc Hs].
  rewrite (Hpq c Hc), (IH Hs). reflexivity.
Qed.

Lemma plain_not_white (c c2 c3 : ascii) :
  Validation.inRange 33 126 c = true ->
  isWhiteSpace c = false /\ isWhiteSpace2 c c2 = false /\
  isWhiteSpace3 c c2 c3 = false.
Proof.
  unfold Validation.inRange, isWhiteSpace, isWhiteSpace2, isWhiteSpace3.
  intros H. bool_to_prop.
  assert (E1 : (nat_of_ascii c <=? 13)%nat = false) by (apply Nat.leb_gt; lia).
  assert (E2 : (nat_of_ascii c =? 32)%nat = false) by (apply Nat.eqb_neq; lia).
  assert (E3 : (nat_of_ascii c =? 194)%nat = false) by (apply Nat.eqb_neq; lia).
  assert (E4 : (nat_of_ascii c =? 225)%nat = false) by (apply Nat.eqb_neq; lia).
  assert (E5 : (nat_of_ascii c =? 226)%nat = false) by (apply Nat.eqb_neq; lia).
  assert (E6 : (nat_of_ascii c =? 227)%nat = false) by (apply Nat.eqb_neq; lia).
  assert (E7 : (nat_of_ascii c =? 239)%nat = false) by (apply Nat.eqb_neq; lia).
  rewrite E1, E2, E3, E4, E5, E6, E7. rewrite andb_false_r. auto.
Qed.

Lemma trimStart_plain (c : ascii) (s : string) :
  Validation.inRange 33 126 c = true -> trimStart (String c s) = String c s.
Proof.
  intros H. cbn [trimStart].
  destruct (plain_not_white c " " " " H) as (E1 & _). rewrite E1.
  destruct s as [|c2 s2]; [reflexivity|].
  destruct (plain_not_white c c2 " " H) as (_ & E2 & _). rewrite E2.
  destruct s2 as [|c3 s3]; [reflexivity|].
  destruct (plain_not_white c c2 c3 H) as (_ & _ & E3). rewrite E3.
  reflexivity.
Qed.

Lemma trimEnd_plain (s : string) :
  Validation.every (Validation.inRange 33 126) s = true -> trimEnd s = s.
Proof.
  induction s as [|c s IH]; [reflexivity|]. intros H. simpl in H.
  apply andb_true_iff in H. destruct H as [Hc Hs].
  cbn [trimEnd]. rewrite (trimStart_plain c s Hc), (IH Hs). reflexivity.
Qed.

(** [trim] leaves a text of printable ASCII characters other than the
    space as it is. *)
Lemma trim_plain (s : string) :
  Validation.every (Validation.inRange 33 126) s = true -> trim s = s.
Proof.
  intros H. unfold trim.
  destruct s as [|c s]; [reflexivity|].
  pose proof H as H'. simpl in H'. apply andb_true_iff in H'.
  destruct H' as [Hc _].
  rewrite (trimStart_plain c s Hc). apply trimEnd_plain. exact H.
Qed.

Lemma length16_plain (s : string) :
  Validation.every (Validation.inRange 33 126) s = true ->
  Validation.length16 s = String.length s.
Proof.
  induction s as [|c s IH]; [reflexivity|]. intros H. simpl in H.
  apply andb_true_iff in H. destruct H as [Hc Hs].
  cbn [Validation.length16 String.length]. rewrite (IH Hs).
  unfold Validation.inRange in Hc. bool_to_prop.
  assert (E : (nat_of_ascii c <? 128)%nat = true) by (apply Nat.ltb_lt; lia).
  rewrite E. reflexivity.
Qed.

Lemma prefix_skip (p s : string) :
  prefix p s = true -> s = p ++ skip (String.length p) s.
Proof.
  revert s. induction p as [|c p IH]; intros s H; [destruct s; reflexivity|].
  destruct s as [|d s]; [discriminate|]. simpl in H.
  destruct (Ascii.ascii_dec c d) as [->|]; [|discriminate].
  simpl. rewrite <- (IH s H). reflexivity.
Qed.

Lemma every_app (p : ascii -> bool) (a b : string) :
  Validation.every p (a ++ b) = Validation.every p a && Validation.every p b.
Proof.
  induction a as [|c a IH]; [reflexivity|]. simpl. rewrite IH.
  apply andb_assoc.
Qed.

Lemma length_app (a b : string) :
  String.length (a ++ b) = (String.length a + String.length b)%nat.
Proof. induction a as [|c a IH]; simpl; [reflexivity | rewrite IH; reflexivity]. Qed.

(** A text a validator accepts: a prefix of printable characters and a
    body in a class of the three. *)
Lemma accepted_plain (cls : ascii -> bool) (lo hi : nat) (p a : string) :
  (forall c, cls c = true -> Validation.inRange 33 126 c = true) ->
  Validation.every (Validation.inRange 33 126) p = true ->
  prefix p a = true ->
  Validation.repeated cls lo hi (skip (String.length p) a) = true ->
  Validation.every (Validation.inRange 33 126) a = true /\
  trim a = a /\
  Validation.length16 a = String.length a /\
  (String.length p + lo <= String.length a <= String.length p + hi)%nat.
Proof.
  intros Hcls Hp Hpre Hr. unfold Validation.repeated in Hr. bool_to_prop.
  assert (Ha : Validation.every (Validation.inRange 33 126) a = true).
  { rewrite (prefix_skip p a Hpre), every_app, Hp.
    apply (every_weaken cls); assumption. }
  repeat split; try (rewrite (prefix_skip p a Hpre), length_app; lia).
  - exact Ha.
  - apply trim_plain; exact Ha.
  - apply length16_plain; exact Ha.
Qed.

Lemma prefix_first (c d : ascii) (p s : string) :
  prefix (String c p) (String d s) = true -> c = d.
Proof.
  simpl. destruct (Ascii.ascii_dec c d); [auto | discriminate].
Qed.

(** X7. An address [validateEthereumAddress] accepts is detected as
    [eth], is accepted by neither of the other two validators, and passes
    the length check of [validateInputs]. *)
Theorem ethereum_address_is_detected (a : string) :
  Validation.validateEthereumAddress (Some a) = true ->
  Validation.detectAssetFromAddress (Some a) = Some "eth" /\
  Validation.validateBitcoinAddress (Some a) = false /\
  Validation.validateSolanaAddress (Some a) = false /\
  (26 <= Validation.length16 (trim a))%nat.
Proof.
  intros H. unfold Validation.validateEthereumAddress in H.
  assert (Hp : prefix "0x" a = true /\
               Validation.repeated Validation.isHexDigit 40 40 (skip 2 a) = true).
  { destruct a; [discriminate|]. apply andb_true_iff. exact H. }
  clear H. destruct Hp as [Hp Hr].
  destruct (accepted_plain Validation.isHexDigit 40 40 "0x" a) as (Ha & Ht & Hl & Hn);
    [intros; apply plain_of_classes; auto | reflexivity | exact Hp | exact Hr |].
  cbn [String.length Nat.add] in Hn.
  assert (Hlen : String.length a = 42%nat) by lia.
  destruct a as [|c a']; [discriminate|].
  pose proof (prefix_first _ _ _ _ Hp) as Hc. subst c.
  split; [|split; [reflexivity|split]].
  - unfold Validation.detectAssetFromAddress. cbv zeta.
    rewrite Ht, Hp, Hl, Hlen. reflexivity.
  - unfold Validation.validateSolanaAddress, Validation.base58Regex,
      Validation.repeated.
    cbn [Validation.every]. apply andb_false_r.
  - rewrite Ht, Hl, Hlen. lia.
Qed.

Lemma ethereum_address_is_detected_witness :
  Validation.validateEthereumAddress
    (Some "0x52908400098527886E0F7030069857D2E4169EE7") = true /\
  Validation.detectAssetFromAddress
    (Some "0x52908400098527886E0F7030069857D2E4169EE7") = Some "eth".
Proof.
  split; [reflexivity|].
  apply (ethereum_address_is_detected
           "0x52908400098527886E0F7030069857D2E4169EE7").
  reflexivity.
Defined.

Lemma prefix_empty (s : string) : prefix "" s = true.
Proof. destruct s; reflexivity. Qed.

Lemma prefix_cons_eq (c : ascii) (p s : string) :
  prefix (String c p) (String c s) = prefix p s.
Proof. simpl. destruct (Ascii.ascii_dec c c); [reflexivity | congruence]. Qed.

Lemma prefix_cons_ne (c d : ascii) (p s : string) :
  c <> d -> prefix (String c p) (String d s) = false.
Proof.
  intros H. simpl. destruct (Ascii.ascii_dec c d); [contradiction | reflexivity].
Qed.

Ltac prefix_eval :=
  repeat first [ rewrite prefix_cons_eq | rewrite prefix_empty
               | rewrite prefix_cons_ne by discriminate ].

Lemma not_btc_otherwise (s : string) :
  (if Validation.base58Regex s
   then if prefix "T" s then None else Some "sol"
   else None) <> Some "btc".
Proof.
  destruct (Validation.base58Regex s); [|discriminate].
  destruct (prefix "T" s); discriminate.
Qed.

(** An address of the legacy forms: it starts with [1] or [3]. *)
Lemma legacy_address_detection (c : ascii) (a' : string) :
  c = "1"%char \/ c = "3"%char ->
  Validation.repeated Validation.isAlphaNumeric 25 59 a' = true ->
  let a := String c a' in
  trim a = a /\ Validation.length16 a = String.length a /\
  (26 <= String.length a <= 60)%nat /\
  (Validation.detectAssetFromAddress (Some a) = Some "btc" <->
   (String.length a <= 35)%nat) /\
  Validation.detectBTCAddressType (Some a) = Some "legacy".
Proof.
  intros Hc Hr a.
  destruct (accepted_plain Validation.isAlphaNumeric 25 59
              (String c EmptyString) a) as (Ha & Ht & Hl & Hn);
    [intros; apply plain_of_classes; auto
    | destruct Hc; subst c; reflexivity
    | subst a; prefix_eval; reflexivity
    | exact Hr |].
  cbn [String.length Nat.add] in Hn.
  split; [exact Ht|]. split; [exact Hl|]. split; [lia|].
  unfold Validation.detectAssetFromAddress, Validation.detectBTCAddressType.
  cbv zeta. fold a. rewrite Ht, Hl.
  assert (E26 : (26 <=? String.length a)%nat = true) by (apply Nat.leb_le; lia).
  rewrite E26.
  split.
  - destruct Hc; subst c; subst a; prefix_eval; cbn [andb orb];
      (destruct (String.length _ <=? 35)%nat eqn:E;
       [split; [intros _; apply Nat.leb_le; exact E | reflexivity]
       | split; [intros H; exfalso; exact (not_btc_otherwise _ H)
                | intros H; apply Nat.leb_le in H; congruence]]).
  - destruct Hc; subst c; subst a; prefix_eval; reflexivity.
Qed.

(** X8. An address [validateBitcoinAddress] accepts is detected as [btc]
    exactly when it starts with [bc1] or has at most 35 characters; a
    longer one of the legacy forms is not (it falls to the Solana check).
    It is never accepted as an Ethereum address and passes the length
    check of [validateInputs]; without the [bc1] prefix its type is
    [legacy]. *)
Theorem bitcoin_address_detection (a : string) :
  Validation.validateBitcoinAddress (Some a) = true ->
  (Validation.detectAssetFromAddress (Some a) = Some "btc" <->
   prefix "bc1" a = true \/ (String.length a <= 35)%nat) /\
  Validation.validateEthereumAddress (Some a) = false /\
  (26 <= Validation.length16 (trim a))%nat /\
  (prefix "bc1" a = false ->
   Validation.detectBTCAddressType (Some a) = Some "legacy").
Proof.
  intros H. unfold Validation.validateBitcoinAddress in H.
  destruct a as [|c a']; [discriminate|].
  apply orb_true_iff in H. destruct H as [H | H];
    [apply orb_true_iff in H; destruct H as [H | H]|];
    apply andb_true_iff in H; destruct H as [Hp Hr].
  - pose proof (prefix_first _ _ _ _ Hp) as <-.
    destruct (legacy_address_detection "1" a' (or_introl eq_refl) Hr)
      as (Ht & Hl & Hn & Hd & Hy).
    split; [|split; [reflexivity | split; [rewrite Ht, Hl; lia | intros _; exact Hy]]].
    rewrite Hd. split; [auto | intros [E | E]; [discriminate | exact E]].
  - pose proof (prefix_first _ _ _ _ Hp) as <-.
    destruct (legacy_address_detection "3" a' (or_intror eq_refl) Hr)
      as (Ht & Hl & Hn & Hd & Hy).
    split; [|split; [reflexivity | split; [rewrite Ht, Hl; lia | intros _; exact Hy]]].
    rewrite Hd. split; [auto | intros [E | E]; [discriminate | exact E]].
  - pose proof (prefix_first _ _ _ _ Hp) as <-.
    destruct (accepted_plain Validation.isAlphaNumeric 25 59 "bc1" (String "b" a'))
      as (Ha & Ht & Hl & Hn);
      [intros; apply plain_of_classes; auto | reflexivity | exact Hp | exact Hr |].
    cbn [String.length Nat.add] in Hn.
    split; [|split; [reflexivity | split; [rewrite Ht, Hl; cbn [String.length]; lia
                                          | intros E; congruence]]].
    split; [auto|]. intros _.
    unfold Validation.detectAssetFromAddress. cbv zeta. rewrite Ht, Hl, Hp.
    cbn [String.length].
    assert (E1 : (26 <=? S (String.length a'))%nat = true)
      by (apply Nat.leb_le; lia).
    assert (E2 : (S (String.length a') <=? 90)%nat = true)
      by (apply Nat.leb_le; lia).
    rewrite E1, E2. reflexivity.
Qed.

Lemma bitcoin_address_detection_witness :
  Validation.validateBitcoinAddress
    (Some "1A1zP1eP5QGefi2DMPTfTL5SLmv7DivfNaXYZ") = true /\
  ~ Validation.detectAssetFromAddress
      (Some "1A1zP1eP5QGefi2DMPTfTL5SLmv7DivfNaXYZ") = Some "btc".
Proof.
  split; [reflexivity|].
  destruct (bitcoin_address_detection "1A1zP1eP5QGefi2DMPTfTL5SLmv7DivfNaXYZ")
    as (H & _); [reflexivity|].
  intros E. apply H in E. destruct E as [E | E]; [discriminate|].
  simpl in E. lia.
Defined.

Lemma base58_not_0x (a : string) :
  Validation.every Validation.isBase58 a = true -> prefix "0x" a = false.
Proof.
  destruct a as [|c a]; [reflexivity|]. intros H.
  destruct (Ascii.ascii_dec "0" c) as [<-|n];
    [discriminate | apply prefix_cons_ne; exact n].
Qed.

(** X9. An address [validateSolanaAddress] accepts is never detected as
    [eth]; it is detected as [sol] unless it starts with [T], [1], [3] or
    [bc1]; one that starts with [T] is detected as nothing at all. It
    passes the length check of [validateInputs]. *)
Theorem solana_address_detection (a : string) :
  Validation.validateSolanaAddress (Some a) = true ->
  Validation.detectAssetFromAddress (Some a) <> Some "eth" /\
  (prefix "T" a = false -> prefix "1" a = false -> prefix "3" a = false ->
   prefix "bc1" a = false ->
   Validation.detectAssetFromAddress (Some a) = Some "sol") /\
  (prefix "T" a = true -> Validation.detectAssetFromAddress (Some a) = None) /\
  (26 <= Validation.length16 (trim a))%nat.
Proof.
  intros H. unfold Validation.validateSolanaAddress in H.
  assert (Hr : Validation.base58Regex a = true) by (destruct a; [discriminate | exact H]).
  assert (Hne : a <> EmptyString) by (intros ->; discriminate).
  clear H. pose proof Hr as Hr'. unfold Validation.base58Regex in Hr'.
  destruct (accepted_plain Validation.isBase58 32 44 "" a) as (Ha & Ht & Hl & Hn);
    [intros; apply plain_of_classes; auto | reflexivity
    | apply prefix_empty | destruct a; exact Hr' |].
  cbn [String.length Nat.add] in Hn.
  assert (H0x : prefix "0x" a = false).
  { apply base58_not_0x. unfold Validation.repeated in Hr'.
    apply andb_true_iff in Hr'. apply Hr'. }
  assert (Hd : Validation.detectAssetFromAddress (Some a) =
               if (prefix "bc1" a && (26 <=? String.length a)%nat
                   && (String.length a <=? 90)%nat)
                  || ((prefix "1" a || prefix "3" a)
                      && (26 <=? String.length a)%nat
                      && (String.length a <=? 35)%nat)
               then Some "btc"
               else if prefix "T" a then None else Some "sol").
  { unfold Validation.detectAssetFromAddress.
    destruct a as [|c a']; [congruence|]. cbv zeta.
    rewrite Ht, Hl, H0x, Hr. reflexivity. }
  rewrite Hd. split; [|split; [|split]].
  - destruct (_ || _); [discriminate|]. destruct (prefix "T" a); discriminate.
  - intros -> -> -> ->. reflexivity.
  - intros HT. rewrite HT.
    destruct a as [|c a']; [discriminate|].
    pose proof (prefix_first _ _ _ _ HT) as <-. reflexivity.
  - rewrite Ht, Hl. lia.
Qed.

Lemma solana_address_detection_witness :
  Validation.validateSolanaAddress
    (Some "7EcDhSYGxXyscszYEp35KHN8vvw3svAuLKTzXwCFLtV") = true /\
  Validation.detectAssetFromAddress
    (Some "7EcDhSYGxXyscszYEp35KHN8vvw3svAuLKTzXwCFLtV") = Some "sol".
Proof.
  split; [reflexivity|].
  destruct (solana_address_detection
              "7EcDhSYGxXyscszYEp35KHN8vvw3svAuLKTzXwCFLtV")
    as (_ & H & _); [reflexivity|].
  apply H; reflexivity.
Defined.

(* ================================================================== *)
(** * Identity: address edits, overlay selections and their locks *)
(* ================================================================== *)

(** What [updateAssetLogo] leaves: the identity it settles, the validation
    flags derived from it and the gates set by them. *)
Lemma updateAssetLogo_result (address : string) (explicitAsset : option string)
  (p : Screen.Page) :
  exists p',
    Screen.updateAssetLogo address explicitAsset p = Normal p' /\
    let s1 := Screen.settleIdentity address explicitAsset
                (APP_STATE (Screen.world p)) in
    let v1 := Validation.deriveValidationState s1 in
    APP_STATE (Screen.world p') = s1 /\
    VALIDATION_STATE (Screen.world p') = v1 /\
    Screen.sliderDisabled p' = negb (Props.canSend v1) /\
    Screen.inputValidated p' = Props.canSend v1 /\
    DATA_STATE (Screen.world p') = DATA_STATE (Screen.world p) /\
    blocker (Screen.world p') = blocker (Screen.world p) /\
    Screen.addressValue p' = Screen.addressValue p /\
    Screen.addressReadOnly p' = Screen.addressReadOnly p.
Proof.
  destruct (updateAssetLogo_spec address explicitAsset p) as (w3 & H3 & E).
  eexists. split; [exact E|].
  destruct (updateAmountMirror_frame _ _ H3) as (Fa & Fv & Fd & _ & Fb & _).
  cbv zeta. change (Screen.world (Screen.with_world w3 ?q)) with w3.
  rewrite Fa, Fv, Fd, Fb. repeat split.
  unfold Props.canSend. simpl.
  destruct (truthyString _); reflexivity.
Qed.

Lemma detect_cases (v : option string) (x : string) :
  Validation.detectAssetFromAddress v = Some x ->
  x = "eth" \/ x = "btc" \/ x = "sol".
Proof.
  unfold Validation.detectAssetFromAddress.
  destruct v as [[|c a]|]; try discriminate. cbv zeta.
  destruct (_ && _); [intros H; inversion H; auto|].
  destruct (_ || _); [intros H; inversion H; auto|].
  destruct (Validation.base58Regex _); [|discriminate].
  destruct (prefix "T" _); [discriminate|]. intros H; inversion H; auto.
Qed.

(** X10. Typing an address that a validator accepts and that is detected
    as an asset opens the gates, no overlay lock being set: the asset is
    the detected one, the chain is its own (Ethereum, Bitcoin or Solana,
    so that amounts are rounded to 6, 8 and 6 decimals), the four
    validation flags are up, the slider is enabled and the gating listener
    lets every event through. *)
Theorem valid_address_opens_gates (p : Screen.Page) (a x : string) :
  assetUserSelected (APP_STATE (Screen.world p)) = false ->
  chainUserSelected (APP_STATE (Screen.world p)) = false ->
  Validation.validateEthereumAddress (Some a)
  || Validation.validateBitcoinAddress (Some a)
  || Validation.validateSolanaAddress (Some a) = true ->
  Validation.detectAssetFromAddress (Some a) = Some x ->
  exists p',
    Props.perform (Props.AddressEdit a) p = Normal p' /\
    recipientAddress (APP_STATE (Screen.world p')) = Some a /\
    asset (APP_STATE (Screen.world p')) = Some x /\
    In (x, chain (APP_STATE (Screen.world p')),
        AmountEngine.decimalsFor (chain (APP_STATE (Screen.world p'))))
       [("eth", Some "Ethereum", 6); ("btc", Some "Bitcoin", 8);
        ("sol", Some "Solana", 6)] /\
    VALIDATION_STATE (Screen.world p') =
      {| isAddressPresent := true; isAddressValid := true;
         isChainMatch := true; isSupportedChain := true |} /\
    Screen.sliderDisabled p' = false /\ Screen.inputValidated p' = true /\
    forall e, handleIntent e (Screen.world p') = (Screen.world p', e).
Proof.
  intros Hal Hcl Hv Hd.
  cbn [Props.perform]. unfold Screen.addressInput.
  match goal with |- context [Screen.updateAssetLogo ?a0 ?e0 ?q] =>
    destruct (updateAssetLogo_result a0 e0 q)
      as (p' & E & Ha & Hs & Hsl & Hiv & _)
  end.
  exists p'. split; [exact E|]. clear E.
  assert (Hne : a <> EmptyString) by (intros ->; discriminate).
  assert (Hs1 : Screen.settleIdentity a None
                  (Screen.set_recipient (Some a) (Some "manual")
                     (APP_STATE (Screen.world p)))
                = Screen.set_identity (Some x) (Screen.chainOf (Some x))
                    (if Validation.equals "btc" (Some x)
                     then if truthyString (Validation.detectBTCAddressType (Some a))
                          then Validation.detectBTCAddressType (Some a)
                          else btcAddressType (APP_STATE (Screen.world p))
                     else None)
                    (Screen.set_recipient (Some a) (Some "manual")
                       (APP_STATE (Screen.world p)))).
  { set (s0 := Screen.set_recipient (Some a) (Some "manual")
                  (APP_STATE (Screen.world p))).
    assert (Hsa : Screen.settledAsset a None s0 = Some x).
    { unfold Screen.settledAsset, Screen.or_else.
      change (assetUserSelected s0)
        with (assetUserSelected (APP_STATE (Screen.world p))).
      rewrite Hal, Hd. reflexivity. }
    assert (Hea : String.eqb a "" = false)
      by (destruct a; [congruence | reflexivity]).
    unfold Screen.settleIdentity. cbv zeta.
    change (chainUserSelected s0)
      with (chainUserSelected (APP_STATE (Screen.world p))).
    rewrite Hsa, Hcl, Hea.
    destruct (Validation.equals "btc" (Some x)); reflexivity. }
  simpl in Ha, Hs, Hsl, Hiv. rewrite Hs1 in Ha, Hs, Hsl, Hiv.
  assert (Hv1 : Validation.deriveValidationState
                  (Screen.set_identity (Some x) (Screen.chainOf (Some x))
                     (if Validation.equals "btc" (Some x)
                      then if truthyString (Validation.detectBTCAddressType (Some a))
                           then Validation.detectBTCAddressType (Some a)
                           else btcAddressType (APP_STATE (Screen.world p))
                      else None)
                     (Screen.set_recipient (Some a) (Some "manual")
                        (APP_STATE (Screen.world p))))
                = {| isAddressPresent := true; isAddressValid := true;
                     isChainMatch := true; isSupportedChain := true |}).
  { unfold Validation.deriveValidationState.
    cbn [recipientAddress asset chain Screen.set_identity Screen.set_recipient].
    assert (Ht : truthyString (Some a) = true)
      by (destruct a; [congruence | reflexivity]).
    rewrite Ht, Hv.
    destruct (detect_cases _ _ Hd) as [-> | [-> | ->]]; reflexivity. }
  rewrite Hv1 in Hs, Hsl, Hiv.
  rewrite Ha, Hs. simpl.
  split; [reflexivity|]. split; [reflexivity|].
  split; [destruct (detect_cases _ _ Hd) as [-> | [-> | ->]]; simpl; auto|].
  split; [reflexivity|]. split; [exact Hsl|]. split; [exact Hiv|].
  intros e. apply gating_open_when_valid. rewrite Hs. reflexivity.
Qed.

Lemma valid_address_opens_gates_witness :
  exists p',
    Props.perform
      (Props.AddressEdit "bc1qar0srrr7xfkvy5l643lydnw9re59gtzzwf5mdq")
      Screen.initial = Normal p' /\
    asset (APP_STATE (Screen.world p')) = Some "btc" /\
    Screen.sliderDisabled p' = false.
Proof.
  destruct (valid_address_opens_gates Screen.initial
              "bc1qar0srrr7xfkvy5l643lydnw9re59gtzzwf5mdq" "btc")
    as (p' & H & _ & Ha & _ & _ & Hs & _); try reflexivity.
  exists p'. repeat split; assumption.
Defined.






(* ================================================================== *)
(** * Lifecycle and the blocker *)
(* ================================================================== *)

Lemma updateAmountMirror_without_asset (w : World) :
  truthyString (asset (APP_STATE w)) = false -> updateAmountMirror w = Normal w.
Proof. intros H. unfold updateAmountMirror. rewrite H. reflexivity. Qed.

(** X12. Leaving by the back button and entering again (no scanned
    address) gives a clean slate, whatever the state was: no recipient,
    asset, chain or lock, fiat authority, an empty fiat field, the sentinel
    in the asset field, all validation flags down and the slider disabled.
    The prices and the closure state of the blocker (its side and its
    lock) are what they were. *)
Theorem exit_and_entry_give_a_clean_slate (p : Screen.Page) :
  exists p',
    Props.performAll [Props.Back; Props.Enter None] p = Normal p' /\
    APP_STATE (Screen.world p') =
      {| chain := None; asset := None; recipientAddress := None;
         inputMode := Fiat; isBlocked := false; isLocked := false;
         source := None; chainUserSelected := false;
         assetUserSelected := false; btcAddressType := None |} /\
    VALIDATION_STATE (Screen.world p') =
      {| isAddressPresent := false; isAddressValid := false;
         isChainMatch := false; isSupportedChain := false |} /\
    Screen.sliderDisabled p' = true /\ Screen.inputValidated p' = false /\
    Screen.addressValue p' = "" /\ Screen.addressReadOnly p' = false /\
    content (usdInput (Screen.world p')) = "" /\
    readOnly (usdInput (Screen.world p')) = false /\
    content (assetDisplay (Screen.world p')) = NEUTRAL /\
    stateNeutral (assetDisplay (Screen.world p')) = true /\
    contentEditable (assetDisplay (Screen.world p')) = false /\
    positionLeft (blocker (Screen.world p')) = false /\
    stateLocked (blocker (Screen.world p')) = false /\
    DATA_STATE (Screen.world p') = DATA_STATE (Screen.world p) /\
    blockedSide (blocker (Screen.world p')) = blockedSide (blocker (Screen.world p)) /\
    locked (blocker (Screen.world p')) = locked (blocker (Screen.world p)).
Proof.
  cbn [Props.performAll Props.perform bind].
  unfold Screen.enterSendLifecycle.
  cbn [Screen.notBlank Screen.backButton Screen.addressValue Screen.with_address
       Screen.with_world].
  change (negb (String.eqb (trim "") "")) with false. cbv iota.
  match goal with |- context [Screen.updateAssetLogo ?a0 ?e0 ?q] =>
    destruct (updateAssetLogo_spec a0 e0 q) as (w3 & H3 & E)
  end.
  rewrite E; cbn [bind]. eexists. split; [reflexivity|].
  rewrite updateAmountMirror_without_asset in H3 by reflexivity.
  injection H3 as <-. repeat split.
Qed.

(** X13. A reset does not reach the closure state of the blocker. After
    [resetSendState] fiat is authoritative, no lock is shown and the
    overlay is drawn on the right; but the first click on the blocker hands
    the authority to the asset field only if the blocker was unlocked and
    on the right before the reset. If it was on the left the click leaves
    fiat authoritative, and if it was locked the click does nothing. *)
Theorem reset_leaves_the_blocker_closure (w : World) :
  let w1 := Screen.resetSendState w in
  inputMode (APP_STATE w1) = Fiat /\ isLocked (APP_STATE w1) = false /\
  stateLocked (blocker w1) = false /\ positionLeft (blocker w1) = false /\
  blockedSide (blocker w1) = blockedSide (blocker w) /\
  locked (blocker w1) = locked (blocker w) /\
  inputMode (APP_STATE (handleSingleClick w1)) =
    (if locked (blocker w) then Fiat
     else Props.modeOf (negb (Props.onLeft (blocker w)))) /\
  (locked (blocker w) = true -> handleSingleClick w1 = w1).
Proof.
  cbv zeta. repeat split.
  - destruct (locked (blocker w)) eqn:Hl.
    + unfold handleSingleClick. simpl. rewrite Hl. reflexivity.
    + assert (Hl1 : locked (blocker (Screen.resetSendState w)) = false)
        by exact Hl.
      destruct (handleSingleClick_fields _ Hl1) as (_ & _ & H & _).
      change (blockedSide (blocker (Screen.resetSendState w)))
        with (blockedSide (blocker w)) in H.
      unfold Props.onLeft, Props.modeOf.
      destruct (blockedSide (blocker w)); destruct H as (Ha & _);
        rewrite Ha; reflexivity.
  - intros Hl. unfold handleSingleClick. simpl. rewrite Hl. reflexivity.
Qed.

(** X14. A click on the unlocked blocker flips its side and brings
    everything in line with the new side: the input mode, the read-only
    flag of the fiat field, the editability of the asset field and the
    position class of the overlay. It changes neither the validation flags
    nor the prices nor the fiat text, and a locked blocker ignores it. *)
Theorem click_aligns_the_fields (w : World) :
  let w' := handleSingleClick w in
  if locked (blocker w) then w' = w
  else
    Props.onLeft (blocker w') = negb (Props.onLeft (blocker w)) /\
    inputMode (APP_STATE w') = Props.modeOf (Props.onLeft (blocker w')) /\
    readOnly (usdInput w') = Props.onLeft (blocker w') /\
    contentEditable (assetDisplay w') = Props.onLeft (blocker w') /\
    positionLeft (blocker w') = Props.onLeft (blocker w') /\
    content (usdInput w') = content (usdInput w) /\
    VALIDATION_STATE w' = VALIDATION_STATE w /\ DATA_STATE w' = DATA_STATE w /\
    locked (blocker w') = false.
Proof.
  cbv zeta. destruct (locked (blocker w)) eqn:Hl;
    [unfold handleSingleClick; rewrite Hl; reflexivity|].
  destruct (handleSingleClick_fields w Hl) as (Fv & Fd & H & Hl' & _).
  unfold Props.onLeft, Props.modeOf.
  destruct (blockedSide (blocker w));
    destruct H as (Ha & Hu & Hs & Hb & Hp); rewrite Ha, Hu, Hs, Hb, Hp.
  - repeat split; assumption.
  - destruct (includes DASH (content (assetDisplay w))); repeat split;
      assumption.
Qed.

(* ================================================================== *)
(** * The guards of the asset field *)
(* ================================================================== *)

Lemma sanitize_idempotent (s : string) : sanitize (sanitize s) = sanitize s.
Proof.
  unfold sanitize. induction s as [|c s IH]; [reflexivity|]. simpl.
  destruct (isDigitOrDot c) eqn:E; [simpl; rewrite E, IH; reflexivity | exact IH].
Qed.

(** X15. Prevention, not truncation. In asset mode an insertion into
    the editable asset field that stays within the cap of 17 digits is
    carried out in full: the field then holds the sanitized text with the
    insertion in place, made of digits and points only, and its digit
    count is the count before plus the count of what was inserted. No
    toast is shown. *)
Theorem accepted_insertion_keeps_every_digit
  (w : World) (text : string) (start : nat) :
  inputMode (APP_STATE w) = Asset ->
  contentEditable (assetDisplay w) = true ->
  digitCount (content (assetDisplay w)) + digitCount text <= MAX_ASSET_DIGITS ->
  exists w',
    act (TypeText text start 0) w = Normal w' /\
    content (assetDisplay w') =
      sanitize (splice (content (assetDisplay w)) text start 0) /\
    sanitize (content (assetDisplay w')) = content (assetDisplay w') /\
    digitCount (content (assetDisplay w')) =
      digitCount (content (assetDisplay w)) + digitCount text /\
    toasts w' = toasts w.
Proof.
  intros Hm He Hc. simpl. unfold beforeinput. rewrite Hm. simpl.
  unfold dataText. simpl.
  assert (E : (MAX_ASSET_DIGITS
               <? digitCount (content (assetDisplay w)) + digitCount text)
              = false) by (apply Z.ltb_ge; exact Hc).
  rewrite E. simpl. rewrite He. simpl. unfold input. simpl. rewrite Hm.
  set (t := splice (content (assetDisplay w)) text start 0).
  match goal with |- context [updateAmountMirror ?x] =>
    destruct (updateAmountMirror_returns x) as [w' Hw'];
    assert (Hmx : inputMode (APP_STATE x) = Asset)
      by (destruct (negb _); exact Hm);
    assert (Hcx : content (assetDisplay x) = sanitize t)
      by (destruct (String.eqb (sanitize t) t) eqn:Es; simpl;
          [apply String.eqb_eq in Es; symmetry; exact Es | reflexivity]);
    assert (Htx : toasts x = toasts w) by (destruct (negb _); reflexivity);
    destruct (updateAmountMirror_asset_frame x w' Hmx Hw') as [Fc _];
    destruct (updateAmountMirror_frame x w' Hw')
      as (_ & _ & _ & _ & _ & _ & _ & Ft)
  end.
  exists w'. split; [exact Hw'|]. rewrite Fc, Ft, Hcx, Htx.
  split; [reflexivity|]. split; [apply sanitize_idempotent|].
  split; [|reflexivity].
  rewrite digitCount_sanitize. subst t. unfold splice.
  rewrite !digitCount_app, Nat.add_0_r.
  rewrite (digitCount_split start (content (assetDisplay w))). lia.
Qed.

Lemma accepted_insertion_keeps_every_digit_witness :
  exists w',
    act (TypeText "7" 16 0)
      (Scenario.screen Asset true (Some Spec.priceETH) "" "1234567890123456"
         (Some AssetDisplay)) = Normal w' /\
    content (assetDisplay w') = "12345678901234567".
Proof.
  destruct (accepted_insertion_keeps_every_digit
              (Scenario.screen Asset true (Some Spec.priceETH) ""
                 "1234567890123456" (Some AssetDisplay)) "7" 16)
    as (w' & H & Hc & _); [reflexivity | reflexivity | vm_compute; discriminate |].
  exists w'. split; [exact H|]. rewrite Hc. reflexivity.
Defined.

(** X16. The keydown listener of the asset field, the asset being
    authoritative: Enter is always prevented; a digit key, on the digit row
    without Shift or on the number pad, goes through unless the key is a
    point and the text has one; a letter key without Ctrl or Cmd is
    prevented; and the period keys (key codes 190 and 110) are never
    prevented, even when the text already has a decimal point. *)
Theorem asset_keydown_filter (e : Screen.KeyEvent) (w : World) :
  inputMode (APP_STATE w) = Asset ->
  (Screen.keyCode e = 13 -> Screen.keydownPrevents e w = true) /\
  ((48 <= Screen.keyCode e <= 57 /\ Screen.shiftKey e = false)
   \/ 96 <= Screen.keyCode e <= 105 ->
   Screen.keydownPrevents e w =
     String.eqb (Screen.key e) "." && includes "." (content (assetDisplay w))) /\
  (65 <= Screen.keyCode e <= 90 ->
   Screen.ctrlKey e = false -> Screen.metaKey e = false ->
   Screen.keydownPrevents e w = true) /\
  (Screen.keyCode e = 190 \/ Screen.keyCode e = 110 ->
   Screen.keydownPrevents e w = false).
Proof.
  intros Hm. unfold Screen.keydownPrevents, Screen.memZ. rewrite Hm.
  cbn [existsb].
  repeat split.
  - intros ->. reflexivity.
  - intros H.
    replace (Screen.keyCode e =? 46) with false by (symmetry; apply Z.eqb_neq; lia).
    replace (Screen.keyCode e =? 8) with false by (symmetry; apply Z.eqb_neq; lia).
    replace (Screen.keyCode e =? 9) with false by (symmetry; apply Z.eqb_neq; lia).
    replace (Screen.keyCode e =? 27) with false by (symmetry; apply Z.eqb_neq; lia).
    replace (Screen.keyCode e =? 13) with false by (symmetry; apply Z.eqb_neq; lia).
    replace (Screen.keyCode e =? 110) with false by (symmetry; apply Z.eqb_neq; lia).
    replace (Screen.keyCode e =? 190) with false by (symmetry; apply Z.eqb_neq; lia).
    replace (Screen.keyCode e =? 65) with false by (symmetry; apply Z.eqb_neq; lia).
    replace (Screen.keyCode e =? 67) with false by (symmetry; apply Z.eqb_neq; lia).
    replace (Screen.keyCode e =? 88) with false by (symmetry; apply Z.eqb_neq; lia).
    replace (Screen.keyCode e <=? 40) with false by (symmetry; apply Z.leb_gt; lia).
    cbn [orb andb]. rewrite andb_false_r. cbv iota.
    destruct H as [[H Hs] | H].
    + rewrite Hs.
      replace (Screen.keyCode e <? 48) with false by (symmetry; apply Z.ltb_ge; lia).
      replace (57 <? Screen.keyCode e) with false by (symmetry; apply Z.ltb_ge; lia).
      reflexivity.
    + replace (Screen.keyCode e <? 96) with false by (symmetry; apply Z.ltb_ge; lia).
      replace (105 <? Screen.keyCode e) with false by (symmetry; apply Z.ltb_ge; lia).
      cbn [orb]. rewrite andb_false_r. reflexivity.
  - intros H Hc Hmeta. rewrite Hc, Hmeta.
    replace (Screen.keyCode e =? 46) with false by (symmetry; apply Z.eqb_neq; lia).
    replace (Screen.keyCode e =? 8) with false by (symmetry; apply Z.eqb_neq; lia).
    replace (Screen.keyCode e =? 9) with false by (symmetry; apply Z.eqb_neq; lia).
    replace (Screen.keyCode e =? 27) with false by (symmetry; apply Z.eqb_neq; lia).
    replace (Screen.keyCode e =? 13) with false by (symmetry; apply Z.eqb_neq; lia).
    replace (Screen.keyCode e =? 110) with false by (symmetry; apply Z.eqb_neq; lia).
    replace (Screen.keyCode e =? 190) with false by (symmetry; apply Z.eqb_neq; lia).
    replace (Screen.keyCode e <=? 40) with false by (symmetry; apply Z.leb_gt; lia).
    cbn [orb andb]. rewrite !andb_false_r. cbn [orb].
    replace (57 <? Screen.keyCode e) with true by (symmetry; apply Z.ltb_lt; lia).
    replace (Screen.keyCode e <? 96) with true by (symmetry; apply Z.ltb_lt; lia).
    rewrite !orb_true_r. reflexivity.
  - intros [-> | ->]; reflexivity.
Qed.

Lemma asset_keydown_filter_witness :
  Screen.keydownPrevents
    {| Screen.keyCode := 190; Screen.key := "."; Screen.shiftKey := false;
       Screen.ctrlKey := false; Screen.metaKey := false |}
    (Scenario.screen Asset true (Some Spec.priceETH) "" "1.5"
       (Some AssetDisplay)) = false.
Proof.
  apply (asset_keydown_filter
           {| Screen.keyCode := 190; Screen.key := "."; Screen.shiftKey := false;
              Screen.ctrlKey := false; Screen.metaKey := false |}
           (Scenario.screen Asset true (Some Spec.priceETH) "" "1.5"
              (Some AssetDisplay))); [reflexivity | left; reflexivity].
Defined.

(** X17. With Bitcoin as the asset, the address decides the address
    type: if [detectBTCAddressType] finds a type in the recipient address,
    that type is in [APP_STATE] after [setBTCAddressType], whatever type
    was asked for; nothing else of [APP_STATE] changes. *)
Theorem address_dictates_btc_type (t : option string) (s : AppState) (d : string) :
  asset s = Some "btc" ->
  Validation.detectBTCAddressType (recipientAddress s) = Some d ->
  let s' := Validation.setBTCAddressType t s in
  btcAddressType s' = Some d /\
  chain s' = chain s /\ asset s' = asset s /\
  recipientAddress s' = recipientAddress s /\ inputMode s' = inputMode s /\
  chainUserSelected s' = chainUserSelected s /\
  assetUserSelected s' = assetUserSelected s.
Proof.
  intros Ha Hd. cbv zeta.
  split; [|apply setBTCAddressType_frame].
  assert (Ht : truthyString (recipientAddress s) = true).
  { destruct (recipientAddress s) as [[|c r]|]; try discriminate. reflexivity. }
  assert (Hdt : truthyString (Some d) = true).
  { unfold Validation.detectBTCAddressType in Hd.
    destruct (recipientAddress s) as [[|c r]|]; try discriminate.
    cbv zeta in Hd.
    destruct (prefix "bc1p" _); [inversion Hd; reflexivity|].
    destruct (prefix "bc1q" _); [inversion Hd; reflexivity|].
    destruct (_ || _); [inversion Hd; reflexivity | discriminate]. }
  unfold Validation.setBTCAddressType. rewrite Ha, Ht.
  cbn [Validation.equals String.eqb Ascii.eqb Bool.eqb andb]. rewrite Hd, Hdt.
  cbn [andb].
  destruct (Validation.same_string (Some d) t) eqn:E; cbn [negb];
    [|reflexivity].
  destruct t as [t|]; [|discriminate]. simpl in E.
  apply String.eqb_eq in E. subst t.
  destruct (Validation.same_string (btcAddressType s) (Some d)) eqn:E2;
    [|reflexivity].
  destruct (btcAddressType s) as [b|]; [|discriminate]. simpl in E2.
  apply String.eqb_eq in E2. subst b. reflexivity.
Qed.

Lemma address_dictates_btc_type_witness :
  btcAddressType
    (Validation.setBTCAddressType (Some "taproot")
       {| chain := Some "Bitcoin"; asset := Some "btc";
          recipientAddress := Some "bc1qar0srrr7xfkvy5l643lydnw9re59gtzzwf5mdq";
          inputMode := Fiat; isBlocked := false; isLocked := false;
          source := Some "manual"; chainUserSelected := false;
          assetUserSelected := false; btcAddressType := None |})
  = Some "segwit".
Proof.
  apply (address_dictates_btc_type (Some "taproot")
           {| chain := Some "Bitcoin"; asset := Some "btc";
              recipientAddress := Some "bc1qar0srrr7xfkvy5l643lydnw9re59gtzzwf5mdq";
              inputMode := Fiat; isBlocked := false; isLocked := false;
              source := Some "manual"; chainUserSelected := false;
              assetUserSelected := false; btcAddressType := None |}
           "segwit"); reflexivity.
Defined.

(* ================================================================== *)
(** * The selection overlay *)
(* ================================================================== *)

Lemma cleanData_headers (data : list Overlay.Item) :
  Props.headersHaveCards (Overlay.cleanData data) = true.
Proof.
  induction data as [|item rest IH]; [reflexivity|].
  destruct item as [h | n]; cbn [Overlay.cleanData Overlay.isHeader].
  - destruct rest as [|[h' | n'] rest']; [reflexivity | exact IH |].
    cbn [Overlay.isHeader negb]. cbv iota.
    cbn [Props.headersHaveCards Overlay.cleanData Overlay.isHeader] in *.
    exact IH.
  - cbn [Props.headersHaveCards]. exact IH.
Qed.

Lemma cleanData_cards (data : list Overlay.Item) :
  Props.cards (Overlay.cleanData data) = Props.cards data.
Proof.
  unfold Props.cards.
  induction data as [|item rest IH]; [reflexivity|].
  destruct item as [h | n]; cbn [Overlay.cleanData Overlay.isHeader].
  - destruct rest as [|[h' | n'] rest']; cbn [Overlay.isHeader negb];
      cbv iota; cbn [List.filter Overlay.isHeader negb]; exact IH.
  - cbn [List.filter Overlay.isHeader negb]. rewrite IH. reflexivity.
Qed.

Lemma cleanData_In (x : Overlay.Item) (data : list Overlay.Item) :
  In x (Overlay.cleanData data) -> In x data.
Proof.
  induction data as [|item rest IH]; [auto|].
  destruct item as [h | n]; cbn [Overlay.cleanData Overlay.isHeader].
  - destruct rest as [|[h' | n'] rest']; cbn [Overlay.isHeader negb]; cbv iota.
    + intros [].
    + intros H. right. exact (IH H).
    + intros [H | H]; [left; exact H | right; exact (IH H)].
  - intros [H | H]; [left; exact H | right; exact (IH H)].
Qed.

Lemma allowedItem_card (allowed : list string) (n : string) :
  Overlay.allowedItem allowed (Overlay.Card n) = true -> In n allowed.
Proof.
  cbn [Overlay.allowedItem]. intros H. apply existsb_exists in H.
  destruct H as (x & Hx & E). apply String.eqb_eq in E. subst x. exact Hx.
Qed.

(** X18. What the overlay renders stays in scope. A chain card shown for
    an asset is a card of [MOCK_CHAINS] and one of the chains allowed for
    that asset; an asset card shown for a chain is a card of [MOCK_ASSETS]
    and one of the assets allowed on that chain. Every section header
    rendered has a card right after it, and the clean-up of headers drops
    no card. *)
Theorem overlay_stays_in_scope (context : option string) (name : string) :
  (In (Overlay.Card name) (Overlay.renderList Overlay.chainList context) ->
   In (Overlay.Card name) Overlay.MOCK_CHAINS /\
   forall allowed,
     Overlay.getAllowedChainsForAsset context = Some allowed ->
     In name allowed) /\
  (In (Overlay.Card name) (Overlay.renderList Overlay.assetList context) ->
   In (Overlay.Card name) Overlay.MOCK_ASSETS /\
   (truthyString context = true ->
    In name (Overlay.getAllowedAssetsForChain context))) /\
  (forall type,
     Props.headersHaveCards (Overlay.renderList type context) = true) /\
  (forall data, Props.cards (Overlay.cleanData data) = Props.cards data).
Proof.
  split; [|split; [|split]].
  - unfold Overlay.renderList. intros H. apply cleanData_In in H.
    destruct (Overlay.getAllowedChainsForAsset context) as [allowed|].
    + apply filter_In in H. destruct H as [H1 H2].
      split; [exact H1|]. intros allowed' E. inversion E; subst allowed'.
      exact (allowedItem_card _ _ H2).
    + split; [exact H | discriminate].
  - unfold Overlay.renderList. intros H. apply cleanData_In in H.
    destruct (truthyString context).
    + apply filter_In in H. destruct H as [H1 H2].
      split; [exact H1|]. intros _. exact (allowedItem_card _ _ H2).
    + split; [exact H | discriminate].
  - intros type. apply cleanData_headers.
  - apply cleanData_cards.
Qed.

Lemma toLowerCase_nonempty (a x : string) :
  toLowerCase a = x -> x <> EmptyString -> exists c a', a = String c a'.
Proof.
  destruct a as [|c a']; [intros <- H; exfalso; apply H; reflexivity | eauto].
Qed.

Lemma chains_for_asset (a : string) :
  In (toLowerCase a) ["eth"; "usdt"; "usdc"; "btc"; "sol"] ->
  Overlay.renderList Overlay.chainList (Some a) =
    (if String.eqb (toLowerCase a) "btc"
     then [Overlay.Header "Mainnet Networks"; Overlay.Card "Bitcoin Network"]
     else if String.eqb (toLowerCase a) "sol"
     then [Overlay.Header "Mainnet Networks"; Overlay.Card "Solana Mainnet"]
     else [Overlay.Header "Mainnet Networks"; Overlay.Card "Ethereum Mainnet";
           Overlay.Header "Layer 2 & Sidechains"; Overlay.Card "Arbitrum One";
           Overlay.Card "Optimism"; Overlay.Card "Polygon"; Overlay.Card "Base";
           Overlay.Card "Linea"; Overlay.Card "Scroll";
           Overlay.Header "Test Networks"; Overlay.Card "Sepolia"]).
Proof.
  intros H.
  assert (Hne : exists c a', a = String c a').
  { cbn [In] in H.
    destruct H as [H | [H | [H | [H | [H | []]]]]];
      apply (toLowerCase_nonempty a _ (eq_sym H)); discriminate. }
  destruct Hne as (c & a' & ->).
  unfold Overlay.renderList, Overlay.getAllowedChainsForAsset. cbv zeta.
  set (L := toLowerCase (String c a')) in *. cbn [In] in H.
  destruct H as [H | [H | [H | [H | [H | []]]]]]; rewrite <- H; reflexivity.
Qed.

(** X19. The two lists of the overlay agree on the five assets the screen
    knows. Whatever the letter case of the asset in the context, each
    chain card the chain list shows for it leads, once picked, to a chain
    whose asset list shows the card of that asset again. *)
Theorem picked_chain_offers_the_asset (a name : string) :
  In (toLowerCase a) ["eth"; "usdt"; "usdc"; "btc"; "sol"] ->
  In (Overlay.Card name) (Overlay.renderList Overlay.chainList (Some a)) ->
  exists N,
    toLowerCase N = toLowerCase a /\
    In (Overlay.Card N)
       (Overlay.renderList Overlay.assetList
          (snd (fst (Overlay.selection Overlay.chainList (Some a) name)))).
Proof.
  intros Ha Hn. rewrite (chains_for_asset a Ha) in Hn.
  unfold Overlay.selection.
  set (L := toLowerCase a) in *. cbn [In] in Ha.
  destruct Ha as [H | [H | [H | [H | [H | []]]]]]; rewrite <- H in *;
    cbn [String.eqb Ascii.eqb Bool.eqb] in Hn; cbv iota in Hn;
    cbn [In] in Hn;
    repeat match goal with
           | Hn : _ \/ _ |- _ => destruct Hn as [Hn | Hn]
           | Hn : False |- _ => destruct Hn
           | Hn : Overlay.Header _ = Overlay.Card _ |- _ => discriminate Hn
           | Hn : Overlay.Card _ = Overlay.Card _ |- _ =>
               injection Hn as <-
           end.
  all: first [ exists "ETH"; split; [reflexivity | vm_compute; tauto]
             | exists "USDT"; split; [reflexivity | vm_compute; tauto]
             | exists "USDC"; split; [reflexivity | vm_compute; tauto]
             | exists "BTC"; split; [reflexivity | vm_compute; tauto]
             | exists "SOL"; split; [reflexivity | vm_compute; tauto] ].
Qed.

Lemma picked_chain_offers_the_asset_witness :
  exists N,
    toLowerCase N = toLowerCase "USDC" /\
    In (Overlay.Card N)
       (Overlay.renderList Overlay.assetList
          (snd (fst (Overlay.selection Overlay.chainList (Some "USDC")
                       "Polygon")))).
Proof.
  apply (picked_chain_offers_the_asset "USDC" "Polygon");
    vm_compute; tauto.
Defined.

(* ================================================================== *)
(** * Theme, logo and readiness *)
(* ================================================================== *)

(** X20. Once the chain has a family, the family alone decides the theme
    class and the logo: no asset changes them, every chain of the Ethereum
    family has the Ethereum theme and logo, and the accent layer is the
    only thing an asset can add. *)
Theorem theme_and_logo_follow_the_family
  (chain asset asset' newChain newChain' : option string) (f : Family) :
  resolveChainFamily chain = Some f ->
  fst (Screen.updateTheme chain asset) = fst (Screen.updateTheme chain asset') /\
  Screen.logoSource chain newChain asset
    = Screen.logoSource chain newChain' asset' /\
  fst (Screen.updateTheme chain asset) =
    match f with
    | ethereum => Screen.theme_eth
    | bitcoin => Screen.theme_btc
    | solana => Screen.theme_sol
    end /\
  Screen.logoSource chain newChain asset =
    match f with
    | ethereum => "./assets/eth.png"
    | bitcoin => "./assets/btc.png"
    | solana => "./assets/sol.png"
    end.
Proof.
  intros Hf.
  assert (Ht : truthyString chain = true).
  { unfold resolveChainFamily in Hf.
    destruct chain as [[|c s]|]; try discriminate. reflexivity. }
  unfold Screen.updateTheme, Screen.logoSource, Screen.or_else,
    Screen.resolveLogoForChainFamily.
  rewrite Ht, Ht, Hf. cbn [fst].
  destruct f; repeat split.
Qed.

Lemma theme_and_logo_follow_the_family_witness :
  fst (Screen.updateTheme (Some "Arbitrum One") (Some "usdt")) = Screen.theme_eth /\
  Screen.logoSource (Some "Arbitrum One") None (Some "usdt")
    = "./assets/eth.png".
Proof.
  destruct (theme_and_logo_follow_the_family (Some "Arbitrum One")
              (Some "usdt") None None None ethereum eq_refl)
    as (_ & _ & H1 & H2).
  split; assumption.
Defined.

Lemma fetchAssetPrice_truthy (asset : option string) :
  truthyString asset = true ->
  exists pr, Screen.fetchAssetPrice asset = Some pr /\ truthy pr = true.
Proof.
  destruct asset as [[|c a]|]; try discriminate. intros _.
  unfold Screen.fetchAssetPrice.
  destruct (String.eqb _ "eth"); [eexists; split; [reflexivity | reflexivity]|].
  destruct (String.eqb _ "btc"); [eexists; split; [reflexivity | reflexivity]|].
  destruct (String.eqb _ "sol"); eexists; split; reflexivity.
Qed.

Lemma fee_values :
  truthy (ofZ 15) = true /\ truthy (ofZ 12) = true /\
  truthy (ofDecimal 5 (-6)) = true /\ truthy (ofDecimal 1 (-1)) = true /\
  eqb (mul (mul (ofZ 21000) (ofZ 15)) (ofDecimal 1 (-9))) zero = false /\
  eqb (mul (mul (ofZ 140) (ofZ 12)) (ofDecimal 1 (-8))) zero = false /\
  eqb (ofDecimal 5 (-6)) zero = false.
Proof. vm_compute. repeat split. Qed.

(** The fee derived once the gas price fetched for the chain is in
    [DATA_STATE]: a fee for the three chains it knows, nothing for any
    other. *)
Lemma deriveGasFee_fetched (w : World) (g pr : number) (u : string) :
  truthyString (chain (APP_STATE w)) = true ->
  Screen.fetchGasPrice (chain (APP_STATE w)) = Some (g, u) ->
  gasPrice (DATA_STATE w) = Some g ->
  assetPriceUSD (DATA_STATE w) = Some pr -> truthy pr = true ->
  if Props.feeChain (chain (APP_STATE w))
  then exists n f, Screen.deriveGasFee w = Some (n, Some f)
  else Screen.deriveGasFee w = None.
Proof.
  intros Ht Hg Eg Ep Hp.
  unfold Screen.deriveGasFee, Props.feeChain. rewrite Ht, Eg, Ep, Hp.
  destruct (chain (APP_STATE w)) as [[|c r]|];
    [discriminate Ht | | discriminate Ht].
  unfold Screen.fetchGasPrice in Hg. cbn [Validation.equals truthyNumber].
  destruct fee_values as (T1 & T2 & T3 & T4 & F1 & F2 & F3).
  destruct (String.eqb (String c r) "Ethereum") eqn:E1.
  { assert (Eq : g = ofZ 15) by congruence. subst g.
    rewrite T1, F1. cbn [orb negb]. eauto. }
  destruct (String.eqb (String c r) "Bitcoin") eqn:E2.
  { assert (Eq : g = ofZ 12) by congruence. subst g.
    rewrite T2, F2. cbn [orb negb]. eauto. }
  destruct (String.eqb (String c r) "Solana") eqn:E3.
  { assert (Eq : g = ofDecimal 5 (-6)) by congruence. subst g.
    rewrite T3, F3. cbn [orb negb]. eauto. }
  assert (Eq : g = ofDecimal 1 (-1)) by congruence. subst g.
  rewrite T4. reflexivity.
Qed.

(** X21. When the gas price and the asset price arrive for a chain and an
    asset, the price is set and the synchronizer runs; the transaction is
    ready exactly when the address is valid, a recipient is recorded and
    the chain is one of Ethereum, Bitcoin and Solana. For every other
    chain name (the layer-2 networks of the overlay among them) no fee is
    derived, so the transaction is never ready. *)
Theorem readiness_after_data (now : Z) (p : Screen.Page) :
  truthyString (chain (APP_STATE (Screen.world p))) = true ->
  truthyString (asset (APP_STATE (Screen.world p))) = true ->
  exists p',
    Screen.updateDataState now p = Normal p' /\
    assetPriceUSD (DATA_STATE (Screen.world p'))
      = Screen.fetchAssetPrice (asset (APP_STATE (Screen.world p))) /\
    truthyNumber (assetPriceUSD (DATA_STATE (Screen.world p'))) = true /\
    Screen.isReady p' =
      isAddressValid (VALIDATION_STATE (Screen.world p))
      && match recipientAddress (APP_STATE (Screen.world p)) with
         | Some _ => true
         | None => false
         end
      && Props.feeChain (chain (APP_STATE (Screen.world p))).
Proof.
  intros Hc Ha. unfold Screen.updateDataState. rewrite Hc, Ha. cbn [negb orb].
  unfold Screen.updateDataState_resolved.
  destruct (fetchAssetPrice_truthy _ Ha) as (pr & Ep & Hp).
  assert (Eg : exists g u, Screen.fetchGasPrice
                             (chain (APP_STATE (Screen.world p))) = Some (g, u)).
  { unfold Screen.fetchGasPrice.
    destruct (chain (APP_STATE (Screen.world p))) as [[|c r]|];
      try discriminate.
    destruct (String.eqb _ "Ethereum"); [eauto|].
    destruct (String.eqb _ "Bitcoin"); [eauto|].
    destruct (String.eqb _ "Solana"); eauto. }
  destruct Eg as (g & u & Eg). rewrite Eg, Ep, Hp.
  match goal with |- context [Screen.updateDerivedState now ?q] =>
    set (p1 := q)
  end.
  pose proof (deriveGasFee_fetched (Screen.world p1) g pr u Hc Eg eq_refl
                eq_refl Hp) as Hfee.
  change (chain (APP_STATE (Screen.world p1)))
    with (chain (APP_STATE (Screen.world p))) in Hfee.
  unfold Screen.updateDerivedState.
  destruct (Props.feeChain (chain (APP_STATE (Screen.world p)))).
  - destruct Hfee as (n & f & Hfee). rewrite Hfee.
    match goal with |- context [updateAmountMirror ?x] =>
      destruct (updateAmountMirror_returns x) as [w3 H3];
      destruct (updateAmountMirror_frame _ _ H3) as (Fa & Fv & Fd & _)
    end.
    rewrite H3; cbn [bind]. eexists. split; [reflexivity|].
    unfold Screen.isReady.
    change (Screen.world (Screen.with_world w3 ?q)) with w3.
    rewrite Fa, Fv, Fd. cbn. rewrite Hp.
    split; [reflexivity|]. split; [reflexivity|].
    rewrite !andb_true_r. reflexivity.
  - rewrite Hfee.
    match goal with |- context [updateAmountMirror ?x] =>
      destruct (updateAmountMirror_returns x) as [w3 H3];
      destruct (updateAmountMirror_frame _ _ H3) as (Fa & Fv & Fd & _)
    end.
    rewrite H3; cbn [bind]. eexists. split; [reflexivity|].
    unfold Screen.isReady.
    change (Screen.world (Screen.with_world w3 ?q)) with w3.
    rewrite Fa, Fv, Fd. cbn. rewrite Hp.
    split; [reflexivity|]. split; [reflexivity|].
    rewrite !andb_false_r. reflexivity.
Qed.

Lemma readiness_after_data_witness :
  exists p',
    Screen.updateDataState 0
      (Screen.with_world
         (Scenario.screen Fiat true None "10" NEUTRAL None) Screen.initial)
      = Normal p' /\
    assetPriceUSD (DATA_STATE (Screen.world p')) = Some Spec.priceETH.
Proof.
  destruct (readiness_after_data 0
              (Screen.with_world
                 (Scenario.screen Fiat true None "10" NEUTRAL None)
                 Screen.initial))
    as (p' & E & Hp & _); [reflexivity | reflexivity |].
  exists p'. split; [exact E|]. rewrite Hp. reflexivity.
Defined.

(* ================================================================== *)
(** * The guard of the fiat field *)
(* ================================================================== *)

Lemma split_dot_nonempty (s : string) : split_dot s <> [].
Proof.
  induction s as [|c s IH]; simpl; [discriminate|].
  destruct (isDot c); [discriminate|].
  destruct (split_dot s); discriminate.
Qed.

Lemma split_dot_noPoint (s : string) :
  Props.noPoint s = true -> split_dot s = [s].
Proof.
  unfold Props.noPoint. induction s as [|c s IH]; [reflexivity|]. simpl.
  intros H. apply andb_true_iff in H. destruct H as [Hc Hs].
  apply negb_true_iff in Hc. rewrite Hc, (IH Hs). reflexivity.
Qed.

Lemma split_dot_app (a b : string) :
  Props.noPoint a = true ->
  split_dot (a ++ String "." b) = a :: split_dot b.
Proof.
  unfold Props.noPoint. induction a as [|c a IH]; [reflexivity|]. simpl.
  intros H. apply andb_true_iff in H. destruct H as [Hc Hs].
  apply negb_true_iff in Hc. rewrite Hc, (IH Hs). reflexivity.
Qed.

Lemma split_dot_parts (s : string) :
  Forall (fun p => Props.noPoint p = true) (split_dot s).
Proof.
  induction s as [|c s IH]; simpl; [repeat constructor|].
  destruct (isDot c) eqn:E; [constructor; [reflexivity | exact IH]|].
  destruct (split_dot s) as [|p ps].
  - constructor; [|constructor].
    unfold Props.noPoint. simpl. rewrite E. reflexivity.
  - inversion IH as [|? ? Hp Hps]; subst. constructor; [|exact Hps].
    unfold Props.noPoint in *. simpl. rewrite E. exact Hp.
Qed.

Lemma includes_dot (s : string) : includes "." s = negb (Props.noPoint s).
Proof.
  unfold Props.noPoint. induction s as [|c s IH]; [reflexivity|].
  cbn [includes Validation.every].
  destruct (Ascii.ascii_dec "." c) as [<-|n].
  - rewrite prefix_cons_eq, prefix_empty. reflexivity.
  - rewrite (prefix_cons_ne "." c "" s n), IH.
    assert (E : isDot c = false).
    { unfold isDot. apply Ascii.eqb_neq. congruence. }
    rewrite E. reflexivity.
Qed.

Lemma noPoint_app (a b : string) :
  Props.noPoint (a ++ b) = Props.noPoint a && Props.noPoint b.
Proof. apply every_app. Qed.

Lemma noPoint_join (l : list string) :
  Forall (fun p => Props.noPoint p = true) l ->
  Props.noPoint (Screen.join l) = true.
Proof.
  induction 1 as [|p l Hp Hl IH]; [reflexivity|].
  cbn [Screen.join fold_right]. rewrite noPoint_app, Hp. exact IH.
Qed.

Lemma byte_of_nat (n : nat) :
  (n < 256)%nat -> nat_of_ascii (ascii_of_nat n) = n.
Proof. apply nat_ascii_embedding. Qed.

(** The bytes of a high surrogate: a lead of a three-byte character and
    two continuation bytes. *)
Lemma highSurrogate_bytes (c1 c2 c3 c4 : ascii) :
  exists b2 b3,
    Validation.highSurrogate c1 c2 c3 c4
      = String (ascii_of_nat 237) (String b2 (String b3 EmptyString)) /\
    (128 <= nat_of_ascii b2 < 192)%nat /\ (128 <= nat_of_ascii b3 < 192)%nat.
Proof.
  unfold Validation.highSurrogate.
  set (cp := _ + _ + _ + _). set (hi := 55296 + (cp - 65536) / 1024).
  eexists; eexists; split; [reflexivity|].
  pose proof (Z.mod_pos_bound (hi / 64) 64 eq_refl) as H2.
  pose proof (Z.mod_pos_bound hi 64 eq_refl) as H3.
  rewrite !byte_of_nat by lia. lia.
Qed.

Lemma length16_substring16 (s : string) :
  forall n, (Validation.length16 (Validation.substring16 n s) <= n)%nat.
Proof.
  induction s as [|c s IH]; intros n; [simpl; lia|].
  cbn [Validation.substring16].
  destruct ((128 <=? nat_of_ascii c)%nat && (nat_of_ascii c <? 192)%nat) eqn:E1.
  - cbn [Validation.length16].
    apply andb_true_iff in E1. destruct E1 as [Ea Eb].
    apply Nat.leb_le in Ea. apply Nat.ltb_lt in Eb.
    replace (nat_of_ascii c <? 128)%nat with false
      by (symmetry; apply Nat.ltb_ge; lia).
    replace (192 <=? nat_of_ascii c)%nat with false
      by (symmetry; apply Nat.leb_gt; lia).
    replace (240 <=? nat_of_ascii c)%nat with false
      by (symmetry; apply Nat.leb_gt; lia).
    cbn [orb andb]. specialize (IH n). lia.
  - destruct (nat_of_ascii c <? 240)%nat eqn:E2.
    + destruct n as [|n']; [simpl; lia|].
      cbn [Validation.length16].
      apply Nat.ltb_lt in E2.
      assert (Hc : (nat_of_ascii c < 128 \/ 192 <= nat_of_ascii c)%nat).
      { apply andb_false_iff in E1. destruct E1 as [E1 | E1];
          [apply Nat.leb_gt in E1 | apply Nat.ltb_ge in E1]; lia. }
      replace ((nat_of_ascii c <? 128)%nat
               || (192 <=? nat_of_ascii c)%nat && (nat_of_ascii c <? 240)%nat)
        with true.
      * specialize (IH n'). lia.
      * symmetry. destruct Hc as [Hc | Hc].
        -- apply Nat.ltb_lt in Hc. rewrite Hc. reflexivity.
        -- apply Nat.leb_le in Hc. apply Nat.ltb_lt in E2.
           rewrite Hc, E2. apply orb_true_r.
    + destruct n as [|[|n']]; [simpl; lia | |].
      * destruct s as [|c2 [|c3 [|c4 s4]]];
          [simpl; lia | simpl; lia | simpl; lia |].
        destruct (highSurrogate_bytes c c2 c3 c4) as (b2 & b3 & -> & H2 & H3).
        cbn [Validation.length16]. rewrite byte_of_nat by lia.
        replace (nat_of_ascii b2 <? 128)%nat with false
          by (symmetry; apply Nat.ltb_ge; lia).
        replace (192 <=? nat_of_ascii b2)%nat with false
          by (symmetry; apply Nat.leb_gt; lia).
        replace (240 <=? nat_of_ascii b2)%nat with false
          by (symmetry; apply Nat.leb_gt; lia).
        replace (nat_of_ascii b3 <? 128)%nat with false
          by (symmetry; apply Nat.ltb_ge; lia).
        replace (192 <=? nat_of_ascii b3)%nat with false
          by (symmetry; apply Nat.leb_gt; lia).
        replace (240 <=? nat_of_ascii b3)%nat with false
          by (symmetry; apply Nat.leb_gt; lia).
        simpl. lia.
      * cbn [Validation.length16].
        apply Nat.ltb_ge in E2.
        replace (nat_of_ascii c <? 128)%nat with false
          by (symmetry; apply Nat.ltb_ge; lia).
        replace (nat_of_ascii c <? 240)%nat with false
          by (symmetry; apply Nat.ltb_ge; lia).
        replace (240 <=? nat_of_ascii c)%nat with true
          by (symmetry; apply Nat.leb_le; lia).
        rewrite andb_false_r. cbn [orb]. specialize (IH n'). lia.
Qed.

Lemma noPoint_substring16 (s : string) :
  forall n, Props.noPoint s = true ->
            Props.noPoint (Validation.substring16 n s) = true.
Proof.
  unfold Props.noPoint.
  induction s as [|c s IH]; intros n H; [reflexivity|].
  cbn [Validation.every] in H. apply andb_true_iff in H. destruct H as [Hc Hs].
  cbn [Validation.substring16].
  destruct (_ && _).
  - cbn [Validation.every]. rewrite Hc. exact (IH n Hs).
  - destruct (nat_of_ascii c <? 240)%nat.
    + destruct n as [|n']; [reflexivity|].
      cbn [Validation.every]. rewrite Hc. exact (IH n' Hs).
    + destruct n as [|[|n']]; [reflexivity | |].
      * destruct s as [|c2 [|c3 [|c4 s4]]];
          [reflexivity | reflexivity | reflexivity |].
        destruct (highSurrogate_bytes c c2 c3 c4) as (b2 & b3 & -> & H2 & H3).
        cbn [Validation.every].
        assert (Hb : forall b, (128 <= nat_of_ascii b)%nat -> negb (isDot b) = true).
        { intros b Hb. apply negb_true_iff. unfold isDot.
          apply Ascii.eqb_neq. intros ->. vm_compute in Hb. lia. }
        rewrite (Hb b2), (Hb b3) by lia. reflexivity.
      * cbn [Validation.every]. rewrite Hc. exact (IH n' Hs).
Qed.

(** The text the listener makes of a value with a decimal point: of its
    integer part [int] and of what follows the point, points removed. *)
Lemma fiatText_with_point (v int dec : string) (rest : list string) :
  split_dot v = int :: dec :: rest ->
  let dec' := match rest with [] => dec | _ => Screen.join (dec :: rest) end in
  Props.noPoint int = true /\ Props.noPoint dec' = true /\
  Screen.fiatText v =
    (if (2 <? Validation.length16 dec')%nat
     then int ++ "." ++ Validation.substring16 2 dec'
     else match rest with [] => v | _ => int ++ "." ++ dec' end) /\
  (match rest with
   | [] => (2 <? Validation.length16 dec')%nat = false -> split_dot v = [int; dec']
   | _ => True
   end).
Proof.
  intros Hs. cbv zeta.
  pose proof (split_dot_parts v) as Hp. rewrite Hs in Hp.
  inversion Hp as [|? ? Hi Hp']; subst. inversion Hp' as [|? ? Hd Hr]; subst.
  unfold Screen.fiatText. rewrite Hs. cbv zeta. cbn [List.length hd tl].
  destruct rest as [|r rest'].
  - (* one decimal point *)
    change (2 <? S (S (Datatypes.length (A:=string) [])))%nat with false.
    cbv iota.
    assert (Hinc : includes "." v = true).
    { rewrite includes_dot. apply negb_true_iff.
      destruct (Props.noPoint v) eqn:E; [|reflexivity].
      rewrite (split_dot_noPoint v E) in Hs. discriminate. }
    rewrite Hinc, Hs.
    split; [exact Hi|]. split; [exact Hd|]. split; [reflexivity | auto].
  - (* more than one *)
    replace (2 <? S (S (Datatypes.length (r :: rest'))))%nat with true
      by (symmetry; apply Nat.ltb_lt; simpl; lia).
    set (d := Screen.join (dec :: r :: rest')).
    assert (Hd' : Props.noPoint d = true) by (apply noPoint_join; exact Hp').
    assert (Hv1 : split_dot (int ++ "." ++ d) = [int; d]).
    { change (int ++ "." ++ d) with (int ++ String "." d).
      rewrite (split_dot_app int d Hi), (split_dot_noPoint d Hd'). reflexivity. }
    assert (Hinc : includes "." (int ++ "." ++ d) = true).
    { rewrite includes_dot, noPoint_app. rewrite andb_comm. reflexivity. }
    rewrite Hinc, Hv1.
    split; [exact Hi|]. split; [exact Hd'|]. split; [reflexivity | exact I].
Qed.

Lemma fiatText_without_point (v x : string) :
  split_dot v = [x] -> Screen.fiatText v = v.
Proof.
  intros Hs. unfold Screen.fiatText. rewrite Hs. cbv zeta.
  change (2 <? List.length [x])%nat with false. cbv iota.
  assert (Hn : Props.noPoint v = true).
  { destruct (Props.noPoint v) eqn:E; [reflexivity|].
    assert (Hinc : includes "." v = true) by (rewrite includes_dot, E; reflexivity).
    exfalso. clear E.
    assert (H : forall s, includes "." s = true ->
                          (2 <= List.length (split_dot s))%nat).
    { clear. induction s as [|c s IH]; [discriminate|].
      cbn [includes split_dot].
      destruct (Ascii.ascii_dec "." c) as [<-|n].
      - intros _. simpl. pose proof (split_dot_nonempty s).
        destruct (split_dot s); [congruence | simpl; lia].
      - rewrite (prefix_cons_ne "." c "" s n). intros H. specialize (IH H).
        assert (E : isDot c = false)
          by (unfold isDot; apply Ascii.eqb_neq; congruence).
        rewrite E. destruct (split_dot s); simpl in *; lia. }
    specialize (H v Hinc). rewrite Hs in H. simpl in H. lia. }
  rewrite includes_dot, Hn. reflexivity.
Qed.

Lemma fiatText_clean (v : string) : Props.fiatClean (Screen.fiatText v) = true.
Proof.
  destruct (split_dot v) as [|int [|dec rest]] eqn:Hs.
  - exfalso. exact (split_dot_nonempty v Hs).
  - rewrite (fiatText_without_point v int Hs). unfold Props.fiatClean.
    rewrite Hs. reflexivity.
  - destruct (fiatText_with_point v int dec rest Hs) as (Hi & Hd & -> & Hone).
    set (d := match rest with [] => dec | _ => Screen.join (dec :: rest) end) in *.
    destruct (2 <? Validation.length16 d)%nat eqn:E.
    + unfold Props.fiatClean.
      change (int ++ "." ++ Validation.substring16 2 d)
        with (int ++ String "." (Validation.substring16 2 d)).
      rewrite (split_dot_app _ _ Hi),
        (split_dot_noPoint _ (noPoint_substring16 d 2 Hd)).
      apply Nat.leb_le. apply length16_substring16.
    + apply Nat.ltb_ge in E. unfold Props.fiatClean.
      destruct rest as [|r rest'].
      * rewrite Hs. apply Nat.leb_le. exact E.
      * change (int ++ "." ++ d) with (int ++ String "." d).
        rewrite (split_dot_app _ _ Hi), (split_dot_noPoint _ Hd).
        apply Nat.leb_le. exact E.
Qed.

Lemma fiatText_fixes_clean (v : string) :
  Props.fiatClean v = true -> Screen.fiatText v = v.
Proof.
  unfold Props.fiatClean.
  destruct (split_dot v) as [|int [|dec [|r rest]]] eqn:Hs; try discriminate.
  - intros _. exact (fiatText_without_point v int Hs).
  - intros H. apply Nat.leb_le in H.
    destruct (fiatText_with_point v int dec [] Hs) as (_ & _ & -> & _).
    replace (2 <? Validation.length16 dec)%nat with false
      by (symmetry; apply Nat.ltb_ge; exact H).
    reflexivity.
Qed.

Lemma fiatText_integer_part (v : string) :
  hd EmptyString (split_dot (Screen.fiatText v))
  = hd EmptyString (split_dot v).
Proof.
  destruct (split_dot v) as [|int [|dec rest]] eqn:Hs.
  - exfalso. exact (split_dot_nonempty v Hs).
  - rewrite (fiatText_without_point v int Hs), Hs. reflexivity.
  - destruct (fiatText_with_point v int dec rest Hs) as (Hi & Hd & -> & _).
    set (d := match rest with [] => dec | _ => Screen.join (dec :: rest) end) in *.
    destruct (2 <? Validation.length16 d)%nat.
    + change (int ++ "." ++ Validation.substring16 2 d)
        with (int ++ String "." (Validation.substring16 2 d)).
      rewrite (split_dot_app _ _ Hi). reflexivity.
    + destruct rest as [|r rest']; [rewrite Hs; reflexivity|].
      change (int ++ "." ++ d) with (int ++ String "." d).
      rewrite (split_dot_app _ _ Hi). reflexivity.
Qed.

(** X22. The input listener of the fiat field keeps the field clean.
    Whatever text an edit leaves, the text the listener makes of it has at
    most one decimal point and at most two characters after it, and the
    same integer part; a text that is already so is left as it is, so the
    listener does nothing the second time. While fiat is authoritative
    that text is what the field holds when the listener is done, the pass
    of the synchronizer included. *)
Theorem fiat_field_is_kept_clean (v : string) (w : World) :
  Props.fiatClean (Screen.fiatText v) = true /\
  (Props.fiatClean v = true -> Screen.fiatText v = v) /\
  Screen.fiatText (Screen.fiatText v) = Screen.fiatText v /\
  hd EmptyString (split_dot (Screen.fiatText v))
    = hd EmptyString (split_dot v) /\
  exists w',
    Screen.fiatInput (with_usdInput (set_content v (usdInput w)) w) = Normal w' /\
    (inputMode (APP_STATE w) = Fiat ->
     content (usdInput w') = Screen.fiatText v).
Proof.
  split; [apply fiatText_clean|].
  split; [apply fiatText_fixes_clean|].
  split; [apply fiatText_fixes_clean, fiatText_clean|].
  split; [apply fiatText_integer_part|].
  destruct (fiatInput_spec (with_usdInput (set_content v (usdInput w)) w))
    as (w1 & E & Fa & _ & _ & _ & _ & _ & Fu).
  destruct (updateAmountMirror_returns w1) as [w' H].
  exists w'. split; [rewrite E; exact H|].
  intros Hm.
  destruct (updateAmountMirror_fiat_field w1 w' H) as [Eu | [Hm' _]].
  - rewrite Eu, Fu. reflexivity.
  - rewrite Fa in Hm'. simpl in Hm'. congruence.
Qed.

(* ================================================================== *)
(** * What the asset field shows *)
(* ================================================================== *)

Lemma length_substring_le (n m : nat) (s : string) :
  (String.length (substring n m s) <= m)%nat.
Proof.
  revert n m. induction s as [|c s IH]; intros n m.
  - destruct n, m; simpl; lia.
  - destruct n as [|n'].
    + destruct m as [|m']; simpl; [lia|]. specialize (IH 0%nat m'). lia.
    + simpl. apply IH.
Qed.

Lemma noPoint_substring (n m : nat) (s : string) :
  Props.noPoint s = true -> Props.noPoint (substring n m s) = true.
Proof.
  unfold Props.noPoint. revert n m.
  induction s as [|c s IH]; intros n m H.
  - destruct n, m; reflexivity.
  - simpl in H. apply andb_true_iff in H. destruct H as [Hc Hs].
    destruct n as [|n'].
    + destruct m as [|m']; simpl; [reflexivity|].
      rewrite Hc. exact (IH 0%nat m' Hs).
    + simpl. exact (IH n' m Hs).
Qed.

(** The text shown has at most six characters between its first and its
    second decimal point. *)
Lemma displayValue_six_decimals (s : string) :
  match split_dot (displayValue s) with
  | _ :: p1 :: _ => (String.length p1 <= 6)%nat
  | _ => True
  end.
Proof.
  unfold displayValue.
  destruct (includes "." s) eqn:Hinc.
  - pose proof (split_dot_parts s) as Hp.
    destruct (split_dot s) as [|p0 [|p1 rest]] eqn:Hs.
    + rewrite Hs. exact I.
    + rewrite Hs. exact I.
    + inversion Hp as [|? ? H0 Hp']; subst. inversion Hp' as [|? ? H1 _]; subst.
      destruct (negb (String.eqb p1 "") && (6 <? lengthZ p1)) eqn:E.
      * change (p0 ++ "." ++ substring 0 6 p1)
          with (p0 ++ String "." (substring 0 6 p1)).
        rewrite (split_dot_app _ _ H0),
          (split_dot_noPoint _ (noPoint_substring 0 6 p1 H1)).
        apply length_substring_le.
      * rewrite Hs. apply andb_false_iff in E. destruct E as [E | E].
        -- apply negb_false_iff, String.eqb_eq in E. subst p1. simpl. lia.
        -- apply Z.ltb_ge in E. unfold lengthZ in E. lia.
  - destruct (split_dot s) as [|p0 [|p1 rest]] eqn:Hs; try exact I.
    exfalso. rewrite includes_dot in Hinc. apply negb_false_iff in Hinc.
    rewrite (split_dot_noPoint s Hinc) in Hs. discriminate.
Qed.

(** X23. The asset field never shows more than six decimals. Whatever
    the synchronizer writes to the asset field while fiat is authoritative
    is the sentinel or a text with at most six characters after its
    decimal point: the digits beyond are cut, not rounded, so that the
    seventh and eighth decimals [deriveFromFiat] keeps for Bitcoin are
    never shown. *)
Theorem asset_field_shows_six_decimals (w : World) :
  inputMode (APP_STATE w) = Fiat ->
  exists w',
    updateAmountMirror w = Normal w' /\
    (assetDisplay w' = assetDisplay w \/
     content (assetDisplay w') = NEUTRAL \/
     match split_dot (content (assetDisplay w')) with
     | _ :: p1 :: _ => (String.length p1 <= 6)%nat
     | _ => True
     end).
Proof.
  intros Hm.
  destruct (updateAmountMirror_returns w) as [w' H].
  exists w'. split; [exact H|].
  destruct (negb (truthyString (asset (APP_STATE w)))
            || negb (truthyNumber (assetPriceUSD (DATA_STATE w)))) eqn:Epre.
  { unfold updateAmountMirror in H. rewrite Epre in H.
    inversion H; subst w'. left; reflexivity. }
  destruct (deriveFromFiat_returns (content (usdInput w)) w
              (chain (APP_STATE w))) as [r Ed].
  rewrite (updateAmountMirror_fiat w r Epre Hm Ed) in H.
  destruct (isActive w AssetDisplay);
    [inversion H; subst w'; left; reflexivity|].
  injection H as <-. right.
  unfold Spec.shownInFiatMode.
  destruct r as [d|].
  - destruct (ltb zero d).
    + right. apply displayValue_six_decimals.
    + destruct (_ && _); [left; reflexivity|].
      right. apply displayValue_six_decimals.
  - destruct (_ && _); [left; reflexivity|].
    right. apply displayValue_six_decimals.
Qed.

Lemma asset_field_shows_six_decimals_witness :
  AmountEngine.deriveFromFiat (str "1") (num Spec.priceBTC) (Some "Bitcoin")
    = Normal (Some (ofDecimal 2381 (-8))) /\
  exists w',
    updateAmountMirror
      (with_APP_STATE
         {| chain := Some "Bitcoin"; asset := Some "btc";
            recipientAddress := None; inputMode := Fiat; isBlocked := false;
            isLocked := false; source := None; chainUserSelected := false;
            assetUserSelected := false; btcAddressType := None |}
         (Scenario.screen Fiat true (Some Spec.priceBTC) "1" NEUTRAL None))
      = Normal w' /\
    content (assetDisplay w') = "0.000023".
Proof.
  split; [vm_compute; reflexivity|].
  destruct (asset_field_shows_six_decimals
              (with_APP_STATE
                 {| chain := Some "Bitcoin"; asset := Some "btc";
                    recipientAddress := None; inputMode := Fiat;
                    isBlocked := false; isLocked := false; source := None;
                    chainUserSelected := false; assetUserSelected := false;
                    btcAddressType := None |}
                 (Scenario.screen Fiat true (Some Spec.priceBTC) "1" NEUTRAL
                    None)) eq_refl) as (w' & H & _).
  exists w'. split; [exact H|].
  vm_compute in H. injection H as <-. reflexivity.
Defined.

(** An address one of the validators accepts is free of white space and
    at least 26 characters long. *)
Lemma valid_address_length (a : string) :
  Validation.validateEthereumAddress (Some a)
  || Validation.validateBitcoinAddress (Some a)
  || Validation.validateSolanaAddress (Some a) = true ->
  trim a = a /\ (26 <= Validation.length16 a)%nat.
Proof.
  intros H.
  assert (Hne : exists c a', a = String c a')
    by (destruct a; [discriminate | eauto]).
  destruct Hne as (c & a' & ->).
  unfold Validation.validateEthereumAddress, Validation.validateBitcoinAddress,
    Validation.validateSolanaAddress, Validation.base58Regex in H.
  assert (Hall : exists cls lo hi p,
             (forall x, cls x = true -> Validation.inRange 33 126 x = true) /\
             Validation.every (Validation.inRange 33 126) p = true /\
             prefix p (String c a') = true /\
             Validation.repeated cls lo hi
               (skip (String.length p) (String c a')) = true /\
             (26 <= String.length p + lo)%nat).
  { repeat (apply orb_true_iff in H; destruct H as [H | H]);
      try (apply andb_true_iff in H; destruct H as [Hp Hr]).
    - exists Validation.isHexDigit, 40%nat, 40%nat, "0x".
      split; [intros; apply plain_of_classes; auto|].
      repeat split; try assumption; try apply prefix_empty; simpl; lia.
    - exists Validation.isAlphaNumeric, 25%nat, 59%nat, "1".
      split; [intros; apply plain_of_classes; auto|].
      repeat split; try assumption; try apply prefix_empty; simpl; lia.
    - exists Validation.isAlphaNumeric, 25%nat, 59%nat, "3".
      split; [intros; apply plain_of_classes; auto|].
      repeat split; try assumption; try apply prefix_empty; simpl; lia.
    - exists Validation.isAlphaNumeric, 25%nat, 59%nat, "bc1".
      split; [intros; apply plain_of_classes; auto|].
      repeat split; try assumption; try apply prefix_empty; simpl; lia.
    - exists Validation.isBase58, 32%nat, 44%nat, "".
      split; [intros; apply plain_of_classes; auto|].
      split; [reflexivity|]. split; [apply prefix_empty|].
      split; [apply andb_true_iff; split; assumption | simpl; lia]. }
  destruct Hall as (cls & lo & hi & p & Hc & Hp & Hpre & Hr & Hlen).
  destruct (accepted_plain cls lo hi p (String c a') Hc Hp Hpre Hr)
    as (_ & Ht & Hl & Hn).
  split; [exact Ht | rewrite Hl; lia].
Qed.

(** X24. The slider's own check never turns a validated address away:
    for an address one of the three validators accepts, [validateInputs]
    fails only on the amount, with the message for the amount, and passes
    exactly when the fiat text parses to a positive number. *)
Theorem validated_address_passes_the_slider_check (a amountText : string) :
  Validation.validateEthereumAddress (Some a)
  || Validation.validateBitcoinAddress (Some a)
  || Validation.validateSolanaAddress (Some a) = true ->
  Validation.validateInputs a amountText =
    (if isNaN (parseFloat amountText) || leb (parseFloat amountText) zero
     then (false, "Enter a valid amount") else (true, "")).
Proof.
  intros H. destruct (valid_address_length a H) as [Ht Hl].
  unfold Validation.validateInputs. cbv zeta. rewrite Ht.
  replace (Validation.length16 a <? 26)%nat with false
    by (symmetry; apply Nat.ltb_ge; exact Hl).
  reflexivity.
Qed.

Lemma validated_address_passes_the_slider_check_witness :
  Validation.validateInputs "0x52908400098527886E0F7030069857D2E4169EE7" "12.50"
  = (true, "").
Proof.
  rewrite (validated_address_passes_the_slider_check
             "0x52908400098527886E0F7030069857D2E4169EE7" "12.50" eq_refl).
  vm_compute. reflexivity.
Defined.
